(** * FSM guidelines pipeline: checkpoint store and validation engine

    A shallow embedding of [normalized_checkpoint_system.py] and
    [pipeline_validation_checks.py], with the properties that their
    specification states about them and further properties of the code.

    Conventions of the embedding:
    - Python [str] is [string]. The text handled here (file names, trial
      identifiers, column labels) is ASCII, and [\d], [\w], [\b] and
      [int()] are modelled on ASCII text.
    - Python [int] is [Z]. Python [float] is the kernel's binary64
      [float], so that thresholds such as [0.05 * 100] and
      [expected_max * 1.2] round exactly as they do at run time. An
      integer meets a float through [float_of_int]; counts of rows and of
      distinct values are below 2^53, where that conversion is exact.
    - A table is its column labels and its rows; a cell is missing, text,
      an integer or a boolean.
    - A file of the checkpoint directory holds the object that was
      pickled into it; the directory lists its entries in an arbitrary
      order, which the order of the list stands for.
    - The module globals [WARNINGS] and [ERRORS] are threaded as an
      explicit state, which an exception leaves as it was when raised.
    - A message built with an f-string is a constructor that carries the
      values the text is built from; [print] is not modelled.
    - The answer typed at the prompt of [input] is an argument of the
      function that asks for it. *)

From Stdlib Require Import List String Ascii ZArith NArith Bool Lia.
From Stdlib Require Import Permutation.
From Stdlib Require Import Decimal DecimalString DecimalN DecimalPos.
From Stdlib Require Import Floats.
Import ListNotations.

Set Warnings "-inexact-float".

Local Open Scope string_scope.
Local Open Scope Z_scope.

(* ------------------------------------------------------------------ *)
(** ** Fragments of the Python runtime *)

Module Py.

(** Exceptions that the modelled code can raise. *)
Inductive exn :=
| FileNotFoundError (path : string)
| KeyError (key : string)
| ValueError (what : string)
| ZeroDivisionError
| UnpicklingError (path : string).

Inductive result (A : Type) :=
| Ok (a : A)
| Raise (e : exn).
Arguments Ok {A} a.
Arguments Raise {A} e.

(** [s.startswith(p)] *)
Definition startswith (s p : string) : bool := String.prefix p s.

(** [s.endswith(p)]: [p] is [s] or a suffix of the tail of [s]. *)
Fixpoint endswith (s p : string) : bool :=
  if String.eqb s p then true
  else match s with
       | EmptyString => false
       | String _ s' => endswith s' p
       end.

(** [s.replace(old, new)] for a non-empty [old]: occurrences are taken
    left to right and do not overlap. [skip] counts the characters of a
    matched occurrence still to be dropped. *)
Fixpoint replace_from (old new s : string) (skip : nat) : string :=
  match s with
  | EmptyString => EmptyString
  | String c s' =>
      match skip with
      | S k => replace_from old new s' k
      | O =>
          if String.prefix old s
          then new ++ replace_from old new s' (String.length old - 1)
          else String c (replace_from old new s' O)
      end
  end.

(** With an empty [old], Python puts [new] before every character and at
    the end. *)
Fixpoint intersperse_all (new s : string) : string :=
  match s with
  | EmptyString => new
  | String c s' => new ++ String c (intersperse_all new s')
  end.

Definition replace (s old new : string) : string :=
  match old with
  | EmptyString => intersperse_all new s
  | _ => replace_from old new s O
  end.

(** [sep.join(parts)] *)
Fixpoint join (sep : string) (parts : list string) : string :=
  match parts with
  | [] => EmptyString
  | [p] => p
  | p :: rest => p ++ sep ++ join sep rest
  end.

Definition is_digit (c : ascii) : bool :=
  (48 <=? nat_of_ascii c)%nat && (nat_of_ascii c <=? 57)%nat.

Definition is_upper (c : ascii) : bool :=
  (65 <=? nat_of_ascii c)%nat && (nat_of_ascii c <=? 90)%nat.

Definition is_lower (c : ascii) : bool :=
  (97 <=? nat_of_ascii c)%nat && (nat_of_ascii c <=? 122)%nat.

(** [\w] on ASCII text: letters, digits and the underscore. *)
Definition is_word (c : ascii) : bool :=
  is_digit c || is_upper c || is_lower c || Ascii.eqb c "_"%char.

(** Whitespace as [int()] sees it on ASCII text: TAB, LF, VT, FF, CR and
    the space. *)
Definition is_space (c : ascii) : bool :=
  let n := nat_of_ascii c in
  ((9 <=? n)%nat && (n <=? 13)%nat) || (n =? 32)%nat.

Definition upper_char (c : ascii) : ascii :=
  if is_lower c then ascii_of_nat (nat_of_ascii c - 32) else c.

(** [s.upper()] *)
Fixpoint upper (s : string) : string :=
  match s with
  | EmptyString => EmptyString
  | String c s' => String (upper_char c) (upper s')
  end.

Fixpoint lstrip (s : string) : string :=
  match s with
  | EmptyString => EmptyString
  | String c s' => if is_space c then lstrip s' else s
  end.

Fixpoint rstrip (s : string) : string :=
  match s with
  | EmptyString => EmptyString
  | String c s' =>
      match rstrip s' with
      | EmptyString => if is_space c then EmptyString else String c EmptyString
      | r => String c r
      end
  end.

Definition strip (s : string) : string := rstrip (lstrip s).

Definition digit_of_char (c : ascii) : option (uint -> uint) :=
  if Ascii.eqb c "0" then Some D0 else
  if Ascii.eqb c "1" then Some D1 else
  if Ascii.eqb c "2" then Some D2 else
  if Ascii.eqb c "3" then Some D3 else
  if Ascii.eqb c "4" then Some D4 else
  if Ascii.eqb c "5" then Some D5 else
  if Ascii.eqb c "6" then Some D6 else
  if Ascii.eqb c "7" then Some D7 else
  if Ascii.eqb c "8" then Some D8 else
  if Ascii.eqb c "9" then Some D9 else None.

(** The digits of an integer literal as [int()] accepts them: one or more
    digits, single underscores allowed between two digits.
    [after_digit] tells whether the previous character was a digit. *)
Fixpoint parse_digits (s : string) (after_digit : bool) : option uint :=
  match s with
  | EmptyString => if after_digit then Some Nil else None
  | String c s' =>
      match digit_of_char c with
      | Some d => option_map d (parse_digits s' true)
      | None =>
          if Ascii.eqb c "_" && after_digit
          then parse_digits s' false
          else None
      end
  end.

(** [int(s)] in base 10 on ASCII text: surrounding whitespace is
    dropped, then an optional sign, then the digits. [None] stands for
    [ValueError]. *)
Definition int_of_str (s : string) : option Z :=
  match strip s with
  | EmptyString => None
  | String c ds =>
      if Ascii.eqb c "-" then
        option_map (fun d => - Z.of_N (N.of_uint d)) (parse_digits ds false)
      else if Ascii.eqb c "+" then
        option_map (fun d => Z.of_N (N.of_uint d)) (parse_digits ds false)
      else
        option_map (fun d => Z.of_N (N.of_uint d)) (parse_digits (String c ds) false)
  end.

(** [str(n)] for an integer. *)
Definition str_of_int (z : Z) : string :=
  (if z <? 0 then "-" else "") ++ NilEmpty.string_of_uint (N.to_uint (Z.abs_N z)).

Fixpoint zeros (n : nat) : string :=
  match n with
  | O => EmptyString
  | S k => String "0" (zeros k)
  end.

(** [f'{z:05d}']: the sign comes first and counts in the width of 5, the
    digits are padded with zeros on the left. *)
Definition format_05d (z : Z) : string :=
  let sign := if z <? 0 then "-" else "" in
  let ds := NilEmpty.string_of_uint (N.to_uint (Z.abs_N z)) in
  sign ++ zeros (5 - String.length sign - String.length ds) ++ ds.

(** [float(n)] for an integer, rounded to nearest even. *)
Definition float_of_int (z : Z) : float :=
  SF2Prim (binary_normalize prec emax z 0 false).

End Py.

Import Py.

(* ------------------------------------------------------------------ *)
(** ** The fragment of [re] that the validators use *)

Module Re.

(** One-character matchers. *)
Inductive atom :=
| Lit (c : ascii)   (* a literal character *)
| Digit.            (* [\d] *)

(** The items of a pattern, matched in sequence. *)
Inductive item :=
| One (a : atom)
| Times (n : nat) (a : atom)   (* [a{n}] *)
| Many1 (a : atom)             (* [a+], greedy *)
| WordBoundary                 (* [\b] *)
| Bol                          (* [^] *)
| Eol.                         (* [$] *)

Definition pattern := list item.

(** [ic] is the IGNORECASE flag. *)
Definition atom_matches (ic : bool) (a : atom) (c : ascii) : bool :=
  match a with
  | Lit l => if ic then Ascii.eqb (upper_char c) (upper_char l) else Ascii.eqb c l
  | Digit => is_digit c
  end.

Definition is_word_opt (c : option ascii) : bool :=
  match c with
  | Some c => is_word c
  | None => false
  end.

Definition head (s : string) : option ascii :=
  match s with
  | EmptyString => None
  | String c _ => Some c
  end.

(** [n] characters matching [a]; the rest of the text and the last
    character consumed. *)
Fixpoint times (ic : bool) (a : atom) (n : nat) (prev : option ascii) (s : string)
  : option (option ascii * string) :=
  match n with
  | O => Some (prev, s)
  | S k =>
      match s with
      | String c s' => if atom_matches ic a c then times ic a k (Some c) s' else None
      | EmptyString => None
      end
  end.

(** Matches [p] at the start of [s], where [prev] is the character just
    before ([None] at the start of the whole text), and gives what
    follows the match. Alternatives are tried as a backtracking matcher
    does: [a+] takes as many characters as it can and gives them back one
    by one. [$] holds at the end of the text and before a final newline. *)
Fixpoint match_here (ic : bool) (p : pattern) (prev : option ascii) (s : string)
  : option string :=
  match p with
  | [] => Some s
  | One a :: rest =>
      match s with
      | String c s' => if atom_matches ic a c then match_here ic rest (Some c) s' else None
      | EmptyString => None
      end
  | Times n a :: rest =>
      match times ic a n prev s with
      | Some (prev', s') => match_here ic rest prev' s'
      | None => None
      end
  | Many1 a :: rest =>
      let fix more (prev : option ascii) (s : string) : option string :=
        match s with
        | String c s' =>
            if atom_matches ic a c
            then match more (Some c) s' with
                 | Some r => Some r
                 | None => match_here ic rest prev s
                 end
            else match_here ic rest prev s
        | EmptyString => match_here ic rest prev s
        end in
      match s with
      | String c s' => if atom_matches ic a c then more (Some c) s' else None
      | EmptyString => None
      end
  | WordBoundary :: rest =>
      if xorb (is_word_opt prev) (is_word_opt (head s))
      then match_here ic rest prev s else None
  | Bol :: rest =>
      match prev with
      | None => match_here ic rest prev s
      | Some _ => None
      end
  | Eol :: rest =>
      if String.eqb s "" || String.eqb s (String "010" "")
      then match_here ic rest prev s else None
  end.

(** [re.match(p, s)] is not [None]. *)
Definition matches (ic : bool) (p : pattern) (s : string) : bool :=
  match match_here ic p None s with
  | Some _ => true
  | None => false
  end.

(** [re.search(p, s)] is not [None]: a match at some position. *)
Fixpoint search_from (ic : bool) (p : pattern) (prev : option ascii) (s : string) : bool :=
  match match_here ic p prev s with
  | Some _ => true
  | None =>
      match s with
      | String c s' => search_from ic p (Some c) s'
      | EmptyString => false
      end
  end.

Definition search (ic : bool) (p : pattern) (s : string) : bool :=
  search_from ic p None s.

(** The first [n] characters of [s]. *)
Fixpoint take (n : nat) (s : string) : string :=
  match n, s with
  | S k, String c s' => String c (take k s')
  | _, _ => EmptyString
  end.

(** [re.findall(p, s)] for a pattern without groups: the matches from left
    to right, each search resuming where the previous match ended.
    [skip] counts the characters of the last match still to be passed. *)
Fixpoint findall_from (ic : bool) (p : pattern) (prev : option ascii) (s : string)
  (skip : nat) : list string :=
  match skip with
  | S k =>
      match s with
      | String c s' => findall_from ic p (Some c) s' k
      | EmptyString => []
      end
  | O =>
      match match_here ic p prev s with
      | Some r =>
          let n := (String.length s - String.length r)%nat in
          take n s ::
          match s with
          | String c s' => findall_from ic p (Some c) s' (n - 1)
          | EmptyString => []
          end
      | None =>
          match s with
          | String c s' => findall_from ic p (Some c) s' O
          | EmptyString => []
          end
      end
  end.

Definition findall (ic : bool) (p : pattern) (s : string) : list string :=
  findall_from ic p None s O.

End Re.

(* ------------------------------------------------------------------ *)
(** ** normalized_checkpoint_system.py, phase 1 *)

Module Checkpoint.

(** One collected item: a mapping from field name to value. *)
Definition record := list (string * string).

(** The dict that [save_phase1_checkpoint] pickles. *)
Record checkpoint := {
  batch_index : Z;
  pubmed_data : list record;
  failed_batches : list Z;
  total_count : Z;
  timestamp : string
}.

(** What a file of the checkpoint directory holds: a pickled checkpoint,
    the CSV mirror of a payload, or anything else. [pickle.load] gives
    back the object that [pickle.dump] wrote. *)
Inductive file :=
| Pickle (c : checkpoint)
| Csv (rows : list record)
| Other (bytes : string).

(** The entries of a directory, in the order [os.listdir] yields them. *)
Definition directory := list (string * file).

(** [PHASE_DIRS['phase1_pubmed']] on disk; [None] when it does not exist. *)
Definition store := option directory.

(** Opening [name] for writing truncates the file or creates it. *)
Fixpoint write_file (name : string) (f : file) (d : directory) : directory :=
  match d with
  | [] => [(name, f)]
  | (n, g) :: d' =>
      if String.eqb n name then (name, f) :: d' else (n, g) :: write_file name f d'
  end.

Fixpoint read_file (name : string) (d : directory) : option file :=
  match d with
  | [] => None
  | (n, g) :: d' => if String.eqb n name then Some g else read_file name d'
  end.

Definition listdir (d : directory) : list string := map fst d.

(** [os.makedirs(..., exist_ok=True)] *)
Definition create_phase1_dirs (st : store) : directory :=
  match st with
  | Some d => d
  | None => []
  end.

Definition pkl_name (batch_index : Z) : string :=
  "phase1_checkpoint_batch_" ++ format_05d batch_index ++ ".pkl".

Definition csv_name (batch_index : Z) : string :=
  "phase1_checkpoint_batch_" ++ format_05d batch_index ++ ".csv".

(** [now] is the value of [datetime.now().isoformat()]. *)
Definition save_phase1_checkpoint (now : string)
  (batch_index : Z) (pubmed_data : list record) (failed_batches : list Z)
  (total_count : Z) (st : store) : store :=
  let d := create_phase1_dirs st in
  let checkpoint :=
    {| batch_index := batch_index;
       pubmed_data := pubmed_data;
       failed_batches := failed_batches;
       total_count := total_count;
       timestamp := now |} in
  let d := write_file (pkl_name batch_index) (Pickle checkpoint) d in
  match pubmed_data with
  | [] => Some d
  | _ :: _ => Some (write_file (csv_name batch_index) (Csv pubmed_data) d)
  end.

(** [f.startswith('phase1_checkpoint_batch_') and f.endswith('.pkl')] *)
Definition is_checkpoint_file (f : string) : bool :=
  startswith f "phase1_checkpoint_batch_" && endswith f ".pkl".

(** The key of [max]:
    [int(x.replace('phase1_checkpoint_batch_', '').replace('.pkl', ''))] *)
Definition cursor_of_name (x : string) : option Z :=
  int_of_str (replace (replace x "phase1_checkpoint_batch_" "") ".pkl" "").

(** [max(l, key=...)] after its first element: a later element replaces
    the best one only when its key is strictly greater; a key that cannot
    be computed raises. *)
Fixpoint max_by_cursor (best : string) (best_key : Z) (l : list string) : result string :=
  match l with
  | [] => Ok best
  | x :: l' =>
      match cursor_of_name x with
      | None => Raise (ValueError x)
      | Some k =>
          if best_key <? k then max_by_cursor x k l' else max_by_cursor best best_key l'
      end
  end.

Definition load_phase1_checkpoint (st : store) : result (option checkpoint) :=
  match st with
  | None => Ok None
  | Some d =>
      let checkpoint_files := filter is_checkpoint_file (listdir d) in
      match checkpoint_files with
      | [] => Ok None
      | x :: l =>
          match cursor_of_name x with
          | None => Raise (ValueError x)
          | Some k =>
              match max_by_cursor x k l with
              | Raise e => Raise e
              | Ok latest_file =>
                  match read_file latest_file d with
                  | Some (Pickle checkpoint) => Ok (Some checkpoint)
                  | Some _ => Raise (UnpicklingError latest_file)
                  | None => Raise (FileNotFoundError latest_file)
                  end
              end
          end
      end
  end.

End Checkpoint.

(* ------------------------------------------------------------------ *)
(** ** The fragment of pandas that the validators use *)

Module Pandas.

(** A cell of a table read from CSV: missing ([NaN]/[None]), text, an
    integer or a boolean. *)
Inductive cell :=
| NA
| Str (s : string)
| Int (z : Z)
| Bool (b : bool).

Definition cell_eqb (a b : cell) : bool :=
  match a, b with
  | NA, NA => true
  | Str s, Str t => String.eqb s t
  | Int x, Int y => Z.eqb x y
  | Bool x, Bool y => Bool.eqb x y
  | _, _ => false
  end.

(** [pd.notna] *)
Definition notna (c : cell) : bool :=
  match c with
  | NA => false
  | _ => true
  end.

(** [str(c)], which is also what [astype(str)] applies. *)
Definition str_of_cell (c : cell) : string :=
  match c with
  | NA => "nan"
  | Str s => s
  | Int z => str_of_int z
  | Bool true => "True"
  | Bool false => "False"
  end.

(** [bool(c)] after [fillna(False)]. *)
Definition truthy (c : cell) : bool :=
  match c with
  | NA => false
  | Str s => negb (String.eqb s "")
  | Int z => negb (Z.eqb z 0)
  | Bool b => b
  end.

(** A table: the column labels and the rows, each row aligned with the
    labels. *)
Record DataFrame := {
  columns : list string;
  rows : list (list cell)
}.

(** [len(df)] *)
Definition len (df : DataFrame) : Z := Z.of_nat (List.length (rows df)).

(** [c in df.columns] *)
Definition has_column (df : DataFrame) (c : string) : bool :=
  existsb (String.eqb c) (columns df).

(** [row.get(c)]: the cell under label [c], missing when there is none. *)
Fixpoint row_get (cols : list string) (r : list cell) (c : string) : cell :=
  match cols, r with
  | n :: cols', v :: r' => if String.eqb n c then v else row_get cols' r' c
  | _, _ => NA
  end.

Definition column (df : DataFrame) (c : string) : list cell :=
  map (fun r => row_get (columns df) r c) (rows df).

(** [df[c]], which raises [KeyError] for an unknown label. *)
Definition getitem (df : DataFrame) (c : string) : result (list cell) :=
  if has_column df c then Ok (column df c) else Raise (KeyError c).

(** The distinct values of a list, in order of first appearance. *)
Fixpoint unique_from {A : Type} (eqb : A -> A -> bool) (seen l : list A) : list A :=
  match l with
  | [] => []
  | x :: l' =>
      if existsb (eqb x) seen then unique_from eqb seen l'
      else x :: unique_from eqb (x :: seen) l'
  end.

(** [Series.unique()] *)
Definition unique (l : list cell) : list cell := unique_from cell_eqb [] l.

(** [Series.nunique()], which leaves missing values out. *)
Definition nunique (l : list cell) : Z :=
  Z.of_nat (List.length (unique (filter notna l))).

Definition key_eqb (k1 k2 : list cell) : bool :=
  (List.length k1 =? List.length k2)%nat && forallb (fun p => cell_eqb (fst p) (snd p)) (combine k1 k2).

(** The value tuples of the rows on the columns [subset]. *)
Definition key_tuples (df : DataFrame) (subset : list string) : list (list cell) :=
  map (fun r => map (row_get (columns df) r) subset) (rows df).

Definition occurrences (k : list cell) (keys : list (list cell)) : nat :=
  List.length (filter (key_eqb k) keys).

(** [df.duplicated(subset, keep=False)]: every row whose value tuple is
    that of another row as well. Missing values are equal to each other
    here. *)
Definition duplicated_all (keys : list (list cell)) : list bool :=
  map (fun k => (2 <=? occurrences k keys)%nat) keys.

(** [df.duplicated(subset)], with the default [keep='first']: every row
    whose value tuple was seen in an earlier row. *)
Fixpoint duplicated_first (seen keys : list (list cell)) : list bool :=
  match keys with
  | [] => []
  | k :: keys' => existsb (key_eqb k) seen :: duplicated_first (k :: seen) keys'
  end.

(** [mask.sum()] *)
Definition count_true (mask : list bool) : Z :=
  Z.of_nat (List.length (filter (fun b => b) mask)).

(** [df[mask]] on a list of row-aligned values. *)
Fixpoint select {A : Type} (mask : list bool) (l : list A) : list A :=
  match mask, l with
  | b :: mask', x :: l' => if b then x :: select mask' l' else select mask' l'
  | _, _ => []
  end.

End Pandas.

Import Pandas.

(* ------------------------------------------------------------------ *)
(** ** pipeline_validation_checks.py

    The generic checks, the validators of the phases and the master
    runner. [check_merge_integrity], which no validator calls, and
    [quick_check_after_phase], which only prints, are left out. *)

Module Validation.

Local Open Scope list_scope.
Local Open Scope float_scope.

(** The messages that the checks return or append to [WARNINGS] and
    [ERRORS], each with the values its text is built from. *)
Inductive message :=
(* check_row_count_match *)
| RowCountNoExpected (phase_name : string) (actual_count : Z)
| RowCountMismatch (phase_name : string) (expected_count actual_count diff : Z)
    (pct_diff : float) (threshold : float) (explanation : string)
| RowCountOk (phase_name : string) (actual_count : Z) (pct_diff : float)
(* check_no_duplicates *)
| EmptyDataframe (phase_name : string)
| MissingColumns (phase_name : string) (missing_cols : list string)
| DuplicateRows (phase_name : string) (dup_count : Z) (columns : list string)
    (description : string) (examples : list (list (string * cell)))
| NoDuplicates (phase_name : string) (columns : list string) (description : string)
(* check_cartesian_product *)
| SuspiciousUniqueCount (phase_name col : string) (actual_unique expected_unique : Z)
    (ratio : float)
| CartesianProduct (phase_name : string) (actual_rows expected_max : Z) (ratio : float)
| NoCartesianProduct (phase_name : string)
(* check_column_values *)
| ColumnNotPresent (phase_name column : string)
| InvalidValues (phase_name : string) (invalid_count : Z) (column description : string)
    (examples : list cell)
| AllValuesValid (phase_name column : string)
(* validate_phase1 *)
| MissingCriticalColumns (missing_base : list string)
| NullPmids (null_pmids : Z)
(* validate_phase2 *)
| LowGuidelineCoverage (expected_guidelines actual_guidelines : Z) (coverage_pct : float)
| OutlierGuideline (max_refs : Z) (mean_refs : float)
| LowReferenceCount (total expected_min : Z)
| HighReferenceCount (total expected_max : Z)
(* validate_phase3 *)
| MissingRequiredColumns (missing_required : list string)
| PluralGuidelinePmids
| MissingIsClinicalTrial
| CitationRatioBelowOne (citation_ratio : float)
| HighClinicalTrialRate (ct_pct_unique : float)
| SuspiciousNctStrings (suspicious_count : Z) (examples : list (cell * cell))
| DuplicateNctsWithinPmid (dup_within_pmid : Z)
(* validate_phase7 *)
| WithDuplicatesFewerRows (with_dups dedup : Z)
| CitationRatioVeryHigh (ratio : float)
(* validate_phase7b *)
| NotMoreTrialsThanPhase7 (trials expected_min : Z)
| CitationsFewerRows (citations dedup : Z).

(** The module globals. *)
Record logs := {
  WARNINGS : list message;
  ERRORS : list message
}.

(** A computation that reads and extends the logs and may raise. *)
Definition M (A : Type) : Type := logs -> result A * logs.

Definition ret {A : Type} (a : A) : M A := fun st => (Ok a, st).

Definition raise {A : Type} (e : exn) : M A := fun st => (Raise e, st).

Definition bind {A B : Type} (m : M A) (k : A -> M B) : M B :=
  fun st =>
    match m st with
    | (Ok a, st') => k a st'
    | (Raise e, st') => (Raise e, st')
    end.

Definition lift {A : Type} (r : result A) : M A := fun st => (r, st).

(** [WARNINGS.append(msg)] *)
Definition warn (msg : message) : M unit :=
  fun st => (Ok tt, {| WARNINGS := WARNINGS st ++ [msg]; ERRORS := ERRORS st |}).

(** [ERRORS.append(msg)] *)
Definition error (msg : message) : M unit :=
  fun st => (Ok tt, {| WARNINGS := WARNINGS st; ERRORS := ERRORS st ++ [msg] |}).

(** [len(ERRORS)] *)
Definition errors_count : M Z :=
  fun st => (Ok (Z.of_nat (List.length (ERRORS st))), st).

Declare Scope py_scope.
Delimit Scope py_scope with py.
Notation "x <- m ;; k" := (bind m (fun x => k))
  (at level 61, m at next level, right associativity) : py_scope.
Notation "' pat <- m ;; k" := (bind m (fun x => match x with pat => k end))
  (at level 61, pat pattern, m at next level, right associativity) : py_scope.
Notation "m ;; k" := (bind m (fun _ => k))
  (at level 61, right associativity) : py_scope.
Local Open Scope py_scope.

Definition TOLERANCE_STRICT : float := 0.01.
Definition TOLERANCE_NORMAL : float := 0.05.
Definition TOLERANCE_LOOSE : float := 0.10.

(** [a / b] on two integers. Row and distinct-value counts are well
    below 2^53, where the conversion to [float] is exact and the quotient
    is the correctly rounded one that Python computes. *)
Definition truediv (a b : Z) : result float :=
  if (b =? 0)%Z then Raise ZeroDivisionError
  else Ok (float_of_int a / float_of_int b).

(** [n > x] and [n < x] for an integer [n] and a float [x], with [n]
    below 2^53. *)
Definition int_gt_float (n : Z) (x : float) : bool := x <? float_of_int n.
Definition int_lt_float (n : Z) (x : float) : bool := float_of_int n <? x.

Definition check_row_count_match (actual_df : DataFrame) (expected_count : Z)
  (phase_name : string) (tolerance : float) (explanation : string)
  : M (bool * message) :=
  let actual_count := len actual_df in
  if (expected_count =? 0)%Z then
    ret (true, RowCountNoExpected phase_name actual_count)
  else
    let diff := Z.abs (actual_count - expected_count) in
    let pct_diff :=
      if (expected_count >? 0)%Z
      then float_of_int diff / float_of_int expected_count * 100
      else 0 in
    if tolerance * 100 <? pct_diff then
      let msg := RowCountMismatch phase_name expected_count actual_count diff
                   pct_diff (tolerance * 100) explanation in
      warn msg ;;
      ret (false, msg)
    else
      ret (true, RowCountOk phase_name actual_count pct_diff).

Definition check_no_duplicates (df : DataFrame) (columns : list string)
  (phase_name : string) (description : string) : M (bool * message) :=
  if (len df =? 0)%Z then
    ret (true, EmptyDataframe phase_name)
  else
    let missing_cols := filter (fun col => negb (has_column df col)) columns in
    match missing_cols with
    | _ :: _ =>
        let msg := MissingColumns phase_name missing_cols in
        warn msg ;;
        ret (false, msg)
    | [] =>
        let keys := key_tuples df columns in
        let dups_mask := duplicated_all keys in
        let dup_count := count_true dups_mask in
        if (dup_count >? 0)%Z then
          let dup_rows := select dups_mask keys in
          let examples := map (combine columns) (firstn 3 dup_rows) in
          let msg := DuplicateRows phase_name dup_count columns description examples in
          error msg ;;
          ret (false, msg)
        else
          ret (true, NoDuplicates phase_name columns description)
    end.

(** The loop of [check_cartesian_product] over the items of
    [expected_unique_counts]; the accumulator is [expected_max]. *)
Fixpoint expected_max_loop (df : DataFrame) (phase_name : string)
  (items : list (string * Z)) (expected_max : Z) : M Z :=
  match items with
  | [] => ret expected_max
  | (col, expected_unique) :: items' =>
      if has_column df col then
        let actual_unique := nunique (column df col) in
        let expected_max := (expected_max * expected_unique)%Z in
        if int_gt_float actual_unique (float_of_int expected_unique * 1.5) then
          ratio <- lift (truediv actual_unique expected_unique) ;;
          warn (SuspiciousUniqueCount phase_name col actual_unique expected_unique ratio) ;;
          expected_max_loop df phase_name items' expected_max
        else
          expected_max_loop df phase_name items' expected_max
      else
        expected_max_loop df phase_name items' expected_max
  end.

Definition check_cartesian_product (df : DataFrame)
  (expected_unique_counts : list (string * Z)) (phase_name : string)
  : M (bool * message) :=
  let actual_rows := len df in
  expected_max <- expected_max_loop df phase_name expected_unique_counts 1%Z ;;
  if int_gt_float actual_rows (float_of_int expected_max * 1.2) then
    ratio <- lift (truediv actual_rows expected_max) ;;
    let msg := CartesianProduct phase_name actual_rows expected_max ratio in
    error msg ;;
    ret (false, msg)
  else
    ret (true, NoCartesianProduct phase_name).

(** [valid_pattern] is matched case-sensitively at the start of the text
    of each cell, as [Series.str.match] does. *)
Definition check_column_values (df : DataFrame) (column : string)
  (valid_pattern : Re.pattern) (phase_name : string) (description : string)
  : M (bool * message) :=
  if negb (has_column df column) then
    ret (true, ColumnNotPresent phase_name column)
  else
    let values := Pandas.column df column in
    let valid_mask :=
      map (fun v => notna v && Re.matches false valid_pattern (str_of_cell v)) values in
    let invalid_mask :=
      map (fun p => negb (fst p) && notna (snd p)) (combine valid_mask values) in
    let invalid_count := count_true invalid_mask in
    if (invalid_count >? 0)%Z then
      let invalid_vals := unique (select invalid_mask values) in
      let msg := InvalidValues phase_name invalid_count column description
                   (firstn 5 invalid_vals) in
      warn msg ;;
      ret (false, msg)
    else
      ret (true, AllValuesValid phase_name column).

(** [all(checks_passed)] *)
Definition all (checks_passed : list bool) : bool := forallb (fun b => b) checks_passed.

Definition validate_phase1 (phase1_df : DataFrame) : M bool :=
  '(passed, _) <- check_no_duplicates phase1_df ["PMID"] "Phase 1"
                    "Each PMID should appear once" ;;
  let checks_passed := [passed] in
  let required_base_cols := ["PMID"] in
  let missing_base := filter (fun col => negb (has_column phase1_df col)) required_base_cols in
  checks_passed <-
    match missing_base with
    | _ :: _ =>
        error (MissingCriticalColumns missing_base) ;;
        ret (checks_passed ++ [false])
    | [] => ret (checks_passed ++ [true])
    end ;;
  pmid <- lift (getitem phase1_df "PMID") ;;
  let null_pmids := count_true (map (fun v => negb (notna v)) pmid) in
  checks_passed <-
    (if (null_pmids >? 0)%Z then
       warn (NullPmids null_pmids) ;;
       ret (checks_passed ++ [false])
     else ret (checks_passed ++ [true])) ;;
  ret (all checks_passed).

(** [df.groupby(c).size()]: the number of rows of each distinct value of
    a column, rows with a missing value left out. *)
Definition group_sizes (values : list cell) : list Z :=
  let present := filter notna values in
  map (fun g => Z.of_nat (List.length (filter (cell_eqb g) present))) (unique present).

Definition sum (l : list Z) : Z := fold_right Z.add 0%Z l.

Definition maximum (l : list Z) : Z :=
  match l with
  | [] => 0%Z
  | x :: l' => fold_left Z.max l' x
  end.

(** The counts of references cited several times within one guideline
    are only printed, but building them reads the columns [ref_doi] and
    [ref_title]. The warning about one guideline with far more references
    than the mean also names that guideline ([idxmax]), which is not
    kept here. *)
Definition validate_phase2 (phase2_df phase1_df : DataFrame) : M bool :=
  let checks_passed : list bool := [] in
  pmid <- lift (getitem phase1_df "PMID") ;;
  let expected_guidelines := nunique pmid in
  guideline_pmid <- lift (getitem phase2_df "guideline_pmid") ;;
  let actual_guidelines := nunique guideline_pmid in
  let coverage_pct :=
    if (expected_guidelines >? 0)%Z
    then float_of_int actual_guidelines / float_of_int expected_guidelines * 100
    else 0 in
  checks_passed <-
    (if coverage_pct <? 50 then
       warn (LowGuidelineCoverage expected_guidelines actual_guidelines coverage_pct) ;;
       ret (checks_passed ++ [false])
     else ret (checks_passed ++ [true])) ;;
  _ <- lift (getitem phase2_df "ref_doi") ;;
  _ <- lift (getitem phase2_df "ref_title") ;;
  let checks_passed := checks_passed ++ [true] in
  let refs_per_guideline := group_sizes guideline_pmid in
  checks_passed <-
    match refs_per_guideline with
    | [] => ret (checks_passed ++ [true])
    | _ :: _ =>
        let mean_refs :=
          float_of_int (sum refs_per_guideline)
          / float_of_int (Z.of_nat (List.length refs_per_guideline)) in
        let max_refs := maximum refs_per_guideline in
        if int_gt_float max_refs (mean_refs * 10) then
          warn (OutlierGuideline max_refs mean_refs) ;;
          ret (checks_passed ++ [false])
        else ret (checks_passed ++ [true])
    end ;;
  let expected_min := (expected_guidelines * 20)%Z in
  let expected_max := (expected_guidelines * 500)%Z in
  checks_passed <-
    (if (len phase2_df <? expected_min)%Z then
       warn (LowReferenceCount (len phase2_df) expected_min) ;;
       ret (checks_passed ++ [false])
     else if (len phase2_df >? expected_max)%Z then
       warn (HighReferenceCount (len phase2_df) expected_max) ;;
       ret (checks_passed ++ [false])
     else ret (checks_passed ++ [true])) ;;
  ret (all checks_passed).

(** [re.compile(r"\bNCT\d{8}\b", flags=re.IGNORECASE)] *)
Definition nct_regex : Re.pattern :=
  [Re.WordBoundary; Re.One (Re.Lit "N"); Re.One (Re.Lit "C"); Re.One (Re.Lit "T");
   Re.Times 8 Re.Digit; Re.WordBoundary].

(** [r"\bNCT\d+\b"] *)
Definition nct_like_regex : Re.pattern :=
  [Re.WordBoundary; Re.One (Re.Lit "N"); Re.One (Re.Lit "C"); Re.One (Re.Lit "T");
   Re.Many1 Re.Digit; Re.WordBoundary].

(** [r'^NCT\d{8}$'] *)
Definition nct_strict_regex : Re.pattern :=
  [Re.Bol; Re.One (Re.Lit "N"); Re.One (Re.Lit "C"); Re.One (Re.Lit "T");
   Re.Times 8 Re.Digit; Re.Eol].

(** The loop that keeps the first appearance of each identifier:
    [seen] is the set, [uniq] the list built so far. *)
Fixpoint uniq_loop (found seen uniq : list string) : list string :=
  match found with
  | [] => uniq
  | n :: found' =>
      if existsb (String.eqb n) seen then uniq_loop found' seen uniq
      else uniq_loop found' (n :: seen) (uniq ++ [n])
  end.

(** The list [candidates] of [_parse_ncts_from_row]: the text of
    [all_nct_numbers], then that of [nct_number], each when the label
    exists and the cell is not missing. [index] is [row.index], the
    labels of the table. *)
Definition candidates (index : list string) (row : list cell) : list string :=
  (if existsb (String.eqb "all_nct_numbers") index
      && notna (row_get index row "all_nct_numbers")
   then [str_of_cell (row_get index row "all_nct_numbers")] else [])
  ++
  (if existsb (String.eqb "nct_number") index
      && notna (row_get index row "nct_number")
   then [str_of_cell (row_get index row "nct_number")] else []).

Definition _parse_ncts_from_row (index : list string) (row : list cell) : list string :=
  match candidates index row with
  | [] => []
  | _ :: _ =>
      let text := join " ; " (candidates index row) in
      let found := map upper (Re.findall true nct_regex text) in
      uniq_loop found [] []
  end.

(** [tmp.get(c, pd.Series("", index=tmp.index)).fillna("").astype(str)]
    at one row. *)
Definition raw_field (df : DataFrame) (row : list cell) (c : string) : string :=
  if has_column df c then
    match row_get (columns df) row c with
    | NA => ""
    | v => str_of_cell v
    end
  else "".

Definition raw_text (df : DataFrame) (row : list cell) : string :=
  (raw_field df row "all_nct_numbers" ++ " ; " ++ raw_field df row "nct_number")%string.

(** A row whose raw text has an [NCT]-and-digits word but no word of
    [NCT] and exactly 8 digits. *)
Definition suspicious (df : DataFrame) (row : list cell) : bool :=
  Re.search false nct_like_regex (raw_text df row)
  && negb (Re.search false nct_regex (raw_text df row)).

(** [tmp[["ref_pmid", "parsed_ncts"]].explode("parsed_ncts")] after
    [dropna]: one pair per row and parsed identifier, for the rows that
    have a [ref_pmid]. *)
Definition exploded (df : DataFrame) : list (list cell) :=
  flat_map
    (fun row =>
       match row_get (columns df) row "ref_pmid" with
       | NA => []
       | ref => map (fun n => [ref; Str n]) (_parse_ncts_from_row (columns df) row)
       end)
    (rows df).

(** [len(tmp) / unique_refs if unique_refs else 0] *)
Definition citation_ratio (df : DataFrame) : float :=
  let unique_refs := nunique (column df "ref_pmid") in
  if (unique_refs =? 0)%Z then 0
  else float_of_int (len df) / float_of_int unique_refs.

(** The keyword arguments [use_all_ncts] and [multi_nct_info_threshold]
    only change what is printed, as do the statistics on multi-NCT
    articles, on NCT-linked rows that are not labelled clinical trials
    and on guideline coverage: each of them appends [True] to
    [checks_passed]. *)
Definition validate_phase3 (phase3_df phase2_df : DataFrame) : M bool :=
  let checks_passed : list bool := [] in
  let phase_name := "Phase 3" in
  ref_pmid2 <- lift (getitem phase2_df "ref_pmid") ;;
  let expected_count := Z.of_nat (List.length (filter notna ref_pmid2)) in
  '(passed, _) <- check_row_count_match phase3_df expected_count phase_name
                    TOLERANCE_NORMAL
                    "should approximately match Phase 2 rows with PMIDs (may be slightly less due to cleaning)" ;;
  let checks_passed := checks_passed ++ [passed] in
  let required_cols := ["guideline_pmid"; "ref_pmid"] in
  let missing_required := filter (fun c => negb (has_column phase3_df c)) required_cols in
  match missing_required with
  | _ :: _ =>
      error (MissingRequiredColumns missing_required) ;;
      ret false
  | [] =>
      let checks_passed := checks_passed ++ [true] in
      checks_passed <-
        (if has_column phase3_df "guideline_pmids" then
           warn PluralGuidelinePmids ;;
           ret (checks_passed ++ [false])
         else ret (checks_passed ++ [true])) ;;
      '(passed, _) <- check_no_duplicates phase3_df ["guideline_pmid"; "ref_pmid"]
                        phase_name
                        "Each guideline–reference pair should be unique (cartesian products show up here)" ;;
      let checks_passed := checks_passed ++ [passed] in
      let tmp := phase3_df in
      let parsed_ncts := map (_parse_ncts_from_row (columns tmp)) (rows tmp) in
      let has_nct := map (fun l => (0 <? List.length l)%nat) parsed_ncts in
      is_clinical_trial <-
        (if has_column tmp "is_clinical_trial" then
           ret (map truthy (column tmp "is_clinical_trial"))
         else
           warn MissingIsClinicalTrial ;;
           ret (map (fun _ => false) (rows tmp))) ;;
      let ref_pmid := column tmp "ref_pmid" in
      let unique_refs := nunique ref_pmid in
      let citation_ratio := citation_ratio tmp in
      checks_passed <-
        (if citation_ratio <? 1 then
           error (CitationRatioBelowOne citation_ratio) ;;
           ret (checks_passed ++ [false])
         else ret (checks_passed ++ [true])) ;;
      let ct_unique_refs := nunique (select is_clinical_trial ref_pmid) in
      checks_passed <-
        (if (unique_refs =? 0)%Z then ret checks_passed
         else
           let ct_pct_unique :=
             float_of_int ct_unique_refs / float_of_int unique_refs * 100 in
           if ct_pct_unique <? 1 then ret (checks_passed ++ [true])
           else if 60 <? ct_pct_unique then
             warn (HighClinicalTrialRate ct_pct_unique) ;;
             ret (checks_passed ++ [false])
           else ret (checks_passed ++ [true])) ;;
      checks_passed <-
        (if has_column tmp "all_nct_numbers" || has_column tmp "nct_number" then
           let suspicious := map (suspicious tmp) (rows tmp) in
           let suspicious_count := count_true suspicious in
           if (suspicious_count >? 0)%Z then
             let examples :=
               map (fun row => (row_get (columns tmp) row "guideline_pmid",
                                row_get (columns tmp) row "ref_pmid"))
                   (firstn 5 (select suspicious (rows tmp))) in
             warn (SuspiciousNctStrings suspicious_count examples) ;;
             ret (checks_passed ++ [false])
           else ret (checks_passed ++ [true])
         else ret (checks_passed ++ [true])) ;;
      let exploded := exploded tmp in
      checks_passed <-
        match exploded with
        | _ :: _ =>
            let dup_within_pmid := count_true (duplicated_first [] exploded) in
            if (dup_within_pmid >? 0)%Z then
              warn (DuplicateNctsWithinPmid dup_within_pmid) ;;
              ret (checks_passed ++ [false])
            else ret (checks_passed ++ [true])
        | [] => ret (checks_passed ++ [true])
        end ;;
      let checks_passed := checks_passed ++ [true; true; true] in
      let critical_ok := all checks_passed in
      n_errors <- errors_count ;;
      ret (critical_ok && (n_errors =? 0)%Z)
  end.

Definition validate_phase4 (phase4_df phase3_df : DataFrame) : M bool :=
  let checks_passed : list bool := [] in
  let expected_count :=
    if has_column phase3_df "nct_number" then nunique (column phase3_df "nct_number")
    else 0%Z in
  '(passed, _) <- check_no_duplicates phase4_df ["nct_number"] "Phase 4"
                    "Each trial should appear once" ;;
  let checks_passed := checks_passed ++ [passed] in
  '(passed, _) <- check_row_count_match phase4_df expected_count "Phase 4"
                    TOLERANCE_NORMAL "should match unique NCT numbers from Phase 3" ;;
  let checks_passed := checks_passed ++ [passed] in
  '(passed, _) <- check_column_values phase4_df "nct_number" nct_strict_regex "Phase 4"
                    "NCT numbers should be NCT########" ;;
  let checks_passed := checks_passed ++ [passed] in
  ret (all checks_passed).

Definition validate_phase5 (phase5_df phase1_df : DataFrame) : M bool :=
  let checks_passed : list bool := [] in
  let expected_count := len phase1_df in
  '(passed, _) <- check_row_count_match phase5_df expected_count "Phase 5"
                    TOLERANCE_STRICT "should have one row per guideline from Phase 1" ;;
  let checks_passed := checks_passed ++ [passed] in
  '(passed, _) <- check_no_duplicates phase5_df ["PMID"] "Phase 5"
                    "Each guideline should appear once" ;;
  let checks_passed := checks_passed ++ [passed] in
  ret (all checks_passed).

(** The abstract coverage of check 3 is only printed. *)
Definition validate_phase6 (phase6_df phase3_df : DataFrame) : M bool :=
  let checks_passed : list bool := [] in
  let expected_count := len phase3_df in
  '(passed, _) <- check_row_count_match phase6_df expected_count "Phase 6"
                    TOLERANCE_STRICT
                    "should have same rows as Phase 3 (just with abstracts added)" ;;
  let checks_passed := checks_passed ++ [passed] in
  '(passed, _) <- check_no_duplicates phase6_df ["guideline_pmid"; "ref_pmid"] "Phase 6"
                    "Each guideline-reference pair should be unique" ;;
  let checks_passed := checks_passed ++ [passed] in
  ret (all checks_passed).

Definition validate_phase7 (phase7_dedup_df phase7_with_dups_df phase4_df : DataFrame)
  : M bool :=
  let checks_passed : list bool := [] in
  nct_number <- lift (getitem phase4_df "nct_number") ;;
  let expected_unique := nunique nct_number in
  '(passed, _) <- check_no_duplicates phase7_dedup_df ["nct_number"]
                    "Phase 7 (Deduplicated)" "Each trial should appear once" ;;
  let checks_passed := checks_passed ++ [passed] in
  '(passed, _) <- check_row_count_match phase7_dedup_df expected_unique
                    "Phase 7 (Deduplicated)" TOLERANCE_NORMAL
                    "should match unique NCT numbers from Phase 4" ;;
  let checks_passed := checks_passed ++ [passed] in
  checks_passed <-
    (if (len phase7_with_dups_df <? len phase7_dedup_df)%Z then
       error (WithDuplicatesFewerRows (len phase7_with_dups_df) (len phase7_dedup_df)) ;;
       ret (checks_passed ++ [false])
     else ret (checks_passed ++ [true])) ;;
  '(passed, _) <- check_column_values phase7_with_dups_df "nct_number" nct_strict_regex
                    "Phase 7 (With Citations)" "NCT numbers should be valid" ;;
  let checks_passed := checks_passed ++ [passed] in
  let ratio :=
    if (len phase7_dedup_df >? 0)%Z
    then float_of_int (len phase7_with_dups_df) / float_of_int (len phase7_dedup_df)
    else 0 in
  checks_passed <-
    (if 10 <? ratio then
       warn (CitationRatioVeryHigh ratio) ;;
       ret (checks_passed ++ [false])
     else ret (checks_passed ++ [true])) ;;
  ret (all checks_passed).

Definition validate_phase7b
  (phase7b_dedup_df phase7b_citations_df phase3_df phase7_dedup_df : DataFrame) : M bool :=
  let checks_passed : list bool := [] in
  let expected_min := len phase7_dedup_df in
  checks_passed <-
    (if (len phase7b_dedup_df <=? expected_min)%Z then
       warn (NotMoreTrialsThanPhase7 (len phase7b_dedup_df) expected_min) ;;
       ret (checks_passed ++ [false])
     else ret (checks_passed ++ [true])) ;;
  '(passed, _) <- check_no_duplicates phase7b_dedup_df ["ref_pmid"]
                    "Phase 7B (Deduplicated)" "Each trial reference should appear once" ;;
  let checks_passed := checks_passed ++ [passed] in
  checks_passed <-
    (if (len phase7b_citations_df <? len phase7b_dedup_df)%Z then
       error (CitationsFewerRows (len phase7b_citations_df) (len phase7b_dedup_df)) ;;
       ret (checks_passed ++ [false])
     else ret (checks_passed ++ [true])) ;;
  ret (all checks_passed).

(** The files under [OUTPUT_FOLDER]; [None] when there is no such file. *)
Definition output_folder := string -> option DataFrame.

(** [pd.read_csv(os.path.join(OUTPUT_FOLDER, name))] *)
Definition read_csv (fs : output_folder) (name : string) : result DataFrame :=
  match fs name with
  | Some df => Ok df
  | None => Raise (FileNotFoundError ("output/" ++ name)%string)
  end.

Definition rbind {A B : Type} (r : result A) (k : A -> result B) : result B :=
  match r with
  | Ok a => k a
  | Raise e => Raise e
  end.

(** The eight required tables. *)
Record phase_data := {
  phase1 : DataFrame;
  phase2 : DataFrame;
  phase3 : DataFrame;
  phase4 : DataFrame;
  phase5 : DataFrame;
  phase6 : DataFrame;
  phase7_dedup : DataFrame;
  phase7_with_dups : DataFrame
}.

(** The inner [try]: both tables of phase 7B, or [None] when reading one
    of them raises [FileNotFoundError]. *)
Definition load_phase7b (fs : output_folder) : result (option (DataFrame * DataFrame)) :=
  match rbind (read_csv fs "phase7b_all_trials_deduplicated.csv") (fun phase7b_dedup =>
        rbind (read_csv fs "phase7b_all_trials_with_citations.csv") (fun phase7b_citations =>
        Ok (phase7b_dedup, phase7b_citations))) with
  | Ok p => Ok (Some p)
  | Raise (FileNotFoundError _) => Ok None
  | Raise e => Raise e
  end.

(** The body of the outer [try]. *)
Definition load_all (fs : output_folder)
  : result (phase_data * option (DataFrame * DataFrame)) :=
  rbind (read_csv fs "phase1_pubmed_guidelines.csv") (fun phase1 =>
  rbind (read_csv fs "phase2_crossref_guidelines_and_references.csv") (fun phase2 =>
  rbind (read_csv fs "phase3_references_with_trials.csv") (fun phase3 =>
  rbind (read_csv fs "phase4_ctgov_trials_detailed.csv") (fun phase4 =>
  rbind (read_csv fs "phase5_guidelines_summary.csv") (fun phase5 =>
  rbind (read_csv fs "phase6_references_with_abstracts.csv") (fun phase6 =>
  rbind (read_csv fs "phase7_trials_sex_analysis_deduplicated.csv") (fun phase7_dedup =>
  rbind (read_csv fs "phase7_trials_sex_analysis_with_duplicates.csv") (fun phase7_with_dups =>
  rbind (load_phase7b fs) (fun phase7b =>
  Ok ({| phase1 := phase1; phase2 := phase2; phase3 := phase3; phase4 := phase4;
         phase5 := phase5; phase6 := phase6; phase7_dedup := phase7_dedup;
         phase7_with_dups := phase7_with_dups |}, phase7b)))))))))).

(** [WARNINGS = []; ERRORS = []] *)
Definition reset_logs : M unit :=
  fun _ => (Ok tt, {| WARNINGS := []; ERRORS := [] |}).

(** The result is [(all_passed, results)], where [results] maps each
    phase that ran to its verdict, in the order they ran. *)
Definition run_all_validations (fs : output_folder) : M (bool * list (string * bool)) :=
  reset_logs ;;
  let results : list (string * bool) := [] in
  match load_all fs with
  | Raise (FileNotFoundError _) => ret (false, [])
  | Raise e => raise e
  | Ok (d, phase7b) =>
      r <- validate_phase1 (phase1 d) ;;
      let results := results ++ [("Phase 1", r)] in
      r <- validate_phase2 (phase2 d) (phase1 d) ;;
      let results := results ++ [("Phase 2", r)] in
      r <- validate_phase3 (phase3 d) (phase2 d) ;;
      let results := results ++ [("Phase 3", r)] in
      r <- validate_phase4 (phase4 d) (phase3 d) ;;
      let results := results ++ [("Phase 4", r)] in
      r <- validate_phase5 (phase5 d) (phase1 d) ;;
      let results := results ++ [("Phase 5", r)] in
      r <- validate_phase6 (phase6 d) (phase3 d) ;;
      let results := results ++ [("Phase 6", r)] in
      r <- validate_phase7 (phase7_dedup d) (phase7_with_dups d) (phase4 d) ;;
      let results := results ++ [("Phase 7", r)] in
      results <-
        match phase7b with
        | Some (phase7b_dedup, phase7b_citations) =>
            r <- validate_phase7b phase7b_dedup phase7b_citations (phase3 d)
                   (phase7_dedup d) ;;
            ret (results ++ [("Phase 7B", r)])
        | None => ret results
        end ;;
      n_errors <- errors_count ;;
      let all_passed := all (map snd results) && (n_errors =? 0)%Z in
      ret (all_passed, results)
  end.

End Validation.


(* ------------------------------------------------------------------ *)
(** ** Notions used to state the properties *)

Module Spec.

Import Validation.

(** The tables without which [run_all_validations] cannot run. *)
Definition required_files : list string :=
  ["phase1_pubmed_guidelines.csv";
   "phase2_crossref_guidelines_and_references.csv";
   "phase3_references_with_trials.csv";
   "phase4_ctgov_trials_detailed.csv";
   "phase5_guidelines_summary.csv";
   "phase6_references_with_abstracts.csv";
   "phase7_trials_sex_analysis_deduplicated.csv";
   "phase7_trials_sex_analysis_with_duplicates.csv"].

(** The call ends with an uncaught [FileNotFoundError]. *)
Definition raises_file_not_found {A : Type} (r : result A) : Prop :=
  exists path, r = Raise (FileNotFoundError path).

Definition no_logs : logs := {| WARNINGS := []; ERRORS := [] |}.

(** The logs [st] after [ws] was appended to [WARNINGS] and [es] to
    [ERRORS]. *)
Definition app_logs (st : logs) (ws es : list message) : logs :=
  {| WARNINGS := WARNINGS st ++ ws; ERRORS := ERRORS st ++ es |}.

(** A computation that never raises and only appends to the logs. *)
Definition total {A : Type} (m : M A) : Prop :=
  forall st, exists a ws es, m st = (Ok a, app_logs st ws es).

Definition empty_table : DataFrame := {| columns := []; rows := [] |}.

(** An output folder that has every table but the one of phase 4. *)
Definition folder_without_phase4 : output_folder :=
  fun name =>
    if String.eqb name "phase4_ctgov_trials_detailed.csv" then None
    else Some empty_table.

(** The characters of a formatted cursor: digits and the minus sign. *)
Fixpoint numeric (s : string) : bool :=
  match s with
  | EmptyString => true
  | String c s' => (is_digit c || Ascii.eqb c "-") && numeric s'
  end.

(** A snapshot of the phase-1 directory: the pickle file that
    [save_phase1_checkpoint] writes for a cursor. *)
Definition snapshot_file (p : Z * Checkpoint.checkpoint) : string * Checkpoint.file :=
  (Checkpoint.pkl_name (fst p), Checkpoint.Pickle (snd p)).

Definition payload_a : list Checkpoint.record := [[("pmid", "11")]].
Definition payload_b : list Checkpoint.record := [[("pmid", "11")]; [("pmid", "12")]].

Definition snapshot_of (cursor : Z) : Z * Checkpoint.checkpoint :=
  (cursor,
   {| Checkpoint.batch_index := cursor;
      Checkpoint.pubmed_data := payload_a;
      Checkpoint.failed_batches := [];
      Checkpoint.total_count := 200;
      Checkpoint.timestamp := "2024-01-01T00:00:00" |}).

Fixpoint all_digits (s : string) : bool :=
  match s with
  | EmptyString => true
  | String c s' => is_digit c && all_digits s'
  end.

(** A normalized trial identifier: [NCT] and exactly 8 digits. *)
Definition is_nct_id (s : string) : bool :=
  match s with
  | String a (String b (String c ds)) =>
      Ascii.eqb a "N" && Ascii.eqb b "C" && Ascii.eqb c "T"
      && (String.length ds =? 8)%nat && all_digits ds
  | _ => false
  end.



Definition phase2_example : DataFrame :=
  {| columns := ["guideline_pmid"; "ref_pmid"];
     rows := [[Int 1; Int 10]; [Int 1; Int 11]] |}.


(** A table whose identifier occurs on three rows, the other two
    identifiers on one row each. *)
Definition phase1_triple : DataFrame :=
  {| columns := ["PMID"];
     rows := [[Int 1]; [Int 2]; [Int 1]; [Int 1]; [Int 3]] |}.

(** A phase-4 table whose only identifier ends with a newline. *)
Definition phase4_trailing_newline : DataFrame :=
  {| columns := ["nct_number"];
     rows := [[Str (String.append "NCT12345678" (String "010" ""))]] |}.

(** A table of [n] rows over the given columns, every cell missing. *)
Definition blank_table (cols : list string) (n : nat) : DataFrame :=
  {| columns := cols; rows := repeat (map (fun _ => NA) cols) n |}.

(** [P a e] for all integers [a] and [e] from 0 to [n]. *)
Definition holds_upto (n : nat) (P : Z -> Z -> bool) : bool :=
  forallb (fun e => forallb (fun a => P a e) (map Z.of_nat (seq 0 (S n))))
          (map Z.of_nat (seq 0 (S n))).

(** The test of [check_row_count_match] on the counts alone. *)
Definition row_count_mismatch (actual_count expected_count : Z) (tolerance : float) : bool :=
  let diff := Z.abs (actual_count - expected_count) in
  let pct_diff :=
    if (expected_count >? 0)%Z
    then (float_of_int diff / float_of_int expected_count * 100)%float
    else 0%float in
  (tolerance * 100 <? pct_diff)%float.

Definition product (l : list Z) : Z := fold_right Z.mul 1 l.

(** The bound of [check_cartesian_product] as the specification words
    it: the product of every supplied expected count. *)
Definition supplied_bound (expected_unique_counts : list (string * Z)) : Z :=
  product (map snd expected_unique_counts).

(** The product of the expected counts of the named columns that the
    table has. *)
Definition present_bound (df : DataFrame) (expected_unique_counts : list (string * Z)) : Z :=
  product (map snd (filter (fun p => has_column df (fst p)) expected_unique_counts)).

End Spec.

(* ------------------------------------------------------------------ *)
(** ** normalized_checkpoint_system.py, the cleanup functions *)

Module Cleanup.

Import Checkpoint.

Definition lower_char (c : ascii) : ascii :=
  if is_upper c then ascii_of_nat (nat_of_ascii c + 32) else c.

(** [s.lower()] on ASCII text. *)
Fixpoint lower (s : string) : string :=
  match s with
  | EmptyString => EmptyString
  | String c s' => String (lower_char c) (lower s')
  end.

(** The directories under [CHECKPOINT_BASE_DIR], by name; [None] for a
    name that has no directory. The cleanup functions do not look into
    a directory; the files of every phase are kept here with the file
    type of phase 1. *)
Definition subdirs := string -> option directory.

(** [CHECKPOINT_BASE_DIR] on disk; [None] when it does not exist. *)
Definition tree := option subdirs.

(** The keys of [PHASE_DIRS]; the directory of a phase is the
    subdirectory of [CHECKPOINT_BASE_DIR] of the same name. *)
Definition PHASE_DIRS : list string :=
  ["phase1_pubmed"; "phase2_crossref"; "phase3_trials"; "phase4_ctgov";
   "phase6_abstracts"; "phase7_analysis"].

(** The directory [PHASE_DIRS[phase_name]] on disk; [None] when it does
    not exist. *)
Definition phase_dir (phase_name : string) (t : tree) : store :=
  match t with
  | Some m => m phase_name
  | None => None
  end.

(** [os.path.exists(PHASE_DIRS[phase_name])] *)
Definition phase_dir_exists (phase_name : string) (t : tree) : bool :=
  match phase_dir phase_name t with
  | Some _ => true
  | None => false
  end.

(** [shutil.rmtree(PHASE_DIRS[phase_name])] *)
Definition rmtree_phase (phase_name : string) (t : tree) : tree :=
  match t with
  | Some m => Some (fun n => if String.eqb n phase_name then None else m n)
  | None => None
  end.

(** [response] is what the operator types at the prompt of [input];
    the prompt is shown only when the directory exists and [confirm] is
    set. The result is the returned boolean and the tree afterwards. *)
Definition cleanup_all_checkpoints (confirm : bool) (response : string) (t : tree)
  : bool * tree :=
  match t with
  | Some _ =>
      if confirm && negb (String.eqb (lower response) "yes") then (false, t)
      else (true, None)
  | None => (true, t)
  end.

Definition cleanup_phase_checkpoints (phase_name : string) (confirm : bool)
  (response : string) (t : tree) : bool * tree :=
  if negb (existsb (String.eqb phase_name) PHASE_DIRS) then (false, t)
  else if phase_dir_exists phase_name t then
    if confirm && negb (String.eqb (lower response) "yes") then (false, t)
    else (true, rmtree_phase phase_name t)
  else (true, t).

(** The directory of phase 1 as [save_phase1_checkpoint] and
    [load_phase1_checkpoint] see it. *)
Definition phase1_store (t : tree) : store := phase_dir "phase1_pubmed" t.

(** The tree after the directory of phase 1 became [st]: [os.makedirs]
    creates [CHECKPOINT_BASE_DIR] when it is missing. *)
Definition with_phase1_store (t : tree) (st : store) : tree :=
  let m := match t with Some m => m | None => fun _ => None end in
  Some (fun n => if String.eqb n "phase1_pubmed" then st else m n).

(** [save_phase1_checkpoint] on the whole tree. *)
Definition save_phase1 (now : string) (batch_index : Z) (pubmed_data : list record)
  (failed_batches : list Z) (total_count : Z) (t : tree) : tree :=
  with_phase1_store t
    (save_phase1_checkpoint now batch_index pubmed_data failed_batches total_count
       (phase1_store t)).

(** One call of [save_phase1_checkpoint]: the clock and the arguments. *)
Record save_call := {
  call_time : string;
  call_cursor : Z;
  call_payload : list record;
  call_failed : list Z;
  call_total : Z
}.

Definition apply_save (st : store) (s : save_call) : store :=
  save_phase1_checkpoint (call_time s) (call_cursor s) (call_payload s)
    (call_failed s) (call_total s) st.

(** The calls of a run, one after the other. *)
Definition run_saves (calls : list save_call) (st : store) : store :=
  fold_left apply_save calls st.

(** The dict that a call pickles. *)
Definition checkpoint_of (s : save_call) : checkpoint :=
  {| batch_index := call_cursor s;
     pubmed_data := call_payload s;
     failed_batches := call_failed s;
     total_count := call_total s;
     timestamp := call_time s |}.

End Cleanup.

(* ------------------------------------------------------------------ *)
(** ** pipeline_validation_checks.py, [check_merge_integrity] *)

Module Merge.

Import Validation.
Local Open Scope list_scope.
Local Open Scope float_scope.

(** The messages of [check_merge_integrity]. *)
Inductive merge_message :=
| ManyToManyJoin (phase_name : string) (left_duplicates right_duplicates : Z)
| PredictedDiffers (phase_name : string) (expected_result_count predicted_count : Z)
    (diff_pct : float)
| MergeOk (phase_name : string) (predicted_count : Z).

(** [df[merge_keys]]: the value tuples of the rows on the key columns;
    it raises a [KeyError] that names the missing labels when a key
    column is missing. *)
Definition getitems (df : DataFrame) (merge_keys : list string) : result (list (list cell)) :=
  match filter (fun c => negb (has_column df c)) merge_keys with
  | [] => Ok (key_tuples df merge_keys)
  | missing => Raise (KeyError (join ", " missing))
  end.

(** [drop_duplicates()] on value tuples. *)
Definition drop_duplicates (keys : list (list cell)) : list (list cell) :=
  unique_from key_eqb [] keys.

(** [len(pd.merge(left_keys, right_keys, on=merge_keys, how='inner'))] for
    two lists of distinct value tuples: the tuples of the left that the
    right has as well. *)
Definition matching_keys (left_keys right_keys : list (list cell)) : list (list cell) :=
  filter (fun k => existsb (key_eqb k) right_keys) left_keys.

(** An entry of the module globals: a message of the checks and
    validators above, or one of [check_merge_integrity]. *)
Inductive entry :=
| Checked (msg : message)
| Merged (msg : merge_message).

(** The module globals [WARNINGS] and [ERRORS] as this function shares
    them with the other checks. *)
Record logs := {
  WARNINGS : list entry;
  ERRORS : list entry
}.

(** [WARNINGS.append(msg)] *)
Definition warn (msg : merge_message) (st : logs) : logs :=
  {| WARNINGS := WARNINGS st ++ [Merged msg]; ERRORS := ERRORS st |}.

(** The logs are passed explicitly. The result is
    [(passed, messages, predicted_count)], where [messages] stands for
    the joined text. [merge_keys] is not empty, and a key column has the
    same dtype in both tables, without which [pd.merge] refuses the
    columns. *)
Definition check_merge_integrity (left_df right_df : DataFrame)
  (merge_keys : list string) (expected_result_count : Z) (phase_name : string)
  (st : logs) : result (bool * list merge_message * Z) * logs :=
  match getitems left_df merge_keys with
  | Raise e => (Raise e, st)
  | Ok left_tuples =>
      match getitems right_df merge_keys with
      | Raise e => (Raise e, st)
      | Ok right_tuples =>
          let left_keys := drop_duplicates left_tuples in
          let right_keys := drop_duplicates right_tuples in
          let predicted_count :=
            Z.of_nat (List.length (matching_keys left_keys right_keys)) in
          let left_duplicates := count_true (duplicated_all left_tuples) in
          let right_duplicates := count_true (duplicated_all right_tuples) in
          let messages : list merge_message := [] in
          let passed := true in
          let '(messages, passed, st) :=
            if (left_duplicates >? 0)%Z && (right_duplicates >? 0)%Z then
              let msg := ManyToManyJoin phase_name left_duplicates right_duplicates in
              (messages ++ [msg], false, warn msg st)
            else (messages, passed, st) in
          let '(messages, passed, st) :=
            if (expected_result_count >? 0)%Z then
              let diff_pct :=
                float_of_int (Z.abs (predicted_count - expected_result_count))
                / float_of_int expected_result_count * 100 in
              if 10 <? diff_pct then
                let msg := PredictedDiffers phase_name expected_result_count
                             predicted_count diff_pct in
                (messages ++ [msg], false, warn msg st)
              else (messages, passed, st)
            else (messages, passed, st) in
          let messages :=
            if passed then messages ++ [MergeOk phase_name predicted_count]
            else messages in
          (Ok (passed, messages, predicted_count), st)
      end
  end.

End Merge.

(* ------------------------------------------------------------------ *)
(** ** normalized_checkpoint_system.py, phases 2, 3, 4, 6 and 7 *)

Module Phases.

Import Py.

(** The five later phases; each has its functions [create_phaseN_dirs],
    [save_phaseN_checkpoint] and [load_phaseN_checkpoint], which differ
    in the directory, in the stem of the file names, in the keys of the
    pickled dict and, for phase 2, in the CSV mirror that it does not
    write. *)
Inductive phase := Phase2 | Phase3 | Phase4 | Phase6 | Phase7.

(** The key of [PHASE_DIRS]. *)
Definition phase_key (p : phase) : string :=
  match p with
  | Phase2 => "phase2_crossref"
  | Phase3 => "phase3_trials"
  | Phase4 => "phase4_ctgov"
  | Phase6 => "phase6_abstracts"
  | Phase7 => "phase7_analysis"
  end.

(** The text before the cursor in a file name. *)
Definition stem (p : phase) : string :=
  match p with
  | Phase2 => "phase2_checkpoint_guideline_"
  | Phase3 => "phase3_checkpoint_ref_"
  | Phase4 => "phase4_checkpoint_trial_"
  | Phase6 => "phase6_checkpoint_abstract_"
  | Phase7 => "phase7_checkpoint_analysis_"
  end.

(** Whether the save function also writes a CSV file. *)
Definition writes_csv (p : phase) : bool :=
  match p with
  | Phase2 => false
  | _ => true
  end.

(** The third argument of a save function: the guidelines without
    references for phase 2, a total for the other phases. *)
Inductive counter :=
| NoRefs (guidelines_without_refs : list string)
| Total (total : Z).

(** The dict that a save function pickles: [last_idx], the collected
    items (under [references], [trial_data], [detailed_trials],
    [abstracts_data] or [sex_analyses]), the third argument (under
    [no_refs], [total_refs] or [total_trials]) and [timestamp]. *)
Record snapshot := {
  last_idx : Z;
  collected : list Checkpoint.record;
  counted : counter;
  timestamp : string
}.

Inductive file :=
| Pickle (c : snapshot)
| Csv (rows : list Checkpoint.record)
| Other (bytes : string).

(** The entries of a phase directory, in the order [os.listdir] yields
    them. *)
Definition directory := list (string * file).

(** [PHASE_DIRS[...]] on disk; [None] when it does not exist. *)
Definition store := option directory.

Fixpoint write_file (name : string) (f : file) (d : directory) : directory :=
  match d with
  | [] => [(name, f)]
  | (n, g) :: d' =>
      if String.eqb n name then (name, f) :: d' else (n, g) :: write_file name f d'
  end.

Fixpoint read_file (name : string) (d : directory) : option file :=
  match d with
  | [] => None
  | (n, g) :: d' => if String.eqb n name then Some g else read_file name d'
  end.

Definition listdir (d : directory) : list string := map fst d.

(** [create_phaseN_dirs()] *)
Definition create_dirs (st : store) : directory :=
  match st with
  | Some d => d
  | None => []
  end.

Definition pkl_name (p : phase) (last_idx : Z) : string :=
  stem p ++ format_05d last_idx ++ ".pkl".

Definition csv_name (p : phase) (last_idx : Z) : string :=
  stem p ++ format_05d last_idx ++ ".csv".

(** The body that the five save functions share; [now] is the value of
    [datetime.now().isoformat()]. *)
Definition save_checkpoint (p : phase) (now : string) (last_idx : Z)
  (collected : list Checkpoint.record) (counted : counter) (st : store) : store :=
  let d := create_dirs st in
  let checkpoint :=
    {| last_idx := last_idx;
       collected := collected;
       counted := counted;
       timestamp := now |} in
  let d := write_file (pkl_name p last_idx) (Pickle checkpoint) d in
  if writes_csv p then
    match collected with
    | [] => Some d
    | _ :: _ => Some (write_file (csv_name p last_idx) (Csv collected) d)
    end
  else Some d.

Definition save_phase2_checkpoint (now : string) (last_idx : Z)
  (all_references : list Checkpoint.record) (guidelines_without_refs : list string)
  : store -> store :=
  save_checkpoint Phase2 now last_idx all_references (NoRefs guidelines_without_refs).

Definition save_phase3_checkpoint (now : string) (last_idx : Z)
  (trial_data : list Checkpoint.record) (total_refs : Z) : store -> store :=
  save_checkpoint Phase3 now last_idx trial_data (Total total_refs).

Definition save_phase4_checkpoint (now : string) (last_idx : Z)
  (detailed_trials : list Checkpoint.record) (total_trials : Z) : store -> store :=
  save_checkpoint Phase4 now last_idx detailed_trials (Total total_trials).

Definition save_phase6_checkpoint (now : string) (last_idx : Z)
  (abstracts_data : list Checkpoint.record) (total_trials : Z) : store -> store :=
  save_checkpoint Phase6 now last_idx abstracts_data (Total total_trials).

Definition save_phase7_checkpoint (now : string) (last_idx : Z)
  (sex_analyses : list Checkpoint.record) (total_trials : Z) : store -> store :=
  save_checkpoint Phase7 now last_idx sex_analyses (Total total_trials).

Definition is_checkpoint_file (p : phase) (f : string) : bool :=
  startswith f (stem p) && endswith f ".pkl".

(** The key of [max]. *)
Definition cursor_of_name (p : phase) (x : string) : option Z :=
  int_of_str (replace (replace x (stem p) "") ".pkl" "").

Fixpoint max_by_cursor (p : phase) (best : string) (best_key : Z) (l : list string)
  : result string :=
  match l with
  | [] => Ok best
  | x :: l' =>
      match cursor_of_name p x with
      | None => Raise (ValueError x)
      | Some k =>
          if best_key <? k then max_by_cursor p x k l' else max_by_cursor p best best_key l'
      end
  end.

(** The body that the five load functions share. What they print after
    reading the file is not modelled. *)
Definition load_checkpoint (p : phase) (st : store) : result (option snapshot) :=
  match st with
  | None => Ok None
  | Some d =>
      let checkpoint_files := filter (is_checkpoint_file p) (listdir d) in
      match checkpoint_files with
      | [] => Ok None
      | x :: l =>
          match cursor_of_name p x with
          | None => Raise (ValueError x)
          | Some k =>
              match max_by_cursor p x k l with
              | Raise e => Raise e
              | Ok latest_file =>
                  match read_file latest_file d with
                  | Some (Pickle checkpoint) => Ok (Some checkpoint)
                  | Some _ => Raise (UnpicklingError latest_file)
                  | None => Raise (FileNotFoundError latest_file)
                  end
              end
          end
      end
  end.

Definition load_phase2_checkpoint : store -> result (option snapshot) :=
  load_checkpoint Phase2.
Definition load_phase3_checkpoint : store -> result (option snapshot) :=
  load_checkpoint Phase3.
Definition load_phase4_checkpoint : store -> result (option snapshot) :=
  load_checkpoint Phase4.
Definition load_phase6_checkpoint : store -> result (option snapshot) :=
  load_checkpoint Phase6.
Definition load_phase7_checkpoint : store -> result (option snapshot) :=
  load_checkpoint Phase7.

End Phases.

(* ------------------------------------------------------------------ *)
(** ** Further notions used to state the properties *)

Module Props.

Import Pandas Validation Spec.
Local Open Scope list_scope.

(** Every checkpoint file of [d] other than the snapshot of cursor [top]
    carries a cursor below [top]. *)
Definition all_below (d : Checkpoint.directory) (top : Z) : Prop :=
  forall n f, In (n, f) d -> Checkpoint.is_checkpoint_file n = true ->
              n <> Checkpoint.pkl_name top ->
              exists k, Checkpoint.cursor_of_name n = Some k /\ k < top.

(** A phase-3 table in which two guidelines cite the same item, whose
    trial is written once in lower case. *)
Definition phase3_shared_trial : DataFrame :=
  {| columns := ["guideline_pmid"; "ref_pmid"; "nct_number"];
     rows := [[Int 1; Int 10; Str "NCT01234567"]; [Int 2; Int 10; Str "nct01234567"]] |}.

(** The table [phase1_triple] with its rows in the opposite order. *)
Definition phase1_triple_reversed : DataFrame :=
  {| columns := columns phase1_triple; rows := List.rev (rows phase1_triple) |}.

(** [n] references of one guideline. *)
Definition citations (n : nat) : DataFrame :=
  {| columns := ["guideline_pmid"; "ref_pmid"; "ref_doi"; "ref_title"];
     rows := map (fun i => [Int 1; Int (Z.of_nat i); Str "10.1000/j"; Str "title"])
                 (seq 1 n) |}.

Definition one_guideline : DataFrame := {| columns := ["PMID"]; rows := [[Int 1]] |}.

Definition one_trial : DataFrame :=
  {| columns := ["nct_number"]; rows := [[Str "NCT01234567"]] |}.

(** An output folder with the eight required tables, on which every
    validator passes, and without the tables of phase 7B. *)
Definition passing_folder : output_folder :=
  fun name =>
    if String.eqb name "phase1_pubmed_guidelines.csv" then Some one_guideline
    else if String.eqb name "phase2_crossref_guidelines_and_references.csv"
    then Some (citations 20)
    else if String.eqb name "phase3_references_with_trials.csv" then Some (citations 20)
    else if String.eqb name "phase4_ctgov_trials_detailed.csv" then Some one_trial
    else if String.eqb name "phase5_guidelines_summary.csv" then Some one_guideline
    else if String.eqb name "phase6_references_with_abstracts.csv"
    then Some (citations 20)
    else if String.eqb name "phase7_trials_sex_analysis_deduplicated.csv"
    then Some one_trial
    else if String.eqb name "phase7_trials_sex_analysis_with_duplicates.csv"
    then Some one_trial
    else None.

(** An output folder in which every file is a table without columns. *)
Definition folder_of_empty_tables : output_folder := fun _ => Some empty_table.

(** The logs after phase 1 reported its missing column. *)
Definition logs_with_error : logs :=
  {| WARNINGS := []; ERRORS := [MissingCriticalColumns ["PMID"]] |}.

(** A snapshot of one of the later phases. *)
Definition later_snapshot (idx : Z) : Phases.snapshot :=
  {| Phases.last_idx := idx;
     Phases.collected := payload_a;
     Phases.counted := Phases.Total 200;
     Phases.timestamp := "2024-01-01T00:00:00" |}.

(** A checkpoint tree whose phase-1 directory holds one snapshot and
    whose phase-4 directory holds a file of another kind. *)
Definition tree_example : Cleanup.tree :=
  Some (fun n =>
          if String.eqb n "phase1_pubmed" then Some [snapshot_file (snapshot_of 100)]
          else if String.eqb n "phase4_ctgov"
               then Some [("notes.txt", Checkpoint.Other "kept")]
               else None).

(** Three calls of [save_phase1_checkpoint]: cursor 100, then 50, then
    100 again with a longer payload. *)
Definition first_calls : list Cleanup.save_call :=
  [{| Cleanup.call_time := "2024-01-01T00:00:00"; Cleanup.call_cursor := 100;
      Cleanup.call_payload := payload_a; Cleanup.call_failed := [];
      Cleanup.call_total := 200 |};
   {| Cleanup.call_time := "2024-01-01T01:00:00"; Cleanup.call_cursor := 50;
      Cleanup.call_payload := payload_a; Cleanup.call_failed := [7];
      Cleanup.call_total := 200 |}].

Definition last_call : Cleanup.save_call :=
  {| Cleanup.call_time := "2024-01-01T02:00:00"; Cleanup.call_cursor := 100;
     Cleanup.call_payload := payload_b; Cleanup.call_failed := [7];
     Cleanup.call_total := 200 |}.

(** Logs that hold one warning of an earlier check. *)
Definition merge_logs_example : Merge.logs :=
  {| Merge.WARNINGS := [Merge.Checked (EmptyDataframe "Phase 1")]; Merge.ERRORS := [] |}.

(** A computation that only appends to the logs, also when it raises. *)
Definition appends {A : Type} (m : M A) : Prop :=
  forall st, exists r ws es, m st = (r, app_logs st ws es).

(** A computation whose outcome and whose appended entries are the same
    whatever the logs hold when it starts. *)
Definition uniform {A : Type} (m : M A) : Prop :=
  exists r ws es, forall st, m st = (r, app_logs st ws es).

End Props.

(* ------------------------------------------------------------------ *)
(** ** Properties of the string operations *)

Module PyProofs.

Import Spec.

Lemma length_append (s t : string) :
  String.length (s ++ t) = (String.length s + String.length t)%nat.
Proof. induction s as [| c s IH]; simpl; [reflexivity | now rewrite IH]. Qed.

Lemma append_assoc (s t u : string) : ((s ++ t) ++ u = s ++ (t ++ u))%string.
Proof. induction s as [| c s IH]; simpl; [reflexivity | now rewrite IH]. Qed.

Lemma append_nil_r (s : string) : (s ++ "" = s)%string.
Proof. induction s as [| c s IH]; simpl; [reflexivity | now rewrite IH]. Qed.





(** *** [endswith] *)

Lemma endswith_short (s p : string) :
  (String.length s < String.length p)%nat -> endswith s p = false.
Proof.
  induction s as [| c s IH]; intros H; cbn [endswith].
  - destruct p; [simpl in H; lia | reflexivity].
  - destruct (String.eqb (String c s) p) eqn:E.
    + apply String.eqb_eq in E. subst p. lia.
    + apply IH. simpl in H. lia.
Qed.

(** A text ends with [p] exactly when its last [length p] characters
    are [p]. *)
Lemma endswith_append (x t p : string) :
  String.length t = String.length p -> endswith (x ++ t) p = String.eqb t p.
Proof.
  intros Hlen.
  induction x as [| c x IH]; cbn [append endswith].
  - destruct (String.eqb t p) eqn:E.
    + destruct t; cbn [endswith]; now rewrite E.
    + destruct t as [| d t]; cbn [endswith]; rewrite E; [reflexivity |].
      apply endswith_short. simpl in Hlen. lia.
  - destruct (String.eqb (String c (x ++ t)) p) eqn:E; [| exact IH].
    apply String.eqb_eq in E.
    apply (f_equal String.length) in E. simpl in E.
    rewrite length_append in E. lia.
Qed.

(** *** Decimal text of a cursor *)

Lemma numeric_append (s t : string) :
  numeric (s ++ t) = numeric s && numeric t.
Proof.
  induction s as [| c s IH]; simpl; [reflexivity |].
  now rewrite IH, andb_assoc.
Qed.

Lemma numeric_zeros (n : nat) : numeric (zeros n) = true.
Proof. induction n; simpl; [reflexivity | exact IHn]. Qed.

Lemma numeric_string_of_uint (d : uint) : numeric (NilEmpty.string_of_uint d) = true.
Proof. induction d; simpl; try reflexivity; exact IHd. Qed.

Lemma numeric_format_05d (z : Z) : numeric (format_05d z) = true.
Proof.
  unfold format_05d.
  rewrite !numeric_append, numeric_zeros, numeric_string_of_uint.
  now destruct (z <? 0).
Qed.

Lemma parse_string_of_uint (d : uint) :
  parse_digits (NilEmpty.string_of_uint d) true = Some d.
Proof. induction d; simpl; try reflexivity; now rewrite IHd. Qed.

Lemma parse_string_of_uint_nonnil (d : uint) (b : bool) :
  d <> Nil -> parse_digits (NilEmpty.string_of_uint d) b = Some d.
Proof.
  destruct d; intros H; try contradiction; simpl; now rewrite parse_string_of_uint.
Qed.

Lemma N_to_uint_nonnil (n : N) : N.to_uint n <> Nil.
Proof.
  destruct n; simpl; [discriminate |].
  apply DecimalPos.Unsigned.to_uint_nonnil.
Qed.

(** Leading zeros do not change the number read. *)
Lemma parse_zeros (k : nat) (d : uint) (b : bool) :
  d <> Nil ->
  exists d', parse_digits (zeros k ++ NilEmpty.string_of_uint d) b = Some d'
             /\ N.of_uint d' = N.of_uint d.
Proof.
  intros Hd. revert b.
  induction k as [| k IH]; intros b; simpl.
  - exists d. split; [now apply parse_string_of_uint_nonnil | reflexivity].
  - destruct (IH true) as (d' & Hp & Hv).
    rewrite Hp. exists (D0 d'). split; [reflexivity | exact Hv].
Qed.

Lemma is_space_numeric (c : ascii) :
  is_digit c || Ascii.eqb c "-" = true -> is_space c = false.
Proof.
  intros H. apply orb_true_iff in H. destruct H as [H | H].
  - unfold is_digit in H. apply andb_true_iff in H. destruct H as [H1 H2].
    apply Nat.leb_le in H1. apply Nat.leb_le in H2.
    unfold is_space. cbv zeta.
    apply orb_false_iff. split.
    + apply andb_false_iff. right. apply Nat.leb_gt. lia.
    + apply Nat.eqb_neq. lia.
  - apply Ascii.eqb_eq in H. subst c. reflexivity.
Qed.

Lemma strip_numeric (s : string) : numeric s = true -> strip s = s.
Proof.
  intros H. unfold strip.
  assert (Hl : lstrip s = s).
  { destruct s as [| c s]; [reflexivity |]. simpl in *.
    apply andb_true_iff in H. destruct H as [H _].
    now rewrite (is_space_numeric c H). }
  rewrite Hl.
  induction s as [| c s IH]; [reflexivity |].
  simpl in *. apply andb_true_iff in H. destruct H as [Hc Hs].
  rewrite IH; [| exact Hs |].
  - destruct s; [| reflexivity]. now rewrite (is_space_numeric c Hc).
  - destruct s as [| c' s]; [reflexivity |]. simpl in *.
    apply andb_true_iff in Hs. destruct Hs as [Hc' _].
    now rewrite (is_space_numeric c' Hc').
Qed.

(** [int()] reads back the cursor that [:05d] wrote. *)
Lemma int_of_str_format_05d (z : Z) : int_of_str (format_05d z) = Some z.
Proof.
  unfold int_of_str.
  rewrite strip_numeric by apply numeric_format_05d.
  unfold format_05d.
  pose proof (N_to_uint_nonnil (Z.abs_N z)) as Hnn.
  destruct (z <? 0) eqn:Hz.
  - cbn [append String.length].
    change (Ascii.eqb "-" "-") with true. cbv iota.
    match goal with
    | |- context [zeros ?k] =>
        destruct (parse_zeros k _ false Hnn) as (d' & Hp & Hv)
    end.
    rewrite Hp. simpl. rewrite Hv, DecimalN.Unsigned.of_to.
    f_equal. apply Z.ltb_lt in Hz. rewrite N2Z.inj_abs_N. lia.
  - cbn [append String.length].
    match goal with
    | |- context [zeros ?k] =>
        destruct (parse_zeros k _ false Hnn) as (d' & Hp & Hv);
        destruct (zeros k ++ NilEmpty.string_of_uint (N.to_uint (Z.abs_N z)))%string
          as [| c ds] eqn:E
    end.
    + discriminate Hp.
    + assert (Hc : is_digit c = true).
      { simpl in Hp. unfold digit_of_char in Hp.
        repeat match type of Hp with
               | context [Ascii.eqb c ?l] =>
                   let El := fresh "El" in
                   destruct (Ascii.eqb c l) eqn:El;
                   [apply Ascii.eqb_eq in El; subst c; reflexivity |]
               end.
        rewrite andb_false_r in Hp. discriminate Hp. }
      assert (Hm : Ascii.eqb c "-" = false).
      { destruct (Ascii.eqb c "-") eqn:El; [| reflexivity].
        apply Ascii.eqb_eq in El. subst c. discriminate Hc. }
      assert (Hpl : Ascii.eqb c "+" = false).
      { destruct (Ascii.eqb c "+") eqn:El; [| reflexivity].
        apply Ascii.eqb_eq in El. subst c. discriminate Hc. }
      rewrite Hm, Hpl, Hp. simpl. rewrite Hv, DecimalN.Unsigned.of_to.
      f_equal. apply Z.ltb_ge in Hz. rewrite N2Z.inj_abs_N. lia.
Qed.

(** *** [replace] *)

Lemma replace_from_no_first (old : string) (a : ascii) (old' s t : string) :
  old = String a old' ->
  (forall c, (is_digit c || Ascii.eqb c "-") = true -> c <> a) ->
  numeric s = true ->
  replace_from old "" (s ++ t) O = (s ++ replace_from old "" t O)%string.
Proof.
  intros -> Ha.
  induction s as [| c s IH]; intros Hs; [reflexivity |].
  simpl in Hs. apply andb_true_iff in Hs. destruct Hs as [Hc Hs].
  cbn [append replace_from String.prefix].
  destruct (ascii_dec a c) as [<- | Hne].
  - exfalso. now apply (Ha a).
  - now rewrite IH.
Qed.

Lemma prefix_append (s t : string) : String.prefix s (s ++ t) = true.
Proof.
  induction s as [| c s IH]; cbn [append String.prefix].
  - now destruct t.
  - destruct (ascii_dec c c) as [_ | Hne]; [exact IH | now contradiction Hne].
Qed.

Lemma replace_from_skip (old new pre t : string) :
  replace_from old new (pre ++ t) (String.length pre) = replace_from old new t O.
Proof.
  induction pre as [| c pre IH]; [reflexivity |].
  cbn [append String.length replace_from]. exact IH.
Qed.

(** An occurrence of [old] at the start of the text is dropped. *)
Lemma replace_from_prefix (a : ascii) (old' t : string) :
  replace_from (String a old') "" (String a old' ++ t) O
  = replace_from (String a old') "" t O.
Proof.
  cbn [append replace_from].
  change (String a (old' ++ t)) with (String a old' ++ t)%string.
  rewrite prefix_append.
  cbn [String.length Nat.sub append]. rewrite Nat.sub_0_r.
  apply replace_from_skip.
Qed.

End PyProofs.

(* ------------------------------------------------------------------ *)
(** ** Properties of the checkpoint store *)

Module CheckpointProofs.

Import Checkpoint Spec PyProofs.
Local Open Scope list_scope.

Lemma numeric_not_p (c : ascii) : (is_digit c || Ascii.eqb c "-") = true -> c <> "p"%char.
Proof. intros H ->. discriminate H. Qed.

Lemma numeric_not_dot (c : ascii) : (is_digit c || Ascii.eqb c "-") = true -> c <> "."%char.
Proof. intros H ->. discriminate H. Qed.

(** The cursor read from the name of a snapshot is the cursor it was
    saved with. *)
Lemma cursor_of_pkl_name (z : Z) : cursor_of_name (pkl_name z) = Some z.
Proof.
  unfold cursor_of_name, pkl_name, replace.
  rewrite replace_from_prefix.
  rewrite (replace_from_no_first _ "p" "hase1_checkpoint_batch_" (format_05d z) ".pkl"
             eq_refl numeric_not_p (numeric_format_05d z)).
  change (replace_from "phase1_checkpoint_batch_" "" ".pkl" 0) with ".pkl"%string.
  rewrite (replace_from_no_first _ "." "pkl" (format_05d z) ".pkl"
             eq_refl numeric_not_dot (numeric_format_05d z)).
  change (replace_from ".pkl" "" ".pkl" 0) with ""%string.
  rewrite append_nil_r.
  apply int_of_str_format_05d.
Qed.

Lemma pkl_name_inj (a b : Z) : pkl_name a = pkl_name b -> a = b.
Proof.
  intros H. apply (f_equal cursor_of_name) in H.
  rewrite !cursor_of_pkl_name in H. congruence.
Qed.

Lemma is_checkpoint_file_pkl (z : Z) : is_checkpoint_file (pkl_name z) = true.
Proof.
  unfold is_checkpoint_file, pkl_name, startswith.
  rewrite prefix_append.
  rewrite <- append_assoc, endswith_append by reflexivity.
  reflexivity.
Qed.

Lemma is_checkpoint_file_csv (z : Z) : is_checkpoint_file (csv_name z) = false.
Proof.
  unfold is_checkpoint_file, csv_name.
  rewrite <- append_assoc, endswith_append by reflexivity.
  apply andb_false_r.
Qed.

Lemma csv_name_not_pkl (a b : Z) : csv_name a <> pkl_name b.
Proof.
  intros H. apply (f_equal is_checkpoint_file) in H.
  rewrite is_checkpoint_file_csv, is_checkpoint_file_pkl in H. discriminate.
Qed.

(** *** Reading and writing files *)

Lemma read_write_same (n : string) (f : file) (d : directory) :
  read_file n (write_file n f d) = Some f.
Proof.
  induction d as [| [m g] d IH]; simpl.
  - now rewrite String.eqb_refl.
  - destruct (String.eqb m n) eqn:E; simpl.
    + now rewrite String.eqb_refl.
    + now rewrite E.
Qed.

Lemma read_write_other (n m : string) (f : file) (d : directory) :
  n <> m -> read_file n (write_file m f d) = read_file n d.
Proof.
  intros Hne.
  induction d as [| [k g] d IH]; simpl.
  - apply String.eqb_neq in Hne. rewrite String.eqb_sym in Hne. now rewrite Hne.
  - destruct (String.eqb k m) eqn:E; simpl.
    + apply String.eqb_eq in E. subst k.
      apply String.eqb_neq in Hne. rewrite String.eqb_sym in Hne. now rewrite Hne.
    + destruct (String.eqb k n); [reflexivity | exact IH].
Qed.

Lemma in_write_file (n m : string) (f g : file) (d : directory) :
  In (n, g) (write_file m f d) -> (n = m /\ g = f) \/ In (n, g) d.
Proof.
  induction d as [| [k h] d IH]; simpl.
  - intros [H | []]. inversion H. now left.
  - destruct (String.eqb k m) eqn:E; simpl.
    + intros [H | H]; [inversion H; now left | now right; right].
    + intros [H | H]; [now right; left |].
      destruct (IH H) as [? | ?]; [now left | now right; right].
Qed.

Lemma write_file_in (m : string) (f : file) (d : directory) :
  In (m, f) (write_file m f d).
Proof.
  induction d as [| [k h] d IH]; simpl.
  - now left.
  - destruct (String.eqb k m); simpl; [now left | now right].
Qed.

(** The first file of a name is the one read. *)
Lemma read_file_unique (n : string) (f : file) (d : directory) :
  In (n, f) d -> (forall g, In (n, g) d -> g = f) -> read_file n d = Some f.
Proof.
  induction d as [| [k h] d IH]; simpl; intros Hin Huniq.
  - destruct Hin.
  - destruct (String.eqb k n) eqn:E.
    + apply String.eqb_eq in E. subst k.
      f_equal. apply Huniq. now left.
    + apply IH.
      * destruct Hin as [H | H]; [| exact H].
        inversion H. subst. now rewrite String.eqb_refl in E.
      * intros g Hg. apply Huniq. now right.
Qed.

(** *** The choice of [max] *)

(** When every name carries a cursor, [max] returns a name of the list
    whose cursor no other cursor exceeds. *)
Lemma max_by_cursor_spec (l : list string) :
  forall (best : string) (best_key : Z),
  cursor_of_name best = Some best_key ->
  (forall x, In x l -> exists k, cursor_of_name x = Some k) ->
  exists r kr,
    max_by_cursor best best_key l = Ok r
    /\ In r (best :: l)
    /\ cursor_of_name r = Some kr
    /\ (forall x k, In x (best :: l) -> cursor_of_name x = Some k -> k <= kr).
Proof.
  induction l as [| x l IH]; intros best bk Hbest Hall.
  - exists best, bk. simpl. repeat split; auto.
    intros x k [<- | []] Hk. rewrite Hbest in Hk. inversion Hk. lia.
  - destruct (Hall x (or_introl eq_refl)) as [k Hk].
    simpl. rewrite Hk.
    destruct (bk <? k) eqn:E.
    + destruct (IH x k Hk (fun y Hy => Hall y (or_intror Hy)))
        as (r & kr & Hr & Hin & Hkr & Hmax).
      exists r, kr.
      split; [exact Hr |].
      split; [right; exact Hin |].
      split; [exact Hkr |].
      intros y ky Hy Hy'.
      destruct Hy as [Heq | Hy].
      * subst y. rewrite Hbest in Hy'. inversion Hy'. subst ky.
        apply Z.ltb_lt in E.
        specialize (Hmax x k (or_introl eq_refl) Hk). lia.
      * apply (Hmax y ky Hy Hy').
    + destruct (IH best bk Hbest (fun y Hy => Hall y (or_intror Hy)))
        as (r & kr & Hr & Hin & Hkr & Hmax).
      exists r, kr.
      split; [exact Hr |].
      split; [destruct Hin as [<- | Hin]; [now left | right; now right] |].
      split; [exact Hkr |].
      intros y ky Hy Hy'.
      destruct Hy as [Heq | [Heq | Hy]].
      * apply (Hmax y ky); [now left | exact Hy'].
      * subst y. rewrite Hk in Hy'. inversion Hy'. subst ky.
        apply Z.ltb_ge in E.
        specialize (Hmax best bk (or_introl eq_refl) Hbest). lia.
      * apply (Hmax y ky); [now right | exact Hy'].
Qed.

Lemma read_file_in (n : string) (f : file) (d : directory) :
  read_file n d = Some f -> In (n, f) d.
Proof.
  induction d as [| [k h] d IH]; simpl; intros H; [discriminate |].
  destruct (String.eqb k n) eqn:E.
  - apply String.eqb_eq in E. inversion H. subst. now left.
  - right. now apply IH.
Qed.

(** What [load_phase1_checkpoint] returns on a directory in which the
    name [n] reads as a pickled checkpoint and every other checkpoint
    file carries a cursor strictly below that of [n]. *)
Lemma load_latest (d : directory) (n : string) (c : Z) (ck : checkpoint) :
  read_file n d = Some (Pickle ck) ->
  is_checkpoint_file n = true ->
  cursor_of_name n = Some c ->
  (forall m g, In (m, g) d -> is_checkpoint_file m = true -> m <> n ->
               exists k, cursor_of_name m = Some k /\ k < c) ->
  load_phase1_checkpoint (Some d) = Ok (Some ck).
Proof.
  intros Hread Hfile Hcur Hothers.
  unfold load_phase1_checkpoint.
  assert (Hn : In n (filter is_checkpoint_file (listdir d))).
  { apply filter_In. split; [| exact Hfile].
    unfold listdir. apply in_map_iff. exists (n, Pickle ck).
    split; [reflexivity | now apply read_file_in]. }
  assert (Hparse : forall x, In x (filter is_checkpoint_file (listdir d)) ->
                             exists k, cursor_of_name x = Some k).
  { intros x Hx. apply filter_In in Hx. destruct Hx as [Hx Hf].
    unfold listdir in Hx. apply in_map_iff in Hx. destruct Hx as ([m g] & <- & Hmg).
    simpl in *.
    destruct (string_dec m n) as [-> | Hne]; [now exists c |].
    destruct (Hothers m g Hmg Hf Hne) as (k & Hk & _). now exists k. }
  destruct (filter is_checkpoint_file (listdir d)) as [| x l] eqn:Efiles; [destruct Hn |].
  destruct (Hparse x (or_introl eq_refl)) as [k Hk].
  rewrite Hk.
  destruct (max_by_cursor_spec l x k Hk (fun y Hy => Hparse y (or_intror Hy)))
    as (r & kr & Hr & Hrin & Hkr & Hmax).
  rewrite Hr.
  assert (r = n) as ->.
  { destruct (string_dec r n) as [-> | Hne]; [reflexivity |].
    exfalso.
    assert (Hr' : In r (filter is_checkpoint_file (listdir d))) by now rewrite Efiles.
    apply filter_In in Hr'. destruct Hr' as [Hr' Hf].
    unfold listdir in Hr'. apply in_map_iff in Hr'. destruct Hr' as ([m g] & <- & Hmg).
    simpl in *.
    destruct (Hothers m g Hmg Hf Hne) as (k' & Hk' & Hlt).
    rewrite Hkr in Hk'. inversion Hk'. subst k'.
    specialize (Hmax n c Hn Hcur). lia. }
  now rewrite Hread.
Qed.

(** C2 (as the code has it): a load that follows a save returns the
    checkpoint just saved, with the saved payload, cursor, side counters
    and timestamp, when every other checkpoint file of the directory
    carries a cursor strictly below the saved one. *)
Theorem save_then_load (now : string) (cursor : Z) (payload : list record)
  (failed : list Z) (total : Z) (st : store) :
  (forall n f, In (n, f) (create_phase1_dirs st) ->
               is_checkpoint_file n = true -> n <> pkl_name cursor ->
               exists k, cursor_of_name n = Some k /\ k < cursor) ->
  load_phase1_checkpoint (save_phase1_checkpoint now cursor payload failed total st)
  = Ok (Some {| batch_index := cursor;
                pubmed_data := payload;
                failed_batches := failed;
                total_count := total;
                timestamp := now |}).
Proof.
  intros Hothers.
  unfold save_phase1_checkpoint.
  set (ck := {| batch_index := cursor; pubmed_data := payload;
                failed_batches := failed; total_count := total; timestamp := now |}).
  set (d := create_phase1_dirs st) in *.
  set (d1 := write_file (pkl_name cursor) (Pickle ck) d).
  assert (H1 : forall m g, In (m, g) d1 -> is_checkpoint_file m = true ->
                           m <> pkl_name cursor ->
                           exists k, cursor_of_name m = Some k /\ k < cursor).
  { intros m g Hmg Hf Hne.
    apply in_write_file in Hmg. destruct Hmg as [[-> _] | Hmg]; [contradiction |].
    now apply (Hothers m g). }
  destruct payload as [| r rows].
  - apply (load_latest d1 (pkl_name cursor) cursor ck).
    + apply read_write_same.
    + apply is_checkpoint_file_pkl.
    + apply cursor_of_pkl_name.
    + exact H1.
  - apply (load_latest _ (pkl_name cursor) cursor ck).
    + rewrite read_write_other.
      * apply read_write_same.
      * intros H. symmetry in H. now apply csv_name_not_pkl in H.
    + apply is_checkpoint_file_pkl.
    + apply cursor_of_pkl_name.
    + intros m g Hmg Hf Hne.
      apply in_write_file in Hmg. destruct Hmg as [[-> _] | Hmg].
      * rewrite is_checkpoint_file_csv in Hf. discriminate.
      * now apply (H1 m g).
Qed.

Lemma save_then_load_witness :
  load_phase1_checkpoint
    (save_phase1_checkpoint "2024-01-02T10:00:00" 100 payload_b [3] 200
       (save_phase1_checkpoint "2024-01-01T00:00:00" 50 payload_a [] 200 None))
  = Ok (Some {| batch_index := 100;
                pubmed_data := payload_b;
                failed_batches := [3];
                total_count := 200;
                timestamp := "2024-01-02T10:00:00" |}).
Proof.
  apply save_then_load.
  intros n f Hin Hfile Hne.
  simpl in Hin.
  destruct Hin as [H | [H | []]]; inversion H; subst.
  - exists 50. split; [reflexivity | lia].
  - discriminate Hfile.
Defined.

(** C2 (as the specification has it) fails: after a save at cursor 100
    and then a save at cursor 50, with no save in between or after, the
    load returns the snapshot of cursor 100 and not the checkpoint saved
    last. *)
Lemma load_returns_earlier_higher_cursor :
  let st := save_phase1_checkpoint "2024-01-01T00:00:00" 100 payload_a [] 200 None in
  exists ck,
    load_phase1_checkpoint
      (save_phase1_checkpoint "2024-01-02T10:00:00" 50 payload_b [] 200 st)
    = Ok (Some ck)
    /\ batch_index ck = 100
    /\ batch_index ck <> 50
    /\ pubmed_data ck = payload_a
    /\ pubmed_data ck <> payload_b.
Proof.
  eexists.
  split; [vm_compute; reflexivity |].
  repeat split; simpl; discriminate.
Qed.

Lemma exists_max_cursor {A : Type} (l : list (Z * A)) :
  l <> [] ->
  exists c a, In (c, a) l /\ forall c', In c' (map fst l) -> c' <= c.
Proof.
  induction l as [| [c a] l IH]; intros Hne; [contradiction |].
  destruct l as [| p l].
  - exists c, a. split; [now left |].
    intros c' [<- | []]. simpl. lia.
  - destruct IH as (c0 & a0 & Hin & Hmax); [discriminate |].
    destruct (Z_le_gt_dec c c0) as [Hle | Hgt].
    + exists c0, a0. split; [now right |].
      intros c' [<- | Hc']; [exact Hle | now apply Hmax].
    + exists c, a. split; [now left |].
      intros c' [<- | Hc']; [simpl; lia |].
      specialize (Hmax c' Hc'). lia.
Qed.

Lemma NoDup_map_fst_unique {A B : Type} (l : list (A * B)) (a : A) (b b' : B) :
  NoDup (map fst l) -> In (a, b) l -> In (a, b') l -> b = b'.
Proof.
  induction l as [| [x y] l IH]; simpl; intros Hnd H1 H2; [destruct H1 |].
  inversion Hnd as [| ? ? Hnotin Hnd']. subst.
  destruct H1 as [H1 | H1]; destruct H2 as [H2 | H2].
  - congruence.
  - inversion H1. subst. exfalso. apply Hnotin.
    apply in_map_iff. now exists (a, b').
  - inversion H2. subst. exfalso. apply Hnotin.
    apply in_map_iff. now exists (a, b).
  - now apply IH.
Qed.

(** C3: whenever the directory holds a non-empty set of snapshots with
    distinct cursors, next to any files that are not checkpoint files,
    [load_phase1_checkpoint] returns the checkpoint of the snapshot whose
    cursor is the greatest, and it does so for every order in which the
    directory lists its files. *)
Theorem load_selects_max_cursor (snaps : list (Z * checkpoint)) (others : directory) :
  snaps <> [] ->
  NoDup (map fst snaps) ->
  (forall n f, In (n, f) others -> is_checkpoint_file n = false) ->
  exists c ck,
    In (c, ck) snaps
    /\ (forall c', In c' (map fst snaps) -> c' <= c)
    /\ forall d, Permutation d (map snapshot_file snaps ++ others) ->
                 load_phase1_checkpoint (Some d) = Ok (Some ck).
Proof.
  intros Hne Hnd Hothers.
  destruct (exists_max_cursor snaps Hne) as (c & ck & Hin & Hmax).
  exists c, ck.
  split; [exact Hin |].
  split; [exact Hmax |].
  intros d Hperm.
  assert (Hd : forall m g, In (m, g) d ->
                 (exists c' ck', In (c', ck') snaps /\ m = pkl_name c' /\ g = Pickle ck')
                 \/ is_checkpoint_file m = false).
  { intros m g Hmg.
    apply (Permutation_in _ Hperm) in Hmg.
    apply in_app_or in Hmg. destruct Hmg as [Hmg | Hmg].
    - left. apply in_map_iff in Hmg. destruct Hmg as ([c' ck'] & Heq & Hin').
      unfold snapshot_file in Heq. simpl in Heq. inversion Heq. now exists c', ck'.
    - right. now apply (Hothers m g). }
  apply (load_latest d (pkl_name c) c ck).
  - apply read_file_unique.
    + apply (Permutation_in _ (Permutation_sym Hperm)).
      apply in_or_app. left.
      apply in_map_iff. now exists (c, ck).
    + intros g Hg. destruct (Hd _ _ Hg) as [(c' & ck' & Hin' & Hname & ->) | Hf].
      * apply pkl_name_inj in Hname. subst c'.
        f_equal. apply (NoDup_map_fst_unique snaps c ck' ck Hnd Hin' Hin).
      * rewrite is_checkpoint_file_pkl in Hf. discriminate.
  - apply is_checkpoint_file_pkl.
  - apply cursor_of_pkl_name.
  - intros m g Hmg Hf Hneq.
    destruct (Hd _ _ Hmg) as [(c' & ck' & Hin' & -> & _) | Hf'].
    + exists c'. split; [apply cursor_of_pkl_name |].
      assert (Hle : c' <= c).
      { apply Hmax. apply in_map_iff. now exists (c', ck'). }
      assert (c' <> c) by (intros ->; now apply Hneq).
      lia.
    + congruence.
Qed.

Lemma load_selects_max_cursor_witness :
  load_phase1_checkpoint
    (Some [snapshot_file (snapshot_of 100);
           (csv_name 50, Csv payload_a);
           snapshot_file (snapshot_of 0);
           snapshot_file (snapshot_of 150);
           snapshot_file (snapshot_of 50)])
  = Ok (Some (snd (snapshot_of 150)))
  /\ load_phase1_checkpoint
       (Some [snapshot_file (snapshot_of 150);
              snapshot_file (snapshot_of 50);
              snapshot_file (snapshot_of 100);
              snapshot_file (snapshot_of 0);
              (csv_name 50, Csv payload_a)])
     = Ok (Some (snd (snapshot_of 150))).
Proof.
  pose (snaps := [snapshot_of 0; snapshot_of 50; snapshot_of 100; snapshot_of 150]).
  pose (others := [(csv_name 50, Csv payload_a)]).
  assert (Hne : snaps <> []) by discriminate.
  assert (Hnd : NoDup (map fst snaps)).
  { simpl. repeat constructor; simpl; intuition discriminate. }
  assert (Hothers : forall n f, In (n, f) others -> is_checkpoint_file n = false).
  { intros n f [H | []]. inversion H. reflexivity. }
  destruct (load_selects_max_cursor snaps others Hne Hnd Hothers)
    as (c & ck & Hin & Hmax & Hload).
  assert (Hc : c = 150).
  { assert (H150 : 150 <= c) by (apply Hmax; simpl; tauto).
    simpl in Hin.
    destruct Hin as [H | [H | [H | [H | []]]]]; inversion H; subst; lia. }
  assert (Hck : ck = snd (snapshot_of 150)).
  { subst c. simpl in Hin.
    destruct Hin as [H | [H | [H | [H | []]]]]; inversion H; reflexivity. }
  subst ck.
  split; apply Hload.
  - apply Permutation_sym.
    change (Permutation
              ([snapshot_file (snapshot_of 0); snapshot_file (snapshot_of 50)]
               ++ snapshot_file (snapshot_of 100) :: snapshot_file (snapshot_of 150) :: others)
              [snapshot_file (snapshot_of 100); (csv_name 50, Csv payload_a);
               snapshot_file (snapshot_of 0); snapshot_file (snapshot_of 150);
               snapshot_file (snapshot_of 50)]).
    simpl.
    apply NoDup_Permutation.
    + repeat constructor; simpl; intuition discriminate.
    + repeat constructor; simpl; intuition discriminate.
    + intros x. simpl. tauto.
  - apply Permutation_sym. simpl.
    apply NoDup_Permutation.
    + repeat constructor; simpl; intuition discriminate.
    + repeat constructor; simpl; intuition discriminate.
    + intros x. simpl. tauto.
Defined.

(** Cursors are compared as numbers: 100000 is later than 99999,
    although its name sorts first. *)
Lemma load_compares_cursors_as_numbers :
  String.ltb (pkl_name 100000) (pkl_name 99999) = true
  /\ load_phase1_checkpoint
       (Some [snapshot_file (snapshot_of 99999); snapshot_file (snapshot_of 100000)])
     = Ok (Some (snd (snapshot_of 100000))).
Proof. split; vm_compute; reflexivity. Qed.

End CheckpointProofs.

(* ------------------------------------------------------------------ *)
(** ** Properties of the validation engine *)

Module ValidationProofs.

Import Validation Spec PyProofs.
Local Open Scope list_scope.

(** *** The logs *)

Ltac run_monad :=
  unfold bind, ret, warn, error, lift, raise, errors_count, reset_logs in *.

Lemma app_logs_nil (st : logs) : app_logs st [] [] = st.
Proof. destruct st. unfold app_logs. simpl. now rewrite !app_nil_r. Qed.

Lemma app_logs_app (st : logs) (ws1 es1 ws2 es2 : list message) :
  app_logs (app_logs st ws1 es1) ws2 es2 = app_logs st (ws1 ++ ws2) (es1 ++ es2).
Proof. unfold app_logs. simpl. now rewrite !app_assoc. Qed.

Lemma total_ret {A : Type} (a : A) : total (ret a).
Proof. intros st. exists a, [], []. now rewrite app_logs_nil. Qed.

Lemma total_warn (msg : message) : total (warn msg).
Proof.
  intros st. exists tt, [msg], []. unfold warn, app_logs. now rewrite app_nil_r.
Qed.

Lemma total_error (msg : message) : total (error msg).
Proof.
  intros st. exists tt, [], [msg]. unfold error, app_logs. now rewrite app_nil_r.
Qed.

Lemma total_errors_count : total errors_count.
Proof.
  intros st. eexists. exists [], []. unfold errors_count. now rewrite app_logs_nil.
Qed.

Lemma total_bind {A B : Type} (m : M A) (k : A -> M B) :
  total m -> (forall a, total (k a)) -> total (bind m k).
Proof.
  intros Hm Hk st.
  destruct (Hm st) as (a & ws1 & es1 & H1).
  destruct (Hk a (app_logs st ws1 es1)) as (b & ws2 & es2 & H2).
  exists b, (ws1 ++ ws2), (es1 ++ es2).
  unfold bind. rewrite H1, H2. now rewrite app_logs_app.
Qed.

Ltac prove_total :=
  repeat first
    [ apply total_ret | apply total_warn | apply total_error
    | apply total_errors_count
    | apply total_bind; [| intros ?]
    | match goal with
      | |- total (if ?c then _ else _) => destruct c
      | |- total (match ?x with _ => _ end) => destruct x
      | |- total (let _ := _ in _) => cbv zeta
      end ].


Lemma bind_warn_ret {A B : Type} (msg : message) (x : A) (k : A -> M B) (st : logs) :
  bind (bind (warn msg) (fun _ => ret x)) k st = k x (app_logs st [msg] []).
Proof.
  unfold bind, warn, ret, app_logs. simpl. now rewrite app_nil_r.
Qed.


(** Once [ERRORS] is not empty, the closing test of a validator gives
    [False]. *)
Lemma closing_test_fails (critical_ok : bool) (st : logs) :
  ERRORS st <> [] ->
  bind errors_count (fun n_errors => ret (critical_ok && (n_errors =? 0))) st
  = (Ok false, st).
Proof.
  intros H. unfold bind, errors_count, ret.
  destruct (ERRORS st); [contradiction |].
  simpl. now rewrite andb_false_r.
Qed.

(** *** Masks and counts *)

Lemma count_true_map {A : Type} (P : A -> bool) (l : list A) :
  count_true (map P l) = Z.of_nat (List.length (filter P l)).
Proof.
  unfold count_true. f_equal.
  induction l as [| x l IH]; simpl; [reflexivity |].
  destruct (P x); simpl; now rewrite IH.
Qed.

Lemma select_map {A : Type} (P : A -> bool) (l : list A) :
  select (map P l) l = filter P l.
Proof.
  induction l as [| x l IH]; simpl; [reflexivity |].
  destruct (P x); now rewrite IH.
Qed.



Lemma unique_from_length {A : Type} (eqb : A -> A -> bool) (seen l : list A) :
  (List.length (unique_from eqb seen l) <= List.length l)%nat.
Proof.
  revert seen. induction l as [| x l IH]; intros seen; simpl; [lia |].
  destruct (existsb (eqb x) seen).
  - specialize (IH seen). lia.
  - simpl. specialize (IH (x :: seen)). lia.
Qed.

(** The distinct values of a column are never more than the rows. *)
Lemma nunique_le_len (df : DataFrame) (c : string) :
  (nunique (column df c) <= len df)%Z.
Proof.
  unfold nunique, len, unique, column.
  apply Nat2Z.inj_le.
  etransitivity; [apply unique_from_length |].
  etransitivity; [apply filter_length_le |].
  now rewrite length_map.
Qed.


(** *** [check_row_count_match] *)

Local Open Scope float_scope.

(** C5 (as the code has it): [check_row_count_match] passes
    unconditionally when [expected_count] is 0; otherwise it fails
    exactly when the percentage [|actual - expected| / expected * 100]
    (0 for a negative expected count) is greater than [tolerance * 100],
    both computed in binary64, and a failure appends the mismatch to
    [WARNINGS]. With 100 expected rows and a tolerance of 0.05, 105 rows
    pass and 106 rows fail. *)
Theorem check_row_count_match_verdict (df : DataFrame) (expected_count : Z)
  (phase_name : string) (tolerance : float) (explanation : string) (st : logs) :
  let actual_count := len df in
  let diff := Z.abs (actual_count - expected_count) in
  let pct_diff :=
    if (expected_count >? 0)%Z
    then float_of_int diff / float_of_int expected_count * 100 else 0 in
  let mismatch :=
    RowCountMismatch phase_name expected_count actual_count diff pct_diff
      (tolerance * 100) explanation in
  (expected_count = 0%Z ->
   check_row_count_match df expected_count phase_name tolerance explanation st
   = (Ok (true, RowCountNoExpected phase_name actual_count), st))
  /\ (expected_count <> 0%Z -> (tolerance * 100 <? pct_diff) = false ->
      check_row_count_match df expected_count phase_name tolerance explanation st
      = (Ok (true, RowCountOk phase_name actual_count pct_diff), st))
  /\ (expected_count <> 0%Z -> (tolerance * 100 <? pct_diff) = true ->
      check_row_count_match df expected_count phase_name tolerance explanation st
      = (Ok (false, mismatch),
         {| WARNINGS := WARNINGS st ++ [mismatch]; ERRORS := ERRORS st |}))
  /\ (actual_count = 105%Z ->
      fst (check_row_count_match df 100 phase_name 0.05 explanation st)
      = Ok (true, RowCountOk phase_name 105 5))
  /\ (actual_count = 106%Z ->
      fst (check_row_count_match df 100 phase_name 0.05 explanation st)
      = Ok (false, RowCountMismatch phase_name 100 106 6 6 5 explanation)).
Proof.
  cbv zeta.
  repeat split.
  - intros ->. reflexivity.
  - intros Hne Hle.
    unfold check_row_count_match.
    apply Z.eqb_neq in Hne. rewrite Hne.
    rewrite Hle. reflexivity.
  - intros Hne Hgt.
    unfold check_row_count_match.
    apply Z.eqb_neq in Hne. rewrite Hne.
    rewrite Hgt. reflexivity.
  - intros Hlen.
    unfold check_row_count_match.
    rewrite Hlen. reflexivity.
  - intros Hlen.
    unfold check_row_count_match.
    rewrite Hlen. reflexivity.
Qed.

Lemma holds_upto_spec (n : nat) (P : Z -> Z -> bool) :
  holds_upto n P = true ->
  forall a e, (0 <= a <= Z.of_nat n)%Z -> (0 <= e <= Z.of_nat n)%Z -> P a e = true.
Proof.
  unfold holds_upto. intros H a e Ha He.
  rewrite forallb_forall in H.
  assert (Hin : forall z, (0 <= z <= Z.of_nat n)%Z -> In z (map Z.of_nat (seq 0 (S n)))).
  { intros z Hz. apply in_map_iff. exists (Z.to_nat z).
    split; [lia |]. apply in_seq. lia. }
  specialize (H e (Hin e He)).
  rewrite forallb_forall in H.
  apply (H a (Hin a Ha)).
Qed.

(** With the three standard tolerances and up to 100 rows, the test in
    binary64 is the exact comparison of [|actual - expected|] with 1%,
    5% and 10% of the expected count. *)
Lemma standard_tolerances_exact (actual_count expected_count : Z) :
  (0 <= actual_count <= 100)%Z -> (1 <= expected_count <= 100)%Z ->
  let diff := Z.abs (actual_count - expected_count) in
  row_count_mismatch actual_count expected_count TOLERANCE_STRICT
  = (1 * expected_count <? 100 * diff)%Z
  /\ row_count_mismatch actual_count expected_count TOLERANCE_NORMAL
     = (5 * expected_count <? 100 * diff)%Z
  /\ row_count_mismatch actual_count expected_count TOLERANCE_LOOSE
     = (10 * expected_count <? 100 * diff)%Z.
Proof.
  intros Ha He.
  pose (P := fun a e : Z =>
    (e =? 0)%Z
    || (Bool.eqb (row_count_mismatch a e TOLERANCE_STRICT)
                 (1 * e <? 100 * Z.abs (a - e))%Z
        && Bool.eqb (row_count_mismatch a e TOLERANCE_NORMAL)
                    (5 * e <? 100 * Z.abs (a - e))%Z
        && Bool.eqb (row_count_mismatch a e TOLERANCE_LOOSE)
                    (10 * e <? 100 * Z.abs (a - e))%Z)).
  assert (H : holds_upto 100 P = true) by (vm_compute; reflexivity).
  pose proof (holds_upto_spec 100 P H actual_count expected_count) as Hp.
  unfold P in Hp.
  destruct (expected_count =? 0)%Z eqn:E; [apply Z.eqb_eq in E; lia |].
  simpl in Hp.
  assert (Hp' := Hp ltac:(lia) ltac:(lia)).
  apply andb_true_iff in Hp'. destruct Hp' as [Hp' H3].
  apply andb_true_iff in Hp'. destruct Hp' as [H1 H2].
  apply Bool.eqb_prop in H1, H2, H3.
  cbv zeta. auto.
Qed.

(** The verdict of [check_row_count_match] for a nonzero expected
    count is that test. *)
Lemma check_row_count_match_passes (df : DataFrame) (expected_count : Z)
  (phase_name : string) (tolerance : float) (explanation : string) (st : logs) :
  expected_count <> 0%Z ->
  exists msg st',
    check_row_count_match df expected_count phase_name tolerance explanation st
    = (Ok (negb (row_count_mismatch (len df) expected_count tolerance), msg), st').
Proof.
  intros Hne. unfold check_row_count_match, row_count_mismatch.
  apply Z.eqb_neq in Hne. rewrite Hne.
  match goal with
  | |- context [if ?c then _ else _] => destruct c
  end; eexists; eexists; reflexivity.
Qed.

Lemma check_row_count_match_verdict_witness :
  fst (check_row_count_match (blank_table ["PMID"] 105) 100 "Phase 5" 0.05 "" no_logs)
  = Ok (true, RowCountOk "Phase 5" 105 5)
  /\ check_row_count_match (blank_table ["PMID"] 106) 100 "Phase 5" 0.05 "" no_logs
     = (Ok (false, RowCountMismatch "Phase 5" 100 106 6 6 5 ""),
        {| WARNINGS := [RowCountMismatch "Phase 5" 100 106 6 6 5 ""]; ERRORS := [] |})
  /\ check_row_count_match (blank_table ["PMID"] 7) 0 "Phase 5" 0.05 "" no_logs
     = (Ok (true, RowCountNoExpected "Phase 5" 7), no_logs).
Proof.
  split; [| split].
  - apply (check_row_count_match_verdict (blank_table ["PMID"] 105) 100 "Phase 5" 0.05 "" no_logs).
    reflexivity.
  - apply (check_row_count_match_verdict (blank_table ["PMID"] 106) 100 "Phase 5" 0.05 "" no_logs).
    + discriminate.
    + reflexivity.
  - apply (check_row_count_match_verdict (blank_table ["PMID"] 7) 0 "Phase 5" 0.05 "" no_logs).
    reflexivity.
Defined.

(** C5 (as the specification has it) fails: with 4 rows, 3 expected and
    the tolerance just under one third, the ratio 1/3 is above the
    tolerance, both exactly and as a binary64 quotient, yet the check
    passes, because both percentages round to the same binary64 value. *)
Lemma check_row_count_match_rounding :
  let tolerance := 0.33333333333333326 in
  Prim2SF tolerance = S754_finite false 6004799503160660 (-54)
  /\ (3 * 6004799503160660 < 1 * 2 ^ 54)%Z
  /\ (tolerance <? float_of_int 1 / float_of_int 3) = true
  /\ check_row_count_match (blank_table ["PMID"] 4) 3 "Phase 5" tolerance "" no_logs
     = (Ok (true, RowCountOk "Phase 5" 4 (float_of_int 1 / float_of_int 3 * 100)), no_logs).
Proof.
  cbv zeta.
  split; [vm_compute; reflexivity |].
  split; [vm_compute; reflexivity |].
  split; vm_compute; reflexivity.
Qed.

Lemma total_check_row_count_match (df : DataFrame) (expected_count : Z)
  (phase_name : string) (tolerance : float) (explanation : string) :
  total (check_row_count_match df expected_count phase_name tolerance explanation).
Proof. unfold check_row_count_match. prove_total. Qed.

Local Close Scope float_scope.

(** *** [check_no_duplicates] *)

Lemma cell_eqb_eq (a b : cell) : cell_eqb a b = true <-> a = b.
Proof.
  destruct a, b; simpl; split; intros H; try discriminate; try reflexivity.
  - apply String.eqb_eq in H. congruence.
  - inversion H. apply String.eqb_refl.
  - apply Z.eqb_eq in H. congruence.
  - inversion H. apply Z.eqb_refl.
  - apply Bool.eqb_prop in H. congruence.
  - inversion H. apply Bool.eqb_reflx.
Qed.

Lemma key_eqb_eq (k1 k2 : list cell) : key_eqb k1 k2 = true <-> k1 = k2.
Proof.
  unfold key_eqb.
  revert k2.
  induction k1 as [| a k1 IH]; intros [| b k2]; simpl; split; intros H;
    try discriminate; try reflexivity.
  - apply andb_true_iff in H. destruct H as [Hlen H].
    apply andb_true_iff in H. destruct H as [Hab H].
    apply cell_eqb_eq in Hab. subst b.
    f_equal. apply IH. now rewrite Hlen, H.
  - inversion H; subst.
    assert (Hrefl : k2 = k2) by reflexivity.
    apply IH in Hrefl. apply andb_true_iff in Hrefl. destruct Hrefl as [Hlen Hall].
    rewrite Hlen, Hall.
    assert (Hb : cell_eqb b b = true) by now apply cell_eqb_eq.
    now rewrite Hb.
Qed.

Lemma key_eqb_refl (k : list cell) : key_eqb k k = true.
Proof. now apply key_eqb_eq. Qed.

Lemma key_eqb_neq (k1 k2 : list cell) : k1 <> k2 -> key_eqb k1 k2 = false.
Proof.
  intros H. destruct (key_eqb k1 k2) eqn:E; [| reflexivity].
  apply key_eqb_eq in E. contradiction.
Qed.

Lemma key_eq_dec (k1 k2 : list cell) : {k1 = k2} + {k1 <> k2}.
Proof.
  destruct (key_eqb k1 k2) eqn:E.
  - left. now apply key_eqb_eq.
  - right. intros H. apply key_eqb_eq in H. congruence.
Qed.

Lemma occurrences_count_occ (k : list cell) (keys : list (list cell)) :
  occurrences k keys = count_occ key_eq_dec keys k.
Proof.
  unfold occurrences.
  induction keys as [| x keys IH]; simpl; [reflexivity |].
  destruct (key_eq_dec x k) as [-> | Hne].
  - rewrite key_eqb_refl. simpl. now rewrite IH.
  - rewrite key_eqb_neq by congruence. exact IH.
Qed.

Lemma occurrences_filter (P : list cell -> bool) (k : list cell) (keys : list (list cell)) :
  occurrences k (filter P keys) = if P k then occurrences k keys else O.
Proof.
  unfold occurrences.
  induction keys as [| x keys IH]; simpl.
  - now destruct (P k).
  - destruct (P x) eqn:Px; simpl.
    + destruct (key_eqb k x) eqn:E; simpl.
      * apply key_eqb_eq in E. subst x. rewrite Px in *. now rewrite IH.
      * exact IH.
    + destruct (key_eqb k x) eqn:E; simpl.
      * apply key_eqb_eq in E. subst x. rewrite Px in *. exact IH.
      * exact IH.
Qed.

(** No value tuple occurs twice exactly when no row is marked. *)
Lemma no_shared_keys (keys : list (list cell)) :
  NoDup keys <-> filter (fun k => (2 <=? occurrences k keys)%nat) keys = [].
Proof.
  rewrite (NoDup_count_occ' key_eq_dec).
  split.
  - intros H.
    destruct (filter _ keys) as [| k l] eqn:E; [reflexivity |].
    assert (Hin : In k (filter (fun k => (2 <=? occurrences k keys)%nat) keys))
      by (rewrite E; now left).
    apply filter_In in Hin. destruct Hin as [Hin H2].
    apply Nat.leb_le in H2.
    rewrite occurrences_count_occ, (H k Hin) in H2. lia.
  - intros H k Hin.
    assert (Hpos : (0 < count_occ key_eq_dec keys k)%nat)
      by now apply count_occ_In.
    assert (Hnot : ~ In k (filter (fun k => (2 <=? occurrences k keys)%nat) keys))
      by (rewrite H; intros []).
    rewrite filter_In in Hnot.
    destruct (2 <=? occurrences k keys)%nat eqn:E.
    + exfalso. apply Hnot. now split.
    + apply Nat.leb_gt in E. rewrite occurrences_count_occ in E. lia.
Qed.

(** C10: on a table without rows, [check_no_duplicates] passes whatever
    the requested key columns are, present or not, and leaves both logs
    as they were. *)
Theorem check_no_duplicates_empty (df : DataFrame) (columns : list string)
  (phase_name description : string) (st : logs) :
  rows df = [] ->
  check_no_duplicates df columns phase_name description st
  = (Ok (true, EmptyDataframe phase_name), st).
Proof.
  intros Hrows.
  unfold check_no_duplicates, len.
  rewrite Hrows.
  reflexivity.
Qed.

Lemma check_no_duplicates_empty_witness :
  check_no_duplicates {| columns := ["PMID"]; rows := [] |} ["PMID"; "absent"]
    "Phase 1" "" {| WARNINGS := [NullPmids 1]; ERRORS := [PluralGuidelinePmids] |}
  = (Ok (true, EmptyDataframe "Phase 1"),
     {| WARNINGS := [NullPmids 1]; ERRORS := [PluralGuidelinePmids] |}).
Proof.
  apply check_no_duplicates_empty.
  reflexivity.
Defined.

(** C4: on a table with rows whose key columns are all present,
    [check_no_duplicates] passes exactly when no two rows have the same
    value tuple on the key columns; otherwise it fails, appends to
    [ERRORS] and reports as duplicate count the number of rows whose
    tuple is shared, a tuple shared by [m] rows counting [m] times, so
    that one tuple on 3 rows and every other on one row gives 3. When a
    key column is absent it returns a failed check and appends a warning
    that names the missing columns. *)
Theorem check_no_duplicates_verdict (df : DataFrame) (columns : list string)
  (phase_name description : string) (st : logs) :
  rows df <> [] ->
  let keys := key_tuples df columns in
  let missing_cols := filter (fun col => negb (has_column df col)) columns in
  let shared := filter (fun k => (2 <=? occurrences k keys)%nat) keys in
  let dup_count := Z.of_nat (List.length shared) in
  let duplicates :=
    DuplicateRows phase_name dup_count columns description
      (map (combine columns) (firstn 3 shared)) in
  (missing_cols = [] ->
   (NoDup keys ->
    check_no_duplicates df columns phase_name description st
    = (Ok (true, NoDuplicates phase_name columns description), st))
   /\ (~ NoDup keys ->
       check_no_duplicates df columns phase_name description st
       = (Ok (false, duplicates),
          {| WARNINGS := WARNINGS st; ERRORS := ERRORS st ++ [duplicates] |}))
   /\ (forall k, (2 <= occurrences k keys)%nat ->
                 occurrences k shared = occurrences k keys)
   /\ (forall k, (occurrences k keys < 2)%nat -> occurrences k shared = O)
   /\ (forall k0,
         occurrences k0 keys = 3%nat ->
         (forall k, k <> k0 -> (occurrences k keys <= 1)%nat) ->
         dup_count = 3 /\ ~ NoDup keys))
  /\ (missing_cols <> [] ->
      check_no_duplicates df columns phase_name description st
      = (Ok (false, MissingColumns phase_name missing_cols),
         {| WARNINGS := WARNINGS st ++ [MissingColumns phase_name missing_cols];
            ERRORS := ERRORS st |})).
Proof.
  intros Hrows keys missing_cols shared dup_count duplicates.
  assert (Hlen : (len df =? 0) = false).
  { unfold len. destruct (rows df); [contradiction | reflexivity]. }
  assert (Hcount : count_true (duplicated_all keys) = dup_count).
  { unfold duplicated_all. apply count_true_map. }
  assert (Hsel : select (duplicated_all keys) keys = shared).
  { unfold duplicated_all. apply select_map. }
  split.
  - intros Hmiss.
    split; [| split; [| split; [| split]]].
    + intros Hnodup.
      unfold check_no_duplicates. rewrite Hlen.
      fold missing_cols. rewrite Hmiss.
      fold keys. rewrite Hcount.
      apply no_shared_keys in Hnodup. fold shared in Hnodup.
      unfold dup_count. rewrite Hnodup. reflexivity.
    + intros Hdup.
      unfold check_no_duplicates. rewrite Hlen.
      fold missing_cols. rewrite Hmiss.
      fold keys. rewrite Hcount, Hsel.
      assert (Hpos : (dup_count >? 0) = true).
      { unfold dup_count. destruct shared eqn:E.
        - exfalso. apply Hdup. now apply no_shared_keys.
        - reflexivity. }
      rewrite Hpos. reflexivity.
    + intros k Hk. unfold shared. rewrite occurrences_filter.
      apply Nat.leb_le in Hk. now rewrite Hk.
    + intros k Hk. unfold shared. rewrite occurrences_filter.
      apply Nat.leb_gt in Hk. now rewrite Hk.
    + intros k0 H3 Hothers.
      assert (Hshared : shared = filter (key_eqb k0) keys).
      { unfold shared. apply filter_ext_in. intros k _.
        destruct (key_eq_dec k k0) as [-> | Hne].
        - rewrite H3, key_eqb_refl. reflexivity.
        - rewrite key_eqb_neq by congruence.
          apply Nat.leb_gt. specialize (Hothers k Hne). lia. }
      split.
      * unfold dup_count. rewrite Hshared.
        fold (occurrences k0 keys). now rewrite H3.
      * intros Hnodup. apply no_shared_keys in Hnodup.
        fold shared in Hnodup. rewrite Hshared in Hnodup.
        fold (occurrences k0 keys) in H3.
        unfold occurrences in H3. rewrite Hnodup in H3. discriminate.
  - intros Hmiss.
    unfold check_no_duplicates. rewrite Hlen.
    fold missing_cols.
    destruct missing_cols; [contradiction | reflexivity].
Qed.

Lemma check_no_duplicates_verdict_witness :
  check_no_duplicates phase1_triple ["PMID"] "Phase 1" "Each PMID should appear once" no_logs
  = (Ok (false,
         DuplicateRows "Phase 1" 3 ["PMID"] "Each PMID should appear once"
           [[("PMID", Int 1)]; [("PMID", Int 1)]; [("PMID", Int 1)]]),
     {| WARNINGS := [];
        ERRORS := [DuplicateRows "Phase 1" 3 ["PMID"] "Each PMID should appear once"
                     [[("PMID", Int 1)]; [("PMID", Int 1)]; [("PMID", Int 1)]]] |})
  /\ check_no_duplicates phase1_triple ["PMID"; "title"] "Phase 1" "" no_logs
     = (Ok (false, MissingColumns "Phase 1" ["title"]),
        {| WARNINGS := [MissingColumns "Phase 1" ["title"]]; ERRORS := [] |}).
Proof.
  split.
  - destruct (check_no_duplicates_verdict phase1_triple ["PMID"] "Phase 1"
                "Each PMID should appear once" no_logs) as [H _]; [discriminate |].
    destruct (H eq_refl) as (_ & Hdup & _ & _ & H3).
    destruct (H3 [Int 1]) as [_ Hshared]; [reflexivity | |].
    + intros k Hk. unfold occurrences. simpl.
      rewrite (key_eqb_neq k [Int 1] Hk).
      destruct (key_eqb k [Int 2]) eqn:E2; destruct (key_eqb k [Int 3]) eqn:E3;
        simpl; try lia.
      apply key_eqb_eq in E2. apply key_eqb_eq in E3. congruence.
    + exact (Hdup Hshared).
  - destruct (check_no_duplicates_verdict phase1_triple ["PMID"; "title"] "Phase 1" "" no_logs)
      as [_ H]; [discriminate |].
    apply H. discriminate.
Defined.

Lemma total_check_no_duplicates (df : DataFrame) (columns : list string)
  (phase_name description : string) :
  total (check_no_duplicates df columns phase_name description).
Proof. unfold check_no_duplicates. prove_total. Qed.

(** *** [check_cartesian_product] *)

Local Open Scope float_scope.

Lemma expected_max_loop_ok (df : DataFrame) (phase_name : string)
  (items : list (string * Z)) :
  Forall (fun p => snd p <> 0%Z) items ->
  forall (expected_max : Z) (st : logs),
  exists ws,
    expected_max_loop df phase_name items expected_max st
    = (Ok (expected_max * present_bound df items)%Z,
       {| WARNINGS := WARNINGS st ++ ws; ERRORS := ERRORS st |}).
Proof.
  induction 1 as [| [col expected_unique] items Hnz _ IH]; intros expected_max st.
  - exists []. simpl. unfold ret, present_bound. simpl.
    rewrite Z.mul_1_r, app_nil_r. destruct st; reflexivity.
  - simpl in Hnz. simpl.
    unfold present_bound. simpl.
    destruct (has_column df col) eqn:Hcol.
    + simpl.
      destruct (int_gt_float _ _).
      * unfold truediv.
        apply Z.eqb_neq in Hnz. rewrite Hnz.
        run_monad.
        match goal with
        | |- context [expected_max_loop _ _ _ ?m ?s] => destruct (IH m s) as [ws Hws]
        end.
        rewrite Hws. simpl.
        eexists. rewrite <- app_assoc, Z.mul_assoc. reflexivity.
      * destruct (IH (expected_max * expected_unique)%Z st) as [ws Hws].
        rewrite Hws. exists ws. rewrite Z.mul_assoc. reflexivity.
    + destruct (IH expected_max st) as [ws Hws].
      rewrite Hws. exists ws. reflexivity.
Qed.

Lemma product_nonzero (l : list Z) :
  Forall (fun z => z <> 0%Z) l -> product l <> 0%Z.
Proof.
  induction 1 as [| z l Hz _ IH]; simpl.
  - discriminate.
  - intros H. apply Z.mul_eq_0 in H. tauto.
Qed.

Lemma present_bound_nonzero (df : DataFrame) (items : list (string * Z)) :
  Forall (fun p => snd p <> 0%Z) items -> present_bound df items <> 0%Z.
Proof.
  intros H. apply product_nonzero.
  rewrite Forall_forall in *.
  intros z Hz. apply in_map_iff in Hz. destruct Hz as (p & <- & Hp).
  apply filter_In in Hp. apply H, Hp.
Qed.

(** C6 (as the code has it): the bound is the product of the supplied
    expected counts of the named columns that the table has, a named
    column that the table lacks being skipped; with nonzero counts the
    check fails, and appends to [ERRORS], exactly when the row count is
    greater than [bound * 1.2] computed in binary64. With counts 10 and
    20 for two columns of the table, 250 rows are flagged and 240 rows
    are not. *)
Theorem check_cartesian_product_verdict (df : DataFrame)
  (expected_unique_counts : list (string * Z)) (phase_name : string) (st : logs) :
  Forall (fun p => snd p <> 0%Z) expected_unique_counts ->
  let bound := present_bound df expected_unique_counts in
  let flagged := int_gt_float (len df) (float_of_int bound * 1.2) in
  (exists ws ratio,
     check_cartesian_product df expected_unique_counts phase_name st
     = if flagged
       then (Ok (false, CartesianProduct phase_name (len df) bound ratio),
             {| WARNINGS := WARNINGS st ++ ws;
                ERRORS := ERRORS st ++ [CartesianProduct phase_name (len df) bound ratio] |})
       else (Ok (true, NoCartesianProduct phase_name),
             {| WARNINGS := WARNINGS st ++ ws; ERRORS := ERRORS st |}))
  /\ (forall c1 c2,
        expected_unique_counts = [(c1, 10%Z); (c2, 20%Z)] ->
        has_column df c1 = true -> has_column df c2 = true ->
        bound = 200%Z
        /\ (len df = 250%Z -> flagged = true)
        /\ (len df = 240%Z -> flagged = false)).
Proof.
  intros Hnz bound flagged.
  split.
  - destruct (expected_max_loop_ok df phase_name _ Hnz 1%Z st) as [ws Hws].
    rewrite Z.mul_1_l in Hws. fold bound in Hws.
    unfold check_cartesian_product.
    unfold bind at 1. rewrite Hws.
    fold flagged.
    destruct flagged.
    + unfold truediv.
      pose proof (present_bound_nonzero df _ Hnz) as Hb. fold bound in Hb.
      apply Z.eqb_neq in Hb. rewrite Hb.
      run_monad. simpl.
      eexists. eexists. reflexivity.
    + exists ws. exists 0. reflexivity.
  - intros c1 c2 -> H1 H2.
    assert (Hb : bound = 200%Z).
    { unfold bound, present_bound. simpl. rewrite H1, H2. reflexivity. }
    split; [exact Hb |].
    unfold flagged. rewrite Hb.
    split; intros ->; reflexivity.
Qed.

Lemma check_cartesian_product_verdict_witness :
  (exists ws ratio,
     check_cartesian_product (blank_table ["guideline_pmid"; "ref_pmid"] 250)
       [("guideline_pmid", 10%Z); ("ref_pmid", 20%Z)] "Phase 3" no_logs
     = (Ok (false, CartesianProduct "Phase 3" 250 200 ratio),
        {| WARNINGS := [] ++ ws;
           ERRORS := [] ++ [CartesianProduct "Phase 3" 250 200 ratio] |}))
  /\ int_gt_float (len (blank_table ["guideline_pmid"; "ref_pmid"] 240))
       (float_of_int 200 * 1.2) = false.
Proof.
  pose (items := [("guideline_pmid", 10%Z); ("ref_pmid", 20%Z)]).
  assert (Hnz : Forall (fun p : string * Z => snd p <> 0%Z) items)
    by (repeat constructor; discriminate).
  split.
  - destruct (check_cartesian_product_verdict
                (blank_table ["guideline_pmid"; "ref_pmid"] 250) items "Phase 3" no_logs Hnz)
      as [(ws & ratio & H) _].
    exists ws, ratio. exact H.
  - destruct (check_cartesian_product_verdict
                (blank_table ["guideline_pmid"; "ref_pmid"] 240) items "Phase 3" no_logs Hnz)
      as [_ H].
    destruct (H "guideline_pmid" "ref_pmid" eq_refl eq_refl eq_refl) as (Hb & _ & H240).
    rewrite <- Hb.
    apply H240. reflexivity.
Defined.

(** C6 (as the specification has it) fails: the table has neither named
    column, so the bound is 1 and not the product 200 of the supplied
    counts, and a table of 2 rows is flagged. *)
Lemma check_cartesian_product_skips_absent_columns :
  let df := blank_table ["PMID"] 2 in
  let expected_unique_counts := [("guideline_pmid", 10%Z); ("ref_pmid", 20%Z)] in
  supplied_bound expected_unique_counts = 200%Z
  /\ int_gt_float (len df) (float_of_int (supplied_bound expected_unique_counts) * 1.2) = false
  /\ check_cartesian_product df expected_unique_counts "Phase 3" no_logs
     = (Ok (false, CartesianProduct "Phase 3" 2 1 2),
        {| WARNINGS := []; ERRORS := [CartesianProduct "Phase 3" 2 1 2] |}).
Proof.
  cbv zeta.
  split; [reflexivity |].
  split; vm_compute; reflexivity.
Qed.

Local Close Scope float_scope.

(** *** [check_column_values] and the identifier format *)




(** C9: a value made of [NCT], 8 digits and a final newline is not of
    the strict identifier format, yet the format check of
    [validate_phase4] accepts it: the check passes, nothing is appended
    to [WARNINGS], and the validator returns [True]. *)
Theorem check_column_values_accepts_trailing_newline :
  is_nct_id (String.append "NCT12345678" (String "010" "")) = false
  /\ check_column_values phase4_trailing_newline "nct_number" nct_strict_regex "Phase 4"
       "NCT numbers should be NCT########" no_logs
     = (Ok (true, AllValuesValid "Phase 4" "nct_number"), no_logs)
  /\ validate_phase4 phase4_trailing_newline phase4_trailing_newline no_logs
     = (Ok true, no_logs).
Proof.
  split; [reflexivity |].
  split; vm_compute; reflexivity.
Qed.

(** *** [validate_phase3]: the derived identifiers *)

Ltac step_total_at m st :=
  let H := fresh "Htot" in
  assert (H : total m) by
    (first [ apply total_check_row_count_match
           | apply total_check_no_duplicates
           | prove_total ]);
  let a := fresh "a" in
  let ws := fresh "ws" in
  let es := fresh "es" in
  let Heq := fresh "Heq" in
  destruct (H st) as (a & ws & es & Heq);
  unfold bind at 1; rewrite Heq; clear H Heq.

(** Runs the first step of a goal about a sequence of steps. *)
Ltac step_total :=
  cbv zeta;
  lazymatch goal with
  | |- ex (fun _ => ex (fun _ => ex (fun _ => bind ?m ?k ?st = _ /\ _))) =>
      step_total_at m st
  | |- ex (fun _ => ex (fun _ => bind ?m ?k ?st = _ /\ _)) =>
      step_total_at m st
  end.











(** *** [validate_phase3]: the citation ratio *)

Local Open Scope float_scope.



Local Close Scope float_scope.

(** *** [run_all_validations] *)

Lemma load_all_missing_required (fs : output_folder) :
  (exists name, In name required_files /\ fs name = None) ->
  exists path, load_all fs = Raise (FileNotFoundError path).
Proof.
  intros (name & Hin & Hnone).
  unfold load_all, read_csv, rbind.
  repeat match goal with
         | |- context [fs ?n] =>
             lazymatch n with
             | String _ _ => destruct (fs n) eqn:?
             end
         | |- exists path, Raise _ = Raise _ => eexists; reflexivity
         end.
  exfalso.
  simpl in Hin.
  repeat (destruct Hin as [<- | Hin]; [congruence |]).
  exact Hin.
Qed.

(** C1 (as the code has it): when a required phase table is absent, the
    [FileNotFoundError] is caught inside [run_all_validations]: no
    validator runs, the call returns failure with an empty per-phase map,
    and the logs are the freshly reset ones. *)
Theorem run_all_validations_missing_required (fs : output_folder) (st : logs) :
  (exists name, In name required_files /\ fs name = None) ->
  run_all_validations fs st = (Ok (false, []), no_logs).
Proof.
  intros H.
  destruct (load_all_missing_required fs H) as [path Hload].
  unfold run_all_validations.
  run_monad.
  rewrite Hload.
  reflexivity.
Qed.

Lemma run_all_validations_missing_required_witness :
  run_all_validations folder_without_phase4 {| WARNINGS := [NullPmids 3]; ERRORS := [] |}
  = (Ok (false, []), no_logs).
Proof.
  apply run_all_validations_missing_required.
  exists "phase4_ctgov_trials_detailed.csv".
  split; [simpl; tauto | reflexivity].
Defined.

(** C1 (as the specification has it) fails: with the table of phase 4
    absent, the call returns normally instead of raising. *)
Lemma run_all_validations_catches_missing_file :
  In "phase4_ctgov_trials_detailed.csv" required_files
  /\ folder_without_phase4 "phase4_ctgov_trials_detailed.csv" = None
  /\ ~ raises_file_not_found (fst (run_all_validations folder_without_phase4 no_logs)).
Proof.
  split; [simpl; tauto |].
  split; [reflexivity |].
  intros [path H].
  vm_compute in H.
  discriminate H.
Qed.

End ValidationProofs.

(* ------------------------------------------------------------------ *)
(** ** Further properties of the checkpoint store *)

Module CheckpointExtras.

Import Py Checkpoint Cleanup Spec Props PyProofs CheckpointProofs.
Local Open Scope list_scope.

(** *** File names *)

(** X1: the name of a snapshot file encodes its cursor without loss,
    for every integer: the cursor read back from the name is the one it
    was saved with, so two cursors never share a file name; the name
    passes the filter of [load_phase1_checkpoint], and the name of the
    CSV mirror does not. *)
Theorem snapshot_name_encodes_cursor (a b : Z) :
  cursor_of_name (pkl_name a) = Some a
  /\ is_checkpoint_file (pkl_name a) = true
  /\ is_checkpoint_file (csv_name a) = false
  /\ (pkl_name a = pkl_name b <-> a = b).
Proof.
  split; [apply cursor_of_pkl_name |].
  split; [apply is_checkpoint_file_pkl |].
  split; [apply is_checkpoint_file_csv |].
  split; [apply pkl_name_inj | now intros ->].
Qed.

(** *** Loading *)

Lemma in_checkpoint_files (d : directory) (n : string) :
  In n (filter is_checkpoint_file (listdir d)) <->
  (exists f, In (n, f) d) /\ is_checkpoint_file n = true.
Proof.
  rewrite filter_In. unfold listdir. rewrite in_map_iff.
  split.
  - intros [([m f] & <- & Hin) Hf]. simpl in *. split; [now exists f | exact Hf].
  - intros [[f Hin] Hf]. split; [now exists (n, f) | exact Hf].
Qed.

(** X2: [load_phase1_checkpoint] returns [None] exactly when the
    directory does not exist or holds no file whose name starts with
    the snapshot stem and ends with [.pkl]. *)
Theorem load_none_iff (st : store) :
  load_phase1_checkpoint st = Ok None <->
  (forall n f, In (n, f) (create_phase1_dirs st) -> is_checkpoint_file n = false).
Proof.
  destruct st as [d |]; simpl.
  - split.
    + intros H n f Hin.
      destruct (is_checkpoint_file n) eqn:Hf; [| reflexivity].
      assert (Hn : In n (filter is_checkpoint_file (listdir d))).
      { apply in_checkpoint_files. split; [now exists f | exact Hf]. }
      destruct (filter is_checkpoint_file (listdir d)) as [| x l]; [destruct Hn |].
      destruct (cursor_of_name x); [| discriminate H].
      destruct (max_by_cursor x z l); [| discriminate H].
      destruct (read_file a d) as [[| |] |]; discriminate H.
    + intros H.
      destruct (filter is_checkpoint_file (listdir d)) as [| x l] eqn:E; [reflexivity |].
      assert (Hx : In x (filter is_checkpoint_file (listdir d))) by (rewrite E; now left).
      apply in_checkpoint_files in Hx. destruct Hx as [[f Hin] Hf].
      rewrite (H x f Hin) in Hf. discriminate Hf.
  - split; [intros _ n f [] | reflexivity].
Qed.




(** What [load_phase1_checkpoint] does on a directory in which every
    checkpoint file but [n] carries a cursor strictly below that of [n]:
    it opens [n] and nothing else. *)
Lemma load_opens_latest (d : directory) (n : string) (c : Z) (g : file) :
  read_file n d = Some g ->
  is_checkpoint_file n = true ->
  cursor_of_name n = Some c ->
  (forall m h, In (m, h) d -> is_checkpoint_file m = true -> m <> n ->
               exists k, cursor_of_name m = Some k /\ k < c) ->
  load_phase1_checkpoint (Some d)
  = match g with
    | Pickle ck => Ok (Some ck)
    | _ => Raise (UnpicklingError n)
    end.
Proof.
  intros Hread Hfile Hcur Hothers.
  unfold load_phase1_checkpoint.
  assert (Hn : In n (filter is_checkpoint_file (listdir d))).
  { apply in_checkpoint_files. split; [| exact Hfile].
    exists g. now apply read_file_in. }
  assert (Hparse : forall x, In x (filter is_checkpoint_file (listdir d)) ->
                             exists k, cursor_of_name x = Some k).
  { intros x Hx. apply in_checkpoint_files in Hx. destruct Hx as [[h Hin] Hf].
    destruct (string_dec x n) as [-> | Hne]; [now exists c |].
    destruct (Hothers x h Hin Hf Hne) as (k & Hk & _). now exists k. }
  destruct (filter is_checkpoint_file (listdir d)) as [| x l] eqn:Efiles; [destruct Hn |].
  destruct (Hparse x (or_introl eq_refl)) as [k Hk].
  rewrite Hk.
  destruct (max_by_cursor_spec l x k Hk (fun y Hy => Hparse y (or_intror Hy)))
    as (r & kr & Hr & Hrin & Hkr & Hmax).
  rewrite Hr.
  assert (r = n) as ->.
  { destruct (string_dec r n) as [-> | Hne]; [reflexivity |].
    exfalso.
    assert (Hr' : In r (filter is_checkpoint_file (listdir d))) by now rewrite Efiles.
    apply in_checkpoint_files in Hr'. destruct Hr' as [[h Hin] Hf].
    destruct (Hothers r h Hin Hf Hne) as (k' & Hk' & Hlt).
    rewrite Hkr in Hk'. inversion Hk'. subst k'.
    specialize (Hmax n c Hn Hcur). lia. }
  rewrite Hread. now destruct g.
Qed.

(** X4: when the file with the greatest cursor does not hold a pickled
    checkpoint, [load_phase1_checkpoint] raises the unpickling error for
    that file; it does not fall back to the intact snapshots with lower
    cursors. *)
Theorem load_does_not_fall_back (d : directory) (n : string) (c : Z) (g : file) :
  read_file n d = Some g ->
  (forall ck, g <> Pickle ck) ->
  is_checkpoint_file n = true ->
  cursor_of_name n = Some c ->
  (forall m h, In (m, h) d -> is_checkpoint_file m = true -> m <> n ->
               exists k, cursor_of_name m = Some k /\ k < c) ->
  load_phase1_checkpoint (Some d) = Raise (UnpicklingError n).
Proof.
  intros Hread Hg Hfile Hcur Hothers.
  rewrite (load_opens_latest d n c g Hread Hfile Hcur Hothers).
  destruct g as [ck | |]; [now destruct (Hg ck) | reflexivity | reflexivity].
Qed.

Lemma load_does_not_fall_back_witness :
  load_phase1_checkpoint
    (Some [snapshot_file (snapshot_of 50);
           (pkl_name 100, Other "truncated");
           snapshot_file (snapshot_of 0)])
  = Raise (UnpicklingError (pkl_name 100)).
Proof.
  apply (load_does_not_fall_back _ (pkl_name 100) 100 (Other "truncated")).
  - reflexivity.
  - intros ck H. discriminate H.
  - reflexivity.
  - vm_compute. reflexivity.
  - intros m h Hin Hf Hne.
    simpl in Hin.
    destruct Hin as [H | [H | [H | []]]]; inversion H; subst.
    + exists 50. split; [vm_compute; reflexivity | lia].
    + now destruct Hne.
    + exists 0. split; [vm_compute; reflexivity | lia].
Defined.

(** *** Saving *)

(** The files of the directory after a save. *)
Lemma save_read (now : string) (cursor : Z) (payload : list record)
  (failed : list Z) (total : Z) (st : store) :
  let before := create_phase1_dirs st in
  let after :=
    create_phase1_dirs (save_phase1_checkpoint now cursor payload failed total st) in
  save_phase1_checkpoint now cursor payload failed total st = Some after
  /\ read_file (pkl_name cursor) after
     = Some (Pickle {| batch_index := cursor;
                       pubmed_data := payload;
                       failed_batches := failed;
                       total_count := total;
                       timestamp := now |})
  /\ read_file (csv_name cursor) after
     = match payload with
       | [] => read_file (csv_name cursor) before
       | _ :: _ => Some (Csv payload)
       end
  /\ (forall n, n <> pkl_name cursor -> n <> csv_name cursor ->
                read_file n after = read_file n before)
  /\ (forall n f, In (n, f) after ->
                  n = pkl_name cursor \/ n = csv_name cursor \/ In (n, f) before).
Proof.
  unfold save_phase1_checkpoint. cbv zeta.
  destruct payload as [| r payload]; simpl create_phase1_dirs.
  - split; [reflexivity |].
    split; [apply read_write_same |].
    split; [apply read_write_other, csv_name_not_pkl |].
    split; [intros n H1 _; now apply read_write_other |].
    intros n f Hin. apply in_write_file in Hin. destruct Hin as [[-> _] | Hin]; auto.
  - split; [reflexivity |].
    split.
    { rewrite read_write_other; [apply read_write_same |].
      intros H. symmetry in H. now apply csv_name_not_pkl in H. }
    split; [apply read_write_same |].
    split; [intros n H1 H2; rewrite !read_write_other; auto |].
    intros n f Hin. apply in_write_file in Hin. destruct Hin as [[-> _] | Hin]; auto.
    apply in_write_file in Hin. destruct Hin as [[-> _] | Hin]; auto.
Qed.

(** X5: [save_phase1_checkpoint] creates the directory if need be and
    writes at most two files: the snapshot of the cursor, which then
    reads as the pickled arguments and timestamp, and its CSV mirror,
    written only for a non-empty payload, so that a save with an empty
    payload leaves an older mirror of the same cursor in place. Every
    other file reads as before. *)
Theorem save_writes_two_files (now : string) (cursor : Z) (payload : list record)
  (failed : list Z) (total : Z) (st : store) :
  let before := create_phase1_dirs st in
  let after :=
    create_phase1_dirs (save_phase1_checkpoint now cursor payload failed total st) in
  save_phase1_checkpoint now cursor payload failed total st = Some after
  /\ read_file (pkl_name cursor) after
     = Some (Pickle {| batch_index := cursor;
                       pubmed_data := payload;
                       failed_batches := failed;
                       total_count := total;
                       timestamp := now |})
  /\ read_file (csv_name cursor) after
     = match payload with
       | [] => read_file (csv_name cursor) before
       | _ :: _ => Some (Csv payload)
       end
  /\ forall n, n <> pkl_name cursor -> n <> csv_name cursor ->
               read_file n after = read_file n before.
Proof.
  destruct (save_read now cursor payload failed total st) as (H1 & H2 & H3 & H4 & _).
  cbv zeta. auto.
Qed.

Lemma apply_save_below (st : store) (s : save_call) (top : Z) :
  all_below (create_phase1_dirs st) top ->
  call_cursor s <= top ->
  all_below (create_phase1_dirs (apply_save st s)) top.
Proof.
  intros Hd Hle n f Hin Hf Hne.
  destruct (save_read (call_time s) (call_cursor s) (call_payload s) (call_failed s)
              (call_total s) st) as (_ & _ & _ & _ & Hfiles).
  destruct (Hfiles n f Hin) as [-> | [-> | H]].
  - exists (call_cursor s). split; [apply cursor_of_pkl_name |].
    assert (call_cursor s <> top) by (intros E; apply Hne; now rewrite E). lia.
  - rewrite is_checkpoint_file_csv in Hf. discriminate Hf.
  - now apply (Hd n f).
Qed.

Lemma run_saves_below (calls : list save_call) (top : Z) :
  forall st,
  all_below (create_phase1_dirs st) top ->
  (forall s, In s calls -> call_cursor s <= top) ->
  all_below (create_phase1_dirs (run_saves calls st)) top.
Proof.
  induction calls as [| s calls IH]; intros st Hd Hle; [exact Hd |].
  simpl. apply IH.
  - apply apply_save_below; [exact Hd | apply Hle; now left].
  - intros s' Hs'. apply Hle. now right.
Qed.

(** What a load returns after a save into a directory in which every
    other checkpoint file carries a lower cursor. *)
Lemma load_after_save (s : save_call) (st : store) :
  all_below (create_phase1_dirs st) (call_cursor s) ->
  load_phase1_checkpoint (apply_save st s) = Ok (Some (checkpoint_of s)).
Proof.
  intros Hd.
  pose proof (apply_save_below st s (call_cursor s) Hd (Z.le_refl _)) as Hd'.
  destruct (save_read (call_time s) (call_cursor s) (call_payload s) (call_failed s)
              (call_total s) st) as (Hsome & Hread & _).
  fold (apply_save st s) in Hsome, Hread.
  rewrite Hsome.
  now rewrite (load_opens_latest _ (pkl_name (call_cursor s)) (call_cursor s) _ Hread
                 (is_checkpoint_file_pkl _) (cursor_of_pkl_name _) Hd').
Qed.

(** X6: after any sequence of saves, [load_phase1_checkpoint] returns
    the checkpoint of the last save, provided that no earlier save of
    the sequence used a greater cursor and that the checkpoint files
    found at the start carry lower cursors. A save may repeat a cursor:
    it then overwrites the snapshot. *)
Theorem load_after_saves (calls : list save_call) (last : save_call) (st : store) :
  (forall n f, In (n, f) (create_phase1_dirs st) ->
               is_checkpoint_file n = true -> n <> pkl_name (call_cursor last) ->
               exists k, cursor_of_name n = Some k /\ k < call_cursor last) ->
  (forall s, In s calls -> call_cursor s <= call_cursor last) ->
  load_phase1_checkpoint (run_saves (calls ++ [last]) st) = Ok (Some (checkpoint_of last)).
Proof.
  intros Hst Hle.
  unfold run_saves. rewrite fold_left_app. simpl.
  fold (run_saves calls st).
  apply load_after_save.
  now apply run_saves_below.
Qed.

Lemma load_after_saves_witness :
  load_phase1_checkpoint (run_saves (first_calls ++ [last_call]) None)
  = Ok (Some (checkpoint_of last_call)).
Proof.
  apply (load_after_saves first_calls last_call None).
  - simpl. intros n f [].
  - simpl. intros s [<- | [<- | []]]; simpl; lia.
Defined.

End CheckpointExtras.

(* ------------------------------------------------------------------ *)
(** ** Properties of the cleanup functions *)

Module CleanupExtras.

Import Py Checkpoint Cleanup Spec Props PyProofs CheckpointProofs CheckpointExtras.
Local Open Scope list_scope.

Lemma in_phase_dirs (p : string) :
  existsb (String.eqb p) PHASE_DIRS = true <-> In p PHASE_DIRS.
Proof.
  rewrite existsb_exists. split.
  - intros (x & Hin & E). apply String.eqb_eq in E. now subst.
  - intros H. exists p. split; [exact H | apply String.eqb_refl].
Qed.

Lemma declined_iff (response : string) :
  negb (String.eqb (lower response) "yes") = true <-> lower response <> "yes".
Proof.
  rewrite negb_true_iff. split.
  - intros H E. rewrite E in H. discriminate H.
  - intros H. destruct (String.eqb (lower response) "yes") eqn:E; [| reflexivity].
    apply String.eqb_eq in E. contradiction.
Qed.

(** X7: a cleanup that returns [False] has deleted nothing.
    [cleanup_all_checkpoints] returns [False] exactly when the base
    directory exists, confirmation is asked and the answer, put in lower
    case, is not [yes]; [cleanup_phase_checkpoints] returns [False]
    exactly when the phase name is not a key of [PHASE_DIRS], also with
    [confirm=False], or when the phase directory exists, confirmation is
    asked and the answer is not [yes]. *)
Theorem cleanup_false_deletes_nothing (phase_name : string) (confirm : bool)
  (response : string) (t : tree) :
  let all := cleanup_all_checkpoints confirm response t in
  let one := cleanup_phase_checkpoints phase_name confirm response t in
  (fst all = false <-> t <> None /\ confirm = true /\ lower response <> "yes")
  /\ (fst one = false <->
      ~ In phase_name PHASE_DIRS
      \/ (phase_dir phase_name t <> None /\ confirm = true /\ lower response <> "yes"))
  /\ (fst all = false -> snd all = t)
  /\ (fst one = false -> snd one = t).
Proof.
  cbv zeta. unfold cleanup_all_checkpoints, cleanup_phase_checkpoints, phase_dir_exists.
  rewrite <- (in_phase_dirs phase_name), <- (declined_iff response).
  destruct (existsb (String.eqb phase_name) PHASE_DIRS), confirm,
    (negb (String.eqb (lower response) "yes")), t as [m |]; simpl;
    try destruct (m phase_name); simpl;
    intuition (try congruence; try discriminate).
Qed.

Lemma cleanup_phase_gone (phase_name : string) (confirm : bool) (response : string)
  (t : tree) :
  fst (cleanup_phase_checkpoints phase_name confirm response t) = true ->
  phase_dir phase_name (snd (cleanup_phase_checkpoints phase_name confirm response t))
  = None.
Proof.
  unfold cleanup_phase_checkpoints, phase_dir_exists.
  destruct (negb (existsb (String.eqb phase_name) PHASE_DIRS)); [discriminate |].
  destruct (phase_dir phase_name t) eqn:E.
  - destruct (confirm && negb (String.eqb (lower response) "yes")); [discriminate |].
    intros _. destruct t as [m |]; simpl; [| reflexivity].
    now rewrite String.eqb_refl.
  - intros _. exact E.
Qed.

(** X8: when [cleanup_phase_checkpoints] returns [True], the directory
    of the named phase is gone, the directories of all other phases are
    as before, and for phase 1 the next load finds no checkpoint. *)
Theorem cleanup_phase_removes_one_phase (phase_name : string) (confirm : bool)
  (response : string) (t : tree) :
  fst (cleanup_phase_checkpoints phase_name confirm response t) = true ->
  let t' := snd (cleanup_phase_checkpoints phase_name confirm response t) in
  phase_dir phase_name t' = None
  /\ (forall q, q <> phase_name -> phase_dir q t' = phase_dir q t)
  /\ (phase_name = "phase1_pubmed" ->
      load_phase1_checkpoint (phase1_store t') = Ok None).
Proof.
  intros H. cbv zeta.
  pose proof (cleanup_phase_gone phase_name confirm response t H) as Hgone.
  split; [exact Hgone |].
  split.
  - intros q Hq. revert H. unfold cleanup_phase_checkpoints, phase_dir_exists.
    destruct (negb (existsb (String.eqb phase_name) PHASE_DIRS)); [discriminate |].
    destruct (phase_dir phase_name t).
    + destruct (confirm && negb (String.eqb (lower response) "yes")); [discriminate |].
      intros _. destruct t as [m |]; simpl; [| reflexivity].
      apply String.eqb_neq in Hq. now rewrite Hq.
    + reflexivity.
  - intros ->. unfold phase1_store. now rewrite Hgone.
Qed.

Lemma cleanup_phase_removes_one_phase_witness :
  let t' := snd (cleanup_phase_checkpoints "phase1_pubmed" true "YES" tree_example) in
  phase_dir "phase1_pubmed" t' = None
  /\ (forall q, q <> "phase1_pubmed" -> phase_dir q t' = phase_dir q tree_example)
  /\ ("phase1_pubmed" = "phase1_pubmed" ->
      load_phase1_checkpoint (phase1_store t') = Ok None).
Proof.
  apply (cleanup_phase_removes_one_phase "phase1_pubmed" true "YES" tree_example).
  reflexivity.
Defined.

Lemma phase1_store_with (t : tree) (st : store) :
  phase1_store (with_phase1_store t st) = st.
Proof. reflexivity. Qed.

(** X9: after a cleanup that returned [True], of everything or of
    phase 1, the first [save_phase1_checkpoint] is what the next load
    returns, whatever cursor it uses and whatever the directory held
    before the cleanup. *)
Theorem save_after_cleanup_is_loaded (confirm : bool) (response : string) (t t' : tree)
  (now : string) (cursor : Z) (payload : list record) (failed : list Z) (total : Z) :
  cleanup_all_checkpoints confirm response t = (true, t')
  \/ cleanup_phase_checkpoints "phase1_pubmed" confirm response t = (true, t') ->
  load_phase1_checkpoint
    (phase1_store (save_phase1 now cursor payload failed total t'))
  = Ok (Some {| batch_index := cursor;
                pubmed_data := payload;
                failed_batches := failed;
                total_count := total;
                timestamp := now |}).
Proof.
  intros H. unfold save_phase1. rewrite phase1_store_with.
  assert (E : phase1_store t' = None).
  { destruct H as [H | H].
    - unfold cleanup_all_checkpoints in H. destruct t as [m |].
      + destruct (confirm && negb (String.eqb (lower response) "yes"));
          inversion H. reflexivity.
      + inversion H. reflexivity.
    - pose proof (cleanup_phase_gone "phase1_pubmed" confirm response t) as Hgone.
      rewrite H in Hgone. now apply Hgone. }
  rewrite E.
  apply (load_after_save
           {| call_time := now; call_cursor := cursor; call_payload := payload;
              call_failed := failed; call_total := total |} None).
  intros n f [].
Qed.

Lemma save_after_cleanup_is_loaded_witness :
  load_phase1_checkpoint
    (phase1_store
       (save_phase1 "2024-01-02T10:00:00" 50 payload_b [] 200
          (snd (cleanup_phase_checkpoints "phase1_pubmed" false "" tree_example))))
  = Ok (Some {| batch_index := 50; pubmed_data := payload_b; failed_batches := [];
                total_count := 200; timestamp := "2024-01-02T10:00:00" |}).
Proof.
  apply (save_after_cleanup_is_loaded false "" tree_example).
  right. reflexivity.
Defined.

Lemma lower_char_y (c : ascii) :
  lower_char c = "y"%char <-> c = "y"%char \/ c = "Y"%char.
Proof.
  split.
  - destruct c as [[] [] [] [] [] [] [] []]; vm_compute; intros H;
      first [discriminate H | now left | now right].
  - intros [-> | ->]; reflexivity.
Qed.

Lemma lower_char_e (c : ascii) :
  lower_char c = "e"%char <-> c = "e"%char \/ c = "E"%char.
Proof.
  split.
  - destruct c as [[] [] [] [] [] [] [] []]; vm_compute; intros H;
      first [discriminate H | now left | now right].
  - intros [-> | ->]; reflexivity.
Qed.

Lemma lower_char_s (c : ascii) :
  lower_char c = "s"%char <-> c = "s"%char \/ c = "S"%char.
Proof.
  split.
  - destruct c as [[] [] [] [] [] [] [] []]; vm_compute; intros H;
      first [discriminate H | now left | now right].
  - intros [-> | ->]; reflexivity.
Qed.

(** X10: with confirmation asked, [cleanup_all_checkpoints] deletes an
    existing base directory exactly when the answer is [yes] in any
    mix of upper and lower case; every other answer, such as [y] or
    [yes] with a space around it, cancels and leaves the directory as
    it was. *)
Theorem cleanup_confirmation (response : string) (m : subdirs) :
  (cleanup_all_checkpoints true response (Some m) = (true, None)
   \/ cleanup_all_checkpoints true response (Some m) = (false, Some m))
  /\ (cleanup_all_checkpoints true response (Some m) = (true, None) <->
      In response ["yes"; "yeS"; "yEs"; "yES"; "Yes"; "YeS"; "YEs"; "YES"]).
Proof.
  unfold cleanup_all_checkpoints. simpl andb.
  assert (H : String.eqb (lower response) "yes" = true <->
              In response ["yes"; "yeS"; "yEs"; "yES"; "Yes"; "YeS"; "YEs"; "YES"]).
  { rewrite String.eqb_eq. split.
    - destruct response as [| a [| b [| c [| x r]]]]; simpl lower; intros H;
        try discriminate H.
      inversion H as [[Ha Hb Hc]].
      apply lower_char_y in Ha. apply lower_char_e in Hb. apply lower_char_s in Hc.
      destruct Ha as [-> | ->], Hb as [-> | ->], Hc as [-> | ->]; simpl; tauto.
    - simpl. intros H. repeat (destruct H as [<- | H]; [reflexivity |]). destruct H. }
  destruct (String.eqb (lower response) "yes"); simpl.
  - split; [now left |]. split; [intros _; now apply H | reflexivity].
  - split; [now right |]. split; [discriminate |].
    intros Hin. apply H in Hin. discriminate Hin.
Qed.

End CleanupExtras.

(* ------------------------------------------------------------------ *)
(** ** Properties of the checkpoints of the later phases *)

Module PhasesExtras.

Import Py Phases Spec Props PyProofs CheckpointProofs.
Local Open Scope list_scope.

Lemma stem_shape (p : phase) : exists rest, stem p = String "p" rest.
Proof. destruct p; eexists; reflexivity. Qed.

Lemma stem_without_pkl (p : phase) : replace_from (stem p) "" ".pkl" 0 = ".pkl".
Proof. destruct p; reflexivity. Qed.

Lemma phase_cursor_of_pkl_name (p : phase) (z : Z) :
  cursor_of_name p (pkl_name p z) = Some z.
Proof.
  unfold cursor_of_name, pkl_name, replace.
  destruct (stem_shape p) as [rest Hstem].
  assert (Hne : stem p <> "") by (rewrite Hstem; discriminate).
  destruct (stem p) as [| a old'] eqn:E; [now destruct Hne |].
  inversion Hstem. subst a old'.
  rewrite replace_from_prefix.
  rewrite (replace_from_no_first _ "p" rest (format_05d z) ".pkl"
             eq_refl numeric_not_p (numeric_format_05d z)).
  rewrite <- E, stem_without_pkl.
  rewrite (replace_from_no_first _ "." "pkl" (format_05d z) ".pkl"
             eq_refl numeric_not_dot (numeric_format_05d z)).
  change (replace_from ".pkl" "" ".pkl" 0) with ""%string.
  rewrite append_nil_r.
  apply int_of_str_format_05d.
Qed.

Lemma phase_is_checkpoint_file_pkl (p : phase) (z : Z) :
  is_checkpoint_file p (pkl_name p z) = true.
Proof.
  unfold is_checkpoint_file, pkl_name, startswith.
  rewrite prefix_append.
  rewrite <- append_assoc, endswith_append by reflexivity.
  reflexivity.
Qed.

Lemma phase_is_checkpoint_file_csv (p : phase) (z : Z) :
  is_checkpoint_file p (csv_name p z) = false.
Proof.
  unfold is_checkpoint_file, csv_name.
  rewrite <- append_assoc, endswith_append by reflexivity.
  apply andb_false_r.
Qed.

Lemma phase_csv_name_not_pkl (p : phase) (a b : Z) : csv_name p a <> pkl_name p b.
Proof.
  intros H. apply (f_equal (is_checkpoint_file p)) in H.
  rewrite phase_is_checkpoint_file_csv, phase_is_checkpoint_file_pkl in H. discriminate.
Qed.

(** X11: for each of phases 2, 3, 4, 6 and 7, the name of a snapshot
    file encodes its cursor without loss and passes the filter of the
    phase's load function, the name of its CSV mirror does not, and a
    snapshot of one phase is never taken for a checkpoint file of
    another phase. *)
Theorem phase_file_names (p q : phase) (idx idx' : Z) :
  cursor_of_name p (pkl_name p idx) = Some idx
  /\ is_checkpoint_file p (pkl_name p idx) = true
  /\ is_checkpoint_file p (csv_name p idx) = false
  /\ (pkl_name p idx = pkl_name p idx' -> idx = idx')
  /\ (p <> q -> is_checkpoint_file q (pkl_name p idx) = false).
Proof.
  split; [apply phase_cursor_of_pkl_name |].
  split; [apply phase_is_checkpoint_file_pkl |].
  split; [apply phase_is_checkpoint_file_csv |].
  split.
  - intros H. apply (f_equal (cursor_of_name p)) in H.
    rewrite !phase_cursor_of_pkl_name in H. congruence.
  - intros Hpq. unfold is_checkpoint_file, pkl_name, startswith.
    destruct p, q; try (now destruct Hpq); reflexivity.
Qed.

(** *** Reading and writing files *)

Lemma phase_read_write_same (n : string) (f : file) (d : directory) :
  read_file n (write_file n f d) = Some f.
Proof.
  induction d as [| [k g] d IH]; simpl.
  - now rewrite String.eqb_refl.
  - destruct (String.eqb k n) eqn:E; simpl.
    + now rewrite String.eqb_refl.
    + now rewrite E.
Qed.

Lemma phase_read_write_other (n m : string) (f : file) (d : directory) :
  n <> m -> read_file n (write_file m f d) = read_file n d.
Proof.
  intros Hne.
  induction d as [| [k g] d IH]; simpl.
  - apply String.eqb_neq in Hne. rewrite String.eqb_sym in Hne. now rewrite Hne.
  - destruct (String.eqb k m) eqn:E; simpl.
    + apply String.eqb_eq in E. subst k.
      assert (Hmn : String.eqb m n = false)
        by (apply String.eqb_neq; intros ->; now apply Hne).
      now rewrite Hmn.
    + destruct (String.eqb k n); [reflexivity | exact IH].
Qed.

Lemma phase_in_write_file (n m : string) (f g : file) (d : directory) :
  In (n, g) (write_file m f d) -> (n = m /\ g = f) \/ In (n, g) d.
Proof.
  induction d as [| [k h] d IH]; simpl.
  - intros [H | []]. inversion H. now left.
  - destruct (String.eqb k m) eqn:E; simpl.
    + intros [H | H]; [inversion H; now left | right; now right].
    + intros [H | H]; [right; now left |].
      destruct (IH H) as [? | ?]; [now left | right; now right].
Qed.

Lemma phase_read_file_in (n : string) (f : file) (d : directory) :
  read_file n d = Some f -> In (n, f) d.
Proof.
  induction d as [| [k h] d IH]; simpl; intros H; [discriminate |].
  destruct (String.eqb k n) eqn:E.
  - apply String.eqb_eq in E. inversion H. subst. now left.
  - right. now apply IH.
Qed.

(** *** The choice of [max] *)

Lemma phase_max_by_cursor_spec (p : phase) (l : list string) :
  forall (best : string) (best_key : Z),
  cursor_of_name p best = Some best_key ->
  (forall x, In x l -> exists k, cursor_of_name p x = Some k) ->
  exists r kr,
    max_by_cursor p best best_key l = Ok r
    /\ In r (best :: l)
    /\ cursor_of_name p r = Some kr
    /\ (forall x k, In x (best :: l) -> cursor_of_name p x = Some k -> k <= kr).
Proof.
  induction l as [| x l IH]; intros best bk Hbest Hall.
  - exists best, bk. simpl. repeat split; auto.
    intros x k [<- | []] Hk. rewrite Hbest in Hk. inversion Hk. lia.
  - destruct (Hall x (or_introl eq_refl)) as [k Hk].
    simpl. rewrite Hk.
    destruct (bk <? k) eqn:E.
    + destruct (IH x k Hk (fun y Hy => Hall y (or_intror Hy)))
        as (r & kr & Hr & Hin & Hkr & Hmax).
      exists r, kr.
      split; [exact Hr |].
      split; [right; exact Hin |].
      split; [exact Hkr |].
      intros y ky Hy Hy'.
      destruct Hy as [Heq | Hy].
      * subst y. rewrite Hbest in Hy'. inversion Hy'. subst ky.
        apply Z.ltb_lt in E.
        specialize (Hmax x k (or_introl eq_refl) Hk). lia.
      * apply (Hmax y ky Hy Hy').
    + destruct (IH best bk Hbest (fun y Hy => Hall y (or_intror Hy)))
        as (r & kr & Hr & Hin & Hkr & Hmax).
      exists r, kr.
      split; [exact Hr |].
      split; [destruct Hin as [<- | Hin]; [now left | right; now right] |].
      split; [exact Hkr |].
      intros y ky Hy Hy'.
      destruct Hy as [Heq | [Heq | Hy]].
      * apply (Hmax y ky); [now left | exact Hy'].
      * subst y. rewrite Hk in Hy'. inversion Hy'. subst ky.
        apply Z.ltb_ge in E.
        specialize (Hmax best bk (or_introl eq_refl) Hbest). lia.
      * apply (Hmax y ky); [now right | exact Hy'].
Qed.

Lemma phase_in_checkpoint_files (p : phase) (d : directory) (n : string) :
  In n (filter (is_checkpoint_file p) (listdir d)) <->
  (exists f, In (n, f) d) /\ is_checkpoint_file p n = true.
Proof.
  rewrite filter_In. unfold listdir. rewrite in_map_iff.
  split.
  - intros [([m f] & <- & Hin) Hf]. simpl in *. split; [now exists f | exact Hf].
  - intros [[f Hin] Hf]. split; [now exists (n, f) | exact Hf].
Qed.

(** The file that [max] selects in a directory in which every checkpoint
    file but [n] carries a cursor strictly below that of [n]. *)
Lemma phase_latest_file (p : phase) (d : directory) (n : string) (c : Z) (g : file) :
  read_file n d = Some g ->
  is_checkpoint_file p n = true ->
  cursor_of_name p n = Some c ->
  (forall m h, In (m, h) d -> is_checkpoint_file p m = true -> m <> n ->
               exists k, cursor_of_name p m = Some k /\ k < c) ->
  exists x k l,
    filter (is_checkpoint_file p) (listdir d) = x :: l
    /\ cursor_of_name p x = Some k
    /\ max_by_cursor p x k l = Ok n.
Proof.
  intros Hread Hfile Hcur Hothers.
  assert (Hn : In n (filter (is_checkpoint_file p) (listdir d))).
  { apply phase_in_checkpoint_files. split; [| exact Hfile].
    exists g. now apply phase_read_file_in. }
  assert (Hparse : forall x, In x (filter (is_checkpoint_file p) (listdir d)) ->
                             exists k, cursor_of_name p x = Some k).
  { intros x Hx. apply phase_in_checkpoint_files in Hx. destruct Hx as [[h Hin] Hf].
    destruct (string_dec x n) as [-> | Hne]; [now exists c |].
    destruct (Hothers x h Hin Hf Hne) as (k & Hk & _). now exists k. }
  destruct (filter (is_checkpoint_file p) (listdir d)) as [| x l] eqn:Efiles;
    [destruct Hn |].
  destruct (Hparse x (or_introl eq_refl)) as [k Hk].
  destruct (phase_max_by_cursor_spec p l x k Hk (fun y Hy => Hparse y (or_intror Hy)))
    as (r & kr & Hr & Hrin & Hkr & Hmax).
  exists x, k, l.
  split; [reflexivity |]. split; [exact Hk |].
  assert (r = n) as <-; [| exact Hr].
  destruct (string_dec r n) as [-> | Hne]; [reflexivity |].
  exfalso.
  assert (Hr' : In r (filter (is_checkpoint_file p) (listdir d))) by now rewrite Efiles.
  apply phase_in_checkpoint_files in Hr'. destruct Hr' as [[h Hin] Hf].
  destruct (Hothers r h Hin Hf Hne) as (k' & Hk' & Hlt).
  rewrite Hkr in Hk'. inversion Hk'. subst k'.
  specialize (Hmax n c Hn Hcur). lia.
Qed.

(** X12: each load function of phases 2, 3, 4, 6 and 7 opens the one
    checkpoint file whose cursor is strictly greatest, whatever the
    order of the listing: it returns the snapshot pickled in that file,
    and raises the unpickling error, without trying an older snapshot,
    when the file holds something else. *)
Theorem phase_load_latest (p : phase) (d : directory) (n : string) (c : Z) (g : file) :
  read_file n d = Some g ->
  is_checkpoint_file p n = true ->
  cursor_of_name p n = Some c ->
  (forall m h, In (m, h) d -> is_checkpoint_file p m = true -> m <> n ->
               exists k, cursor_of_name p m = Some k /\ k < c) ->
  load_checkpoint p (Some d)
  = match g with
    | Pickle ck => Ok (Some ck)
    | _ => Raise (UnpicklingError n)
    end.
Proof.
  intros Hread Hfile Hcur Hothers.
  destruct (phase_latest_file p d n c g Hread Hfile Hcur Hothers)
    as (x & k & l & Hfiles & Hk & Hmax).
  unfold load_checkpoint. rewrite Hfiles, Hk, Hmax, Hread.
  now destruct g.
Qed.

Lemma phase_load_latest_witness :
  load_phase3_checkpoint
    (Some [(pkl_name Phase3 50, Pickle (later_snapshot 50));
           (pkl_name Phase3 100, Pickle (later_snapshot 100));
           (pkl_name Phase2 500, Pickle (later_snapshot 500))])
  = Ok (Some (later_snapshot 100)).
Proof.
  apply (phase_load_latest Phase3 _ (pkl_name Phase3 100) 100
           (Pickle (later_snapshot 100))).
  - reflexivity.
  - reflexivity.
  - vm_compute. reflexivity.
  - intros m h Hin Hf Hne.
    simpl in Hin.
    destruct Hin as [H | [H | [H | []]]]; inversion H; subst.
    + exists 50. split; [vm_compute; reflexivity | lia].
    + now destruct Hne.
    + vm_compute in Hf. discriminate Hf.
Defined.

Lemma phase_save_read (p : phase) (now : string) (idx : Z)
  (items : list Checkpoint.record) (c : counter) (st : store) :
  let before := create_dirs st in
  let after := create_dirs (save_checkpoint p now idx items c st) in
  save_checkpoint p now idx items c st = Some after
  /\ read_file (pkl_name p idx) after
     = Some (Pickle {| last_idx := idx; collected := items; counted := c;
                       timestamp := now |})
  /\ read_file (csv_name p idx) after
     = (if writes_csv p
        then match items with
             | [] => read_file (csv_name p idx) before
             | _ :: _ => Some (Csv items)
             end
        else read_file (csv_name p idx) before)
  /\ (forall n, n <> pkl_name p idx -> n <> csv_name p idx ->
                read_file n after = read_file n before)
  /\ (forall n f, In (n, f) after ->
                  n = pkl_name p idx \/ n = csv_name p idx \/ In (n, f) before).
Proof.
  unfold save_checkpoint. cbv zeta.
  destruct (writes_csv p); [destruct items as [| r items] |]; simpl create_dirs.
  - split; [reflexivity |].
    split; [apply phase_read_write_same |].
    split; [apply phase_read_write_other, phase_csv_name_not_pkl |].
    split; [intros n H1 _; now apply phase_read_write_other |].
    intros n f Hin. apply phase_in_write_file in Hin. destruct Hin as [[-> _] | Hin]; auto.
  - split; [reflexivity |].
    split.
    { rewrite phase_read_write_other; [apply phase_read_write_same |].
      intros H. symmetry in H. now apply phase_csv_name_not_pkl in H. }
    split; [apply phase_read_write_same |].
    split; [intros n H1 H2; rewrite !phase_read_write_other; auto |].
    intros n f Hin. apply phase_in_write_file in Hin. destruct Hin as [[-> _] | Hin]; auto.
    apply phase_in_write_file in Hin. destruct Hin as [[-> _] | Hin]; auto.
  - split; [reflexivity |].
    split; [apply phase_read_write_same |].
    split; [apply phase_read_write_other, phase_csv_name_not_pkl |].
    split; [intros n H1 _; now apply phase_read_write_other |].
    intros n f Hin. apply phase_in_write_file in Hin. destruct Hin as [[-> _] | Hin]; auto.
Qed.

(** X13: a save function of phases 2, 3, 4, 6 and 7 writes the snapshot
    of its cursor, which then reads as the pickled arguments and
    timestamp. Phases 3, 4, 6 and 7 also write a CSV mirror when the
    collected list is not empty; phase 2 never writes one. Every other
    file of the directory reads as before. *)
Theorem phase_save_files (p : phase) (now : string) (idx : Z)
  (items : list Checkpoint.record) (c : counter) (st : store) :
  let before := create_dirs st in
  let after := create_dirs (save_checkpoint p now idx items c st) in
  save_checkpoint p now idx items c st = Some after
  /\ read_file (pkl_name p idx) after
     = Some (Pickle {| last_idx := idx; collected := items; counted := c;
                       timestamp := now |})
  /\ read_file (csv_name p idx) after
     = (if writes_csv p
        then match items with
             | [] => read_file (csv_name p idx) before
             | _ :: _ => Some (Csv items)
             end
        else read_file (csv_name p idx) before)
  /\ (forall n, n <> pkl_name p idx -> n <> csv_name p idx ->
                read_file n after = read_file n before).
Proof.
  destruct (phase_save_read p now idx items c st) as (H1 & H2 & H3 & H4 & _).
  cbv zeta. auto.
Qed.

(** X14: for each of phases 2, 3, 4, 6 and 7, a load that follows a save
    returns the snapshot just saved when every other checkpoint file of
    the directory carries a cursor strictly below the saved one. *)
Theorem phase_save_then_load (p : phase) (now : string) (idx : Z)
  (items : list Checkpoint.record) (c : counter) (st : store) :
  (forall n f, In (n, f) (create_dirs st) ->
               is_checkpoint_file p n = true -> n <> pkl_name p idx ->
               exists k, cursor_of_name p n = Some k /\ k < idx) ->
  load_checkpoint p (save_checkpoint p now idx items c st)
  = Ok (Some {| last_idx := idx; collected := items; counted := c; timestamp := now |}).
Proof.
  intros Hst.
  destruct (phase_save_read p now idx items c st) as (Hsome & Hread & _ & _ & Hin).
  cbv zeta in *. rewrite Hsome.
  destruct (phase_latest_file p _ (pkl_name p idx) idx _ Hread
              (phase_is_checkpoint_file_pkl p idx) (phase_cursor_of_pkl_name p idx))
    as (x & k & l & Hfiles & Hk & Hmax).
  - intros m h Hm Hf Hne.
    destruct (Hin m h Hm) as [-> | [-> | Hold]].
    + now destruct Hne.
    + rewrite phase_is_checkpoint_file_csv in Hf. discriminate Hf.
    + now apply (Hst m h).
  - unfold load_checkpoint. now rewrite Hfiles, Hk, Hmax, Hread.
Qed.

Lemma phase_save_then_load_witness :
  load_phase3_checkpoint
    (save_phase3_checkpoint "2024-01-02T10:00:00" 100 payload_b 200
       (save_phase3_checkpoint "2024-01-01T00:00:00" 50 payload_a 200 None))
  = Ok (Some {| last_idx := 100; collected := payload_b; counted := Total 200;
                timestamp := "2024-01-02T10:00:00" |}).
Proof.
  apply (phase_save_then_load Phase3 "2024-01-02T10:00:00" 100 payload_b (Total 200)).
  intros n f Hin Hf Hne.
  simpl in Hin.
  destruct Hin as [H | [H | []]]; inversion H; subst.
  - exists 50. split; [vm_compute; reflexivity | lia].
  - vm_compute in Hf. discriminate Hf.
Defined.

End PhasesExtras.

(* ------------------------------------------------------------------ *)
(** ** Further properties of the validation engine *)

Module ValidationExtras.

Import Py Pandas Validation Spec Props PyProofs ValidationProofs.
Local Open Scope list_scope.

(** *** What the checks do to the logs *)

Lemma uniform_ret {A : Type} (a : A) : uniform (ret a).
Proof. exists (Ok a), [], []. intros st. now rewrite app_logs_nil. Qed.

Lemma uniform_lift {A : Type} (r : result A) : uniform (lift r).
Proof. exists r, [], []. intros st. now rewrite app_logs_nil. Qed.

Lemma uniform_warn (msg : message) : uniform (warn msg).
Proof.
  exists (Ok tt), [msg], []. intros st. unfold warn, app_logs. now rewrite app_nil_r.
Qed.

Lemma uniform_error (msg : message) : uniform (error msg).
Proof.
  exists (Ok tt), [], [msg]. intros st. unfold error, app_logs. now rewrite app_nil_r.
Qed.

Lemma uniform_bind {A B : Type} (m : M A) (k : A -> M B) :
  uniform m -> (forall a, uniform (k a)) -> uniform (bind m k).
Proof.
  intros (r & ws1 & es1 & H1) Hk.
  destruct r as [a | e].
  - destruct (Hk a) as (r2 & ws2 & es2 & H2).
    exists r2, (ws1 ++ ws2), (es1 ++ es2). intros st.
    unfold bind. rewrite H1, H2. now rewrite app_logs_app.
  - exists (Raise e), ws1, es1. intros st. unfold bind. now rewrite H1.
Qed.

Lemma uniform_appends {A : Type} (m : M A) : uniform m -> appends m.
Proof. intros (r & ws & es & H) st. exists r, ws, es. apply H. Qed.

Lemma appends_bind {A B : Type} (m : M A) (k : A -> M B) :
  appends m -> (forall a, appends (k a)) -> appends (bind m k).
Proof.
  intros Hm Hk st.
  destruct (Hm st) as (r & ws1 & es1 & H1).
  destruct r as [a | e].
  - destruct (Hk a (app_logs st ws1 es1)) as (r2 & ws2 & es2 & H2).
    exists r2, (ws1 ++ ws2), (es1 ++ es2).
    unfold bind. rewrite H1, H2. now rewrite app_logs_app.
  - exists (Raise e), ws1, es1. unfold bind. now rewrite H1.
Qed.

Lemma total_check_column_values (df : DataFrame) (column : string)
  (valid_pattern : Re.pattern) (phase_name description : string) :
  total (check_column_values df column valid_pattern phase_name description).
Proof. unfold check_column_values. prove_total. Qed.

Lemma total_lift_ok {A : Type} (a : A) : total (lift (Ok a)).
Proof. apply total_ret. Qed.

Ltac prove_total_validator :=
  repeat first
    [ apply total_check_no_duplicates | apply total_check_row_count_match
    | apply total_check_column_values
    | apply total_ret | apply total_warn | apply total_error | apply total_errors_count
    | apply total_lift_ok
    | apply total_bind; [| intros ?]
    | match goal with
      | |- total (if ?c then _ else _) => destruct c
      | |- total (match ?x with _ => _ end) => destruct x
      | |- total (let _ := _ in _) => cbv zeta
      end ].

Lemma total_appends {A : Type} (m : M A) : total m -> appends m.
Proof.
  intros H st. destruct (H st) as (a & ws & es & E). now exists (Ok a), ws, es.
Qed.

Ltac prove_uniform :=
  repeat first
    [ apply uniform_ret | apply uniform_warn | apply uniform_error | apply uniform_lift
    | apply uniform_bind; [| intros ?]
    | match goal with
      | |- uniform (if ?c then _ else _) => destruct c
      | |- uniform (match ?x with _ => _ end) => destruct x
      | |- uniform (let _ := _ in _) => cbv zeta
      end ].

Lemma uniform_expected_max_loop (df : DataFrame) (phase_name : string)
  (items : list (string * Z)) :
  forall expected_max, uniform (expected_max_loop df phase_name items expected_max).
Proof.
  induction items as [| [col e] items IH]; intros acc; simpl.
  - apply uniform_ret.
  - destruct (has_column df col); [| apply IH].
    destruct (int_gt_float _ _); [| apply IH].
    apply uniform_bind; [apply uniform_lift | intros ratio].
    apply uniform_bind; [apply uniform_warn | intros _]. apply IH.
Qed.

Lemma uniform_check_no_duplicates (df : DataFrame) (columns : list string)
  (phase_name description : string) :
  uniform (check_no_duplicates df columns phase_name description).
Proof. unfold check_no_duplicates. prove_uniform. Qed.

Lemma uniform_check_row_count_match (df : DataFrame) (expected_count : Z)
  (phase_name : string) (tolerance : float) (explanation : string) :
  uniform (check_row_count_match df expected_count phase_name tolerance explanation).
Proof. unfold check_row_count_match. prove_uniform. Qed.

Lemma uniform_check_cartesian_product (df : DataFrame)
  (expected_unique_counts : list (string * Z)) (phase_name : string) :
  uniform (check_cartesian_product df expected_unique_counts phase_name).
Proof.
  unfold check_cartesian_product. cbv zeta.
  apply uniform_bind; [apply uniform_expected_max_loop | intros expected_max].
  prove_uniform.
Qed.

Lemma uniform_check_column_values (df : DataFrame) (column : string)
  (valid_pattern : Re.pattern) (phase_name description : string) :
  uniform (check_column_values df column valid_pattern phase_name description).
Proof. unfold check_column_values. prove_uniform. Qed.

Ltac prove_uniform_validator :=
  repeat first
    [ apply uniform_check_no_duplicates | apply uniform_check_row_count_match
    | apply uniform_check_column_values
    | apply uniform_ret | apply uniform_warn | apply uniform_error | apply uniform_lift
    | apply uniform_bind; [| intros ?]
    | match goal with
      | |- uniform (if ?c then _ else _) => destruct c
      | |- uniform (match ?x with _ => _ end) => destruct x
      | |- uniform (let _ := _ in _) => cbv zeta
      end ].

(** X15: the four checks and the validators of phases 1, 2, 4, 5, 6, 7
    and 7B return the same outcome and append the same entries whatever
    [WARNINGS] and [ERRORS] hold when they are called, and never remove
    or change an entry, also when they raise. [validate_phase3] only
    appends as well, but its result reads [ERRORS]. [run_all_validations]
    is the one function that empties the logs: it behaves as if called
    on empty logs. *)
Theorem outcome_independent_of_logs :
  (forall df columns phase_name description,
     uniform (check_no_duplicates df columns phase_name description))
  /\ (forall df expected_count phase_name tolerance explanation,
        uniform (check_row_count_match df expected_count phase_name tolerance explanation))
  /\ (forall df expected_unique_counts phase_name,
        uniform (check_cartesian_product df expected_unique_counts phase_name))
  /\ (forall df column valid_pattern phase_name description,
        uniform (check_column_values df column valid_pattern phase_name description))
  /\ (forall phase1_df, uniform (validate_phase1 phase1_df))
  /\ (forall phase2_df phase1_df, uniform (validate_phase2 phase2_df phase1_df))
  /\ (forall phase4_df phase3_df, uniform (validate_phase4 phase4_df phase3_df))
  /\ (forall phase5_df phase1_df, uniform (validate_phase5 phase5_df phase1_df))
  /\ (forall phase6_df phase3_df, uniform (validate_phase6 phase6_df phase3_df))
  /\ (forall phase7_dedup_df phase7_with_dups_df phase4_df,
        uniform (validate_phase7 phase7_dedup_df phase7_with_dups_df phase4_df))
  /\ (forall phase7b_dedup_df phase7b_citations_df phase3_df phase7_dedup_df,
        uniform (validate_phase7b phase7b_dedup_df phase7b_citations_df phase3_df
                   phase7_dedup_df))
  /\ (forall phase3_df phase2_df, appends (validate_phase3 phase3_df phase2_df))
  /\ (forall fs st, run_all_validations fs st = run_all_validations fs no_logs).
Proof.
  split; [intros; apply uniform_check_no_duplicates |].
  split; [intros; apply uniform_check_row_count_match |].
  split; [intros; apply uniform_check_cartesian_product |].
  split; [intros; apply uniform_check_column_values |].
  split; [intros; unfold validate_phase1; prove_uniform_validator |].
  split; [intros; unfold validate_phase2; prove_uniform_validator |].
  split; [intros; unfold validate_phase4; prove_uniform_validator |].
  split; [intros; unfold validate_phase5; prove_uniform_validator |].
  split; [intros; unfold validate_phase6; prove_uniform_validator |].
  split; [intros; unfold validate_phase7; prove_uniform_validator |].
  split; [intros; unfold validate_phase7b; prove_uniform_validator |].
  split; [| reflexivity].
  intros phase3_df phase2_df. unfold validate_phase3.
  apply appends_bind; [apply uniform_appends, uniform_lift | intros ref_pmid2].
  apply total_appends. prove_total_validator.
Qed.

Lemma bind_ok {A B : Type} (m : M A) (k : A -> M B) (st st' : logs) (a : A) :
  m st = (Ok a, st') -> bind m k st = k a st'.
Proof. intros H. unfold bind. now rewrite H. Qed.

Lemma bind_raise {A B : Type} (m : M A) (k : A -> M B) (st st' : logs) (e : exn) :
  m st = (Raise e, st') -> bind m k st = (Raise e, st').
Proof. intros H. unfold bind. now rewrite H. Qed.

(** *** [check_no_duplicates] and the order of the rows *)

Lemma filter_length_perm {A : Type} (f : A -> bool) (l l' : list A) :
  Permutation l l' -> List.length (filter f l) = List.length (filter f l').
Proof.
  induction 1 as [| x l l' _ IH | x y l | l l' l'' _ IH1 _ IH2]; simpl.
  - reflexivity.
  - destruct (f x); simpl; now rewrite IH.
  - destruct (f x), (f y); reflexivity.
  - now rewrite IH1.
Qed.

Lemma duplicated_all_perm (keys keys' : list (list cell)) :
  Permutation keys keys' ->
  count_true (duplicated_all keys) = count_true (duplicated_all keys').
Proof.
  intros H. unfold duplicated_all. rewrite !count_true_map. f_equal.
  rewrite (filter_ext _ (fun k => (2 <=? occurrences k keys')%nat)).
  - now apply filter_length_perm.
  - intros k. unfold occurrences. now rewrite (filter_length_perm _ _ _ H).
Qed.

(** X16: the verdict of [check_no_duplicates] and the number of
    duplicate rows that it counts do not depend on the order of the rows
    of the table. *)
Theorem check_no_duplicates_row_order (df df' : DataFrame) (columns : list string)
  (phase_name description : string) (st : logs) :
  Pandas.columns df' = Pandas.columns df ->
  Permutation (rows df) (rows df') ->
  count_true (duplicated_all (key_tuples df columns))
  = count_true (duplicated_all (key_tuples df' columns))
  /\ exists passed msg msg' st1 st2,
       check_no_duplicates df columns phase_name description st = (Ok (passed, msg), st1)
       /\ check_no_duplicates df' columns phase_name description st
          = (Ok (passed, msg'), st2).
Proof.
  intros Hcols Hperm.
  assert (Hkeys : Permutation (key_tuples df columns) (key_tuples df' columns)).
  { unfold key_tuples. rewrite Hcols. now apply Permutation_map. }
  assert (Hcount := duplicated_all_perm _ _ Hkeys).
  split; [exact Hcount |].
  assert (Hlen : len df' = len df).
  { unfold len. now rewrite (Permutation_length Hperm). }
  assert (Hmiss : filter (fun col => negb (has_column df' col)) columns
                  = filter (fun col => negb (has_column df col)) columns).
  { apply filter_ext. intros c. unfold has_column. now rewrite Hcols. }
  unfold check_no_duplicates. rewrite Hlen, Hmiss, <- Hcount.
  destruct (len df =? 0).
  - unfold ret. now eexists _, _, _, _, _.
  - destruct (filter (fun col => negb (has_column df col)) columns).
    + cbv zeta. destruct (_ >? 0).
      * unfold bind, error, ret. now eexists _, _, _, _, _.
      * unfold ret. now eexists _, _, _, _, _.
    + unfold bind, warn, ret. now eexists _, _, _, _, _.
Qed.

Lemma check_no_duplicates_row_order_witness :
  count_true (duplicated_all (key_tuples phase1_triple ["PMID"]))
  = count_true (duplicated_all (key_tuples phase1_triple_reversed ["PMID"]))
  /\ exists passed msg msg' st1 st2,
       check_no_duplicates phase1_triple ["PMID"] "Phase 1" "" no_logs
       = (Ok (passed, msg), st1)
       /\ check_no_duplicates phase1_triple_reversed ["PMID"] "Phase 1" "" no_logs
          = (Ok (passed, msg'), st2).
Proof.
  apply (check_no_duplicates_row_order phase1_triple phase1_triple_reversed).
  - reflexivity.
  - apply Permutation_rev.
Defined.

(** *** [check_column_values] with the identifier pattern *)



(** *** [check_cartesian_product] with an expected count of zero *)

Lemma expected_max_loop_cases (df : DataFrame) (phase_name : string)
  (items : list (string * Z)) :
  forall (expected_max : Z) (st : logs),
  exists ws,
    expected_max_loop df phase_name items expected_max st
    = (Raise ZeroDivisionError, app_logs st ws [])
    \/ expected_max_loop df phase_name items expected_max st
       = (Ok (expected_max * present_bound df items), app_logs st ws []).
Proof.
  induction items as [| [col e] items IH]; intros acc st.
  - exists []. right. simpl. unfold ret, present_bound. simpl.
    now rewrite Z.mul_1_r, app_logs_nil.
  - simpl. unfold present_bound. simpl.
    destruct (has_column df col) eqn:Hcol; simpl.
    + destruct (int_gt_float _ _).
      * unfold truediv. destruct (e =? 0) eqn:He.
        -- exists []. left. unfold bind, lift. now rewrite app_logs_nil.
        -- rewrite (bind_ok (lift (Ok _)) _ st st _ eq_refl).
           rewrite (bind_ok (warn _) _ st (app_logs st [_] []) tt)
             by (unfold warn, app_logs; now rewrite app_nil_r).
           destruct (IH (acc * e) (app_logs st
                       [SuspiciousUniqueCount phase_name col (nunique (Pandas.column df col)) e
                          (float_of_int (nunique (Pandas.column df col)) / float_of_int e)%float]
                       [])) as [ws [Hws | Hws]].
           ++ eexists. left. rewrite Hws, app_logs_app. reflexivity.
           ++ eexists. right. rewrite Hws, app_logs_app, Z.mul_assoc. reflexivity.
      * destruct (IH (acc * e) st) as [ws [Hws | Hws]].
        -- exists ws. now left.
        -- exists ws. right. now rewrite Hws, Z.mul_assoc.
    + apply IH.
Qed.

Lemma product_zero (l : list Z) : In 0 l -> product l = 0.
Proof.
  induction l as [| x l IH]; intros H; [destruct H |].
  simpl. destruct H as [-> | H]; [reflexivity |].
  rewrite (IH H). lia.
Qed.

(** X18: when [expected_unique_counts] gives the count 0 for a column of
    the table and the table has a row, [check_cartesian_product] does not
    return a verdict: it raises [ZeroDivisionError], building the ratio
    of one of its messages, and leaves [ERRORS] as it was. *)
Theorem check_cartesian_product_zero_expected (df : DataFrame)
  (expected_unique_counts : list (string * Z)) (col phase_name : string) (st : logs) :
  In (col, 0) expected_unique_counts ->
  has_column df col = true ->
  int_gt_float (len df) 0 = true ->
  exists ws,
    check_cartesian_product df expected_unique_counts phase_name st
    = (Raise ZeroDivisionError, app_logs st ws []).
Proof.
  intros Hin Hcol Hrows.
  assert (Hbound : present_bound df expected_unique_counts = 0).
  { unfold present_bound. apply product_zero.
    apply in_map_iff. exists (col, 0). split; [reflexivity |].
    apply filter_In. now split. }
  unfold check_cartesian_product. cbv zeta.
  destruct (expected_max_loop_cases df phase_name expected_unique_counts 1 st)
    as [ws [H | H]].
  - exists ws. now rewrite (bind_raise _ _ _ _ _ H).
  - exists ws. rewrite (bind_ok _ _ _ _ _ H).
    rewrite Hbound. cbn [Z.mul].
    replace (float_of_int 0 * 1.2)%float with 0%float by (vm_compute; reflexivity).
    rewrite Hrows. unfold truediv. cbn [Z.eqb]. reflexivity.
Qed.

Lemma check_cartesian_product_zero_expected_witness :
  exists ws,
    check_cartesian_product phase1_triple [("title", 7); ("PMID", 0)] "Phase 1" no_logs
    = (Raise ZeroDivisionError, app_logs no_logs ws []).
Proof.
  apply (check_cartesian_product_zero_expected phase1_triple _ "PMID").
  - simpl. tauto.
  - reflexivity.
  - vm_compute. reflexivity.
Defined.

(** *** Which validators raise *)

Lemma total_validate_phase3 (phase3_df phase2_df : DataFrame) :
  has_column phase2_df "ref_pmid" = true -> total (validate_phase3 phase3_df phase2_df).
Proof.
  intros H. unfold validate_phase3, getitem. rewrite H. prove_total_validator.
Qed.

Lemma total_validate_phase4 (phase4_df phase3_df : DataFrame) :
  total (validate_phase4 phase4_df phase3_df).
Proof. unfold validate_phase4. prove_total_validator. Qed.

Lemma total_validate_phase5 (phase5_df phase1_df : DataFrame) :
  total (validate_phase5 phase5_df phase1_df).
Proof. unfold validate_phase5. prove_total_validator. Qed.

Lemma total_validate_phase6 (phase6_df phase3_df : DataFrame) :
  total (validate_phase6 phase6_df phase3_df).
Proof. unfold validate_phase6. prove_total_validator. Qed.

Lemma total_validate_phase7b
  (phase7b_dedup_df phase7b_citations_df phase3_df phase7_dedup_df : DataFrame) :
  total (validate_phase7b phase7b_dedup_df phase7b_citations_df phase3_df phase7_dedup_df).
Proof. unfold validate_phase7b. prove_total_validator. Qed.

Lemma validate_phase3_key_error (phase3_df phase2_df : DataFrame) (st : logs) :
  has_column phase2_df "ref_pmid" = false ->
  validate_phase3 phase3_df phase2_df st = (Raise (KeyError "ref_pmid"), st).
Proof. intros H. unfold validate_phase3, getitem. now rewrite H. Qed.

Lemma total_validate_phase7 (phase7_dedup_df phase7_with_dups_df phase4_df : DataFrame) :
  has_column phase4_df "nct_number" = true ->
  total (validate_phase7 phase7_dedup_df phase7_with_dups_df phase4_df).
Proof. intros H. unfold validate_phase7, getitem. rewrite H. prove_total_validator. Qed.

Lemma validate_phase7_key_error (phase7_dedup_df phase7_with_dups_df phase4_df : DataFrame)
  (st : logs) :
  has_column phase4_df "nct_number" = false ->
  validate_phase7 phase7_dedup_df phase7_with_dups_df phase4_df st
  = (Raise (KeyError "nct_number"), st).
Proof. intros H. unfold validate_phase7, getitem. now rewrite H. Qed.

Lemma total_validate_phase2 (phase2_df phase1_df : DataFrame) :
  has_column phase1_df "PMID" && has_column phase2_df "guideline_pmid"
  && has_column phase2_df "ref_doi" && has_column phase2_df "ref_title" = true ->
  total (validate_phase2 phase2_df phase1_df).
Proof.
  intros H. apply andb_prop in H. destruct H as [H H4].
  apply andb_prop in H. destruct H as [H H3].
  apply andb_prop in H. destruct H as [H1 H2].
  unfold validate_phase2, getitem. rewrite H1, H2, H3, H4. prove_total_validator.
Qed.

Lemma validate_phase2_key_error (phase2_df phase1_df : DataFrame) (st : logs) :
  has_column phase1_df "PMID" && has_column phase2_df "guideline_pmid"
  && has_column phase2_df "ref_doi" && has_column phase2_df "ref_title" = false ->
  exists column ws,
    validate_phase2 phase2_df phase1_df st = (Raise (KeyError column), app_logs st ws [])
    /\ In column ["PMID"; "guideline_pmid"; "ref_doi"; "ref_title"].
Proof.
  intros H.
  destruct (has_column phase1_df "PMID") eqn:H1.
  - destruct (has_column phase2_df "guideline_pmid") eqn:H2.
    + destruct (has_column phase2_df "ref_doi") eqn:H3.
      * destruct (has_column phase2_df "ref_title") eqn:H4; [discriminate H |].
        unfold validate_phase2, getitem. rewrite H1, H2, H3, H4.
        cbv zeta. unfold lift, bind.
        exists "ref_title".
        destruct (_ <? _)%float.
        -- eexists. split; [| simpl; tauto].
           unfold warn, ret, app_logs. simpl. rewrite (app_nil_r (ERRORS st)).
           reflexivity.
        -- exists []. split; [| simpl; tauto].
           rewrite app_logs_nil. reflexivity.
      * unfold validate_phase2, getitem. rewrite H1, H2, H3.
        cbv zeta. unfold lift, bind.
        exists "ref_doi".
        destruct (_ <? _)%float.
        -- eexists. split; [| simpl; tauto].
           unfold warn, ret, app_logs. simpl. rewrite (app_nil_r (ERRORS st)).
           reflexivity.
        -- exists []. split; [| simpl; tauto].
           rewrite app_logs_nil. reflexivity.
    + exists "guideline_pmid", [].
      split; [| simpl; tauto].
      unfold validate_phase2, getitem. rewrite H1, H2. rewrite app_logs_nil. reflexivity.
  - exists "PMID", [].
    split; [| simpl; tauto].
    unfold validate_phase2, getitem. rewrite H1. rewrite app_logs_nil. reflexivity.
Qed.

Lemma total_validate_phase1 (phase1_df : DataFrame) :
  has_column phase1_df "PMID" = true -> total (validate_phase1 phase1_df).
Proof.
  intros H. unfold validate_phase1, getitem. cbn [filter]. rewrite H.
  prove_total_validator.
Qed.

Lemma validate_phase1_key_error (phase1_df : DataFrame) (st : logs) :
  has_column phase1_df "PMID" = false ->
  exists ws,
    validate_phase1 phase1_df st
    = (Raise (KeyError "PMID"), app_logs st ws [MissingCriticalColumns ["PMID"]]).
Proof.
  intros H. unfold validate_phase1, getitem. cbn [filter]. rewrite H. cbn [negb].
  unfold check_no_duplicates. cbn [filter]. rewrite H. cbn [negb].
  destruct (len phase1_df =? 0).
  - exists []. unfold bind, ret, error, lift, app_logs. simpl.
    now rewrite app_nil_r.
  - exists [MissingColumns "Phase 1" ["PMID"]].
    unfold bind, ret, error, warn, lift, app_logs. simpl. reflexivity.
Qed.

(** X19: which validators can raise. Those of phases 4, 5, 6 and 7B
    always return. [validate_phase3] returns when the phase-2 table has
    [ref_pmid] and raises [KeyError] at once otherwise;
    [validate_phase7] returns when the phase-4 table has [nct_number] and
    raises [KeyError] at once otherwise; [validate_phase2] returns when
    it finds [PMID], [guideline_pmid], [ref_doi] and [ref_title] and
    raises [KeyError] for the first one missing otherwise;
    [validate_phase1] returns when the table has [PMID], and otherwise
    appends the error about the missing critical column and then raises
    [KeyError] instead of returning [False]. *)
Theorem validators_raise_only_key_error :
  (forall phase4_df phase3_df, total (validate_phase4 phase4_df phase3_df))
  /\ (forall phase5_df phase1_df, total (validate_phase5 phase5_df phase1_df))
  /\ (forall phase6_df phase3_df, total (validate_phase6 phase6_df phase3_df))
  /\ (forall phase7b_dedup_df phase7b_citations_df phase3_df phase7_dedup_df,
        total (validate_phase7b phase7b_dedup_df phase7b_citations_df phase3_df
                 phase7_dedup_df))
  /\ (forall phase3_df phase2_df,
        if has_column phase2_df "ref_pmid"
        then total (validate_phase3 phase3_df phase2_df)
        else forall st,
               validate_phase3 phase3_df phase2_df st = (Raise (KeyError "ref_pmid"), st))
  /\ (forall phase7_dedup_df phase7_with_dups_df phase4_df,
        if has_column phase4_df "nct_number"
        then total (validate_phase7 phase7_dedup_df phase7_with_dups_df phase4_df)
        else forall st,
               validate_phase7 phase7_dedup_df phase7_with_dups_df phase4_df st
               = (Raise (KeyError "nct_number"), st))
  /\ (forall phase2_df phase1_df,
        if has_column phase1_df "PMID" && has_column phase2_df "guideline_pmid"
           && has_column phase2_df "ref_doi" && has_column phase2_df "ref_title"
        then total (validate_phase2 phase2_df phase1_df)
        else forall st, exists column ws,
               validate_phase2 phase2_df phase1_df st
               = (Raise (KeyError column), app_logs st ws [])
               /\ In column ["PMID"; "guideline_pmid"; "ref_doi"; "ref_title"])
  /\ (forall phase1_df,
        if has_column phase1_df "PMID"
        then total (validate_phase1 phase1_df)
        else forall st, exists ws,
               validate_phase1 phase1_df st
               = (Raise (KeyError "PMID"),
                  app_logs st ws [MissingCriticalColumns ["PMID"]])).
Proof.
  split; [exact total_validate_phase4 |].
  split; [exact total_validate_phase5 |].
  split; [exact total_validate_phase6 |].
  split; [exact total_validate_phase7b |].
  split.
  { intros p3 p2. destruct (has_column p2 "ref_pmid") eqn:H.
    - now apply total_validate_phase3.
    - intros st. now apply validate_phase3_key_error. }
  split.
  { intros a b p4. destruct (has_column p4 "nct_number") eqn:H.
    - now apply total_validate_phase7.
    - intros st. now apply validate_phase7_key_error. }
  split.
  { intros p2 p1.
    destruct (has_column p1 "PMID" && has_column p2 "guideline_pmid"
              && has_column p2 "ref_doi" && has_column p2 "ref_title") eqn:H.
    - now apply total_validate_phase2.
    - intros st. now apply validate_phase2_key_error. }
  intros p1. destruct (has_column p1 "PMID") eqn:H.
  - now apply total_validate_phase1.
  - intros st. now apply validate_phase1_key_error.
Qed.

(** *** [validate_phase3] and the errors of earlier phases *)

Lemma errors_stay (st : logs) (ws es : list message) :
  ERRORS st <> [] -> ERRORS (app_logs st ws es) <> [].
Proof.
  intros H E. unfold app_logs in E. simpl in E.
  apply app_eq_nil in E. now destruct E.
Qed.

(** X20: [validate_phase3] returns [False] whenever [ERRORS] is not
    empty when it is called, whatever its two tables hold: within
    [run_all_validations], an error of phase 1 or 2 fails phase 3 as
    well. *)
Theorem validate_phase3_fails_after_errors (phase3_df phase2_df : DataFrame) (st : logs) :
  has_column phase2_df "ref_pmid" = true ->
  ERRORS st <> [] ->
  exists ws es, validate_phase3 phase3_df phase2_df st = (Ok false, app_logs st ws es).
Proof.
  intros H2 Herr.
  assert (Hgoal : exists ws es,
            validate_phase3 phase3_df phase2_df st = (Ok false, app_logs st ws es) /\ True).
  { unfold validate_phase3.
    unfold getitem. rewrite H2.
    unfold lift at 1. unfold bind at 1.
    step_total. destruct a as [passed msg].
    destruct (filter (fun c => negb (has_column phase3_df c))
                ["guideline_pmid"; "ref_pmid"]%string) as [| c missing].
    - step_total.
      step_total. destruct a0 as [passed' msg'].
      do 5 step_total.
      rewrite !app_logs_app.
      eexists. eexists.
      split; [| exact I].
      apply closing_test_fails. now apply errors_stay.
    - unfold bind, error, ret. cbn [WARNINGS ERRORS app_logs].
      exists ws, (es ++ [MissingRequiredColumns (c :: missing)]).
      split; [| exact I].
      unfold app_logs. now rewrite app_assoc. }
  destruct Hgoal as (ws & es & H & _). now exists ws, es.
Qed.

Lemma validate_phase3_fails_after_errors_witness :
  fst (validate_phase3 (citations 20) (citations 20) no_logs) = Ok true
  /\ exists ws es,
       validate_phase3 (citations 20) (citations 20) logs_with_error
       = (Ok false, app_logs logs_with_error ws es).
Proof.
  split; [vm_compute; reflexivity |].
  apply (validate_phase3_fails_after_errors (citations 20) (citations 20) logs_with_error).
  - reflexivity.
  - discriminate.
Defined.

(** *** [validate_phase1] *)

Lemma count_true_zero {A : Type} (P : A -> bool) (l : list A) :
  (count_true (map P l) >? 0) = false <-> Forall (fun x => P x = false) l.
Proof.
  rewrite count_true_map. rewrite Forall_forall. split.
  - intros H x Hin. destruct (P x) eqn:E; [| reflexivity].
    assert (Hx : In x (filter P l)) by (apply filter_In; now split).
    destruct (filter P l); [destruct Hx | discriminate H].
  - intros H. destruct (filter P l) as [| x l'] eqn:E; [reflexivity |].
    assert (Hx : In x (filter P l)) by (rewrite E; now left).
    apply filter_In in Hx. destruct Hx as [Hin Px].
    rewrite (H x Hin) in Px. discriminate Px.
Qed.

Lemma NoDup_singletons {A : Type} (l : list A) :
  NoDup (map (fun v => [v]) l) <-> NoDup l.
Proof.
  split.
  - apply NoDup_map_inv.
  - induction 1 as [| x l Hx Hl IH]; simpl; constructor; [| exact IH].
    intros Hin. apply in_map_iff in Hin. destruct Hin as (y & E & Hy).
    inversion E. now subst.
Qed.

Lemma duplicated_all_none (keys : list (list cell)) :
  (count_true (duplicated_all keys) >? 0) = false <-> NoDup keys.
Proof.
  unfold duplicated_all. rewrite count_true_zero, no_shared_keys.
  rewrite Forall_forall. split.
  - intros H. destruct (filter _ keys) as [| k l] eqn:E; [reflexivity |].
    assert (Hk : In k (filter (fun k => (2 <=? occurrences k keys)%nat) keys))
      by (rewrite E; now left).
    apply filter_In in Hk. destruct Hk as [Hin Hk].
    rewrite (H k Hin) in Hk. discriminate Hk.
  - intros H k Hin. destruct (2 <=? occurrences k keys)%nat eqn:E; [| reflexivity].
    assert (Hk : In k (filter (fun k => (2 <=? occurrences k keys)%nat) keys))
      by (apply filter_In; now split).
    rewrite H in Hk. destruct Hk.
Qed.

Lemma key_tuples_single (df : DataFrame) (c : string) :
  key_tuples df [c] = map (fun v => [v]) (column df c).
Proof. unfold key_tuples, column. now rewrite map_map. Qed.

(** X21: on a table that has the column [PMID], [validate_phase1]
    returns [True] exactly when no two rows have the same [PMID] and no
    [PMID] is missing; it appends to [ERRORS] exactly when a [PMID] is
    repeated and to [WARNINGS] exactly when one is missing. *)
Theorem validate_phase1_verdict (df : DataFrame) (st : logs) :
  has_column df "PMID" = true ->
  let pmid := column df "PMID" in
  exists verdict ws es,
    validate_phase1 df st = (Ok verdict, app_logs st ws es)
    /\ (verdict = true <-> NoDup pmid /\ Forall (fun v => notna v = true) pmid)
    /\ (es = [] <-> NoDup pmid)
    /\ (ws = [] <-> Forall (fun v => notna v = true) pmid).
Proof.
  intros H. cbv zeta.
  assert (Hnull : (count_true (map (fun v => negb (notna v)) (column df "PMID")) >? 0) = false
                  <-> Forall (fun v => notna v = true) (column df "PMID")).
  { rewrite count_true_zero. rewrite !Forall_forall.
    split; intros Hall v Hin; specialize (Hall v Hin); now destruct (notna v). }
  assert (Hdup : (count_true (duplicated_all (key_tuples df ["PMID"])) >? 0) = false
                 <-> NoDup (column df "PMID")).
  { now rewrite duplicated_all_none, key_tuples_single, NoDup_singletons. }
  unfold validate_phase1, check_no_duplicates, getitem.
  cbn [filter]. rewrite H. cbn [negb]. cbv zeta.
  destruct (len df =? 0) eqn:Hlen.
  - assert (Hrows : column df "PMID" = []).
    { unfold len in Hlen. apply Z.eqb_eq in Hlen. unfold column.
      destruct (rows df); [reflexivity | discriminate Hlen]. }
    exists true, [], [].
    split.
    { unfold bind, ret, lift. rewrite Hrows. simpl. now rewrite app_logs_nil. }
    rewrite Hrows.
    repeat split; auto; constructor.
  - destruct (count_true (duplicated_all (key_tuples df ["PMID"])) >? 0) eqn:Ed;
      destruct (count_true (map (fun v => negb (notna v)) (column df "PMID")) >? 0) eqn:En.
    + eexists false, [_], [_].
      split.
      { unfold bind, ret, lift, error, warn, app_logs. rewrite En. simpl. reflexivity. }
      split; [| split]; split; try discriminate; intros Hx.
      * destruct Hx as [Hx _]. apply Hdup in Hx. discriminate Hx.
      * apply Hdup in Hx. discriminate Hx.
      * apply Hnull in Hx. discriminate Hx.
    + eexists false, [], [_].
      split.
      { unfold bind, ret, lift, error, warn, app_logs. rewrite En. simpl.
        now rewrite app_nil_r. }
      split; [| split]; split; try discriminate; try reflexivity; intros Hx.
      * destruct Hx as [Hx _]. apply Hdup in Hx. discriminate Hx.
      * apply Hdup in Hx. discriminate Hx.
      * now apply Hnull.
    + eexists false, [_], [].
      split.
      { unfold bind, ret, lift, error, warn, app_logs. rewrite En. simpl.
        now rewrite app_nil_r. }
      split; [| split]; split; try discriminate; try reflexivity; intros Hx.
      * destruct Hx as [_ Hx]. apply Hnull in Hx. discriminate Hx.
      * now apply Hdup.
      * apply Hnull in Hx. discriminate Hx.
    + exists true, [], [].
      split.
      { unfold bind, ret, lift. rewrite En. simpl. now rewrite app_logs_nil. }
      split; [| split]; split; try reflexivity; intros _.
      * split; [now apply Hdup | now apply Hnull].
      * now apply Hdup.
      * now apply Hnull.
Qed.

Lemma validate_phase1_verdict_witness :
  exists verdict ws es,
    validate_phase1 phase1_triple no_logs = (Ok verdict, app_logs no_logs ws es)
    /\ (verdict = true <->
        NoDup (column phase1_triple "PMID")
        /\ Forall (fun v => notna v = true) (column phase1_triple "PMID"))
    /\ (es = [] <-> NoDup (column phase1_triple "PMID"))
    /\ (ws = [] <-> Forall (fun v => notna v = true) (column phase1_triple "PMID")).
Proof.
  apply (validate_phase1_verdict phase1_triple no_logs).
  reflexivity.
Defined.

(** *** [validate_phase3]: a trial repeated under one cited item *)

Lemma duplicated_first_seen (keys seen : list (list cell)) (k : list cell) :
  In k seen -> In k keys -> In true (duplicated_first seen keys).
Proof.
  revert seen. induction keys as [| x keys IH]; intros seen Hseen Hin; [destruct Hin |].
  simpl. destruct Hin as [-> | Hin].
  - left. apply existsb_exists. exists k. split; [exact Hseen | apply key_eqb_refl].
  - right. apply IH; [now right | exact Hin].
Qed.

Lemma duplicated_first_repeat (a b c seen : list (list cell)) (k : list cell) :
  In true (duplicated_first seen (a ++ k :: b ++ k :: c)).
Proof.
  revert seen. induction a as [| x a IH]; intros seen; simpl.
  - right. apply (duplicated_first_seen _ _ k); [now left |].
    apply in_or_app. right. now left.
  - right. apply IH.
Qed.

Lemma count_true_in (mask : list bool) : In true mask -> (count_true mask >? 0) = true.
Proof.
  intros H. unfold count_true.
  assert (Hin : In true (filter (fun b => b) mask)) by (apply filter_In; now split).
  destruct (filter (fun b => b) mask); [destruct Hin | reflexivity].
Qed.

Lemma all_with_false (l l' : list bool) : all ((l ++ [false]) ++ l') = false.
Proof.
  unfold all. rewrite !forallb_app. simpl. now rewrite andb_false_r.
Qed.

Lemma exploded_repeated (df : DataFrame) (r1 r2 : list cell)
  (before between after : list (list cell)) (id : string) :
  rows df = before ++ r1 :: between ++ r2 :: after ->
  row_get (columns df) r1 "ref_pmid" = row_get (columns df) r2 "ref_pmid" ->
  row_get (columns df) r1 "ref_pmid" <> NA ->
  In id (_parse_ncts_from_row (columns df) r1) ->
  In id (_parse_ncts_from_row (columns df) r2) ->
  exists a b c,
    exploded df
    = a ++ [row_get (columns df) r1 "ref_pmid"; Str id]
        :: b ++ [row_get (columns df) r1 "ref_pmid"; Str id] :: c.
Proof.
  intros Hrows Href Hna H1 H2.
  unfold exploded. rewrite Hrows.
  rewrite flat_map_app. simpl. rewrite flat_map_app. simpl.
  rewrite <- Href.
  destruct (in_split _ _ H1) as (x1 & y1 & E1).
  destruct (in_split _ _ H2) as (x2 & y2 & E2).
  rewrite E1, E2.
  set (ref := row_get (columns df) r1 "ref_pmid") in *.
  set (pre := flat_map _ before).
  set (mid := flat_map _ between).
  set (post := flat_map _ after).
  exists (pre ++ map (fun n => [ref; Str n]) x1),
         (map (fun n => [ref; Str n]) y1 ++ mid ++ map (fun n => [ref; Str n]) x2),
         (map (fun n => [ref; Str n]) y2 ++ post).
  destruct ref; try (now destruct Hna);
    rewrite !map_app; simpl; rewrite <- !app_assoc; simpl;
    rewrite <- ?app_assoc; reflexivity.
Qed.

(** X22: when two rows of the phase-3 table have the same non-missing
    [ref_pmid] and one trial identifier is derived from both, as when
    two guidelines cite the same article, [validate_phase3] appends the
    warning about duplicate identifiers within one PMID and returns
    [False]. *)
Theorem validate_phase3_flags_repeated_trial (phase3_df phase2_df : DataFrame)
  (r1 r2 : list cell) (before between after : list (list cell)) (id : string)
  (st : logs) :
  rows phase3_df = before ++ r1 :: between ++ r2 :: after ->
  row_get (columns phase3_df) r1 "ref_pmid" = row_get (columns phase3_df) r2 "ref_pmid" ->
  row_get (columns phase3_df) r1 "ref_pmid" <> NA ->
  In id (_parse_ncts_from_row (columns phase3_df) r1) ->
  In id (_parse_ncts_from_row (columns phase3_df) r2) ->
  has_column phase2_df "ref_pmid" = true ->
  has_column phase3_df "guideline_pmid" = true ->
  has_column phase3_df "ref_pmid" = true ->
  exists ws es,
    validate_phase3 phase3_df phase2_df st = (Ok false, app_logs st ws es)
    /\ In (DuplicateNctsWithinPmid (count_true (duplicated_first [] (exploded phase3_df))))
          ws
    /\ 0 < count_true (duplicated_first [] (exploded phase3_df)).
Proof.
  intros Hrows Href Hna H1 H2 Hp2 Hg Hr.
  destruct (exploded_repeated phase3_df r1 r2 before between after id Hrows Href Hna H1 H2)
    as (a & b & c & Hex).
  assert (Hdup : (count_true (duplicated_first [] (exploded phase3_df)) >? 0) = true).
  { rewrite Hex. apply count_true_in. apply duplicated_first_repeat. }
  unfold validate_phase3.
  unfold getitem. rewrite Hp2.
  unfold lift at 1. unfold bind at 1.
  step_total. destruct a0 as [passed msg].
  cbn [filter]. rewrite Hg, Hr. cbn [negb]. cbv iota.
  step_total.
  step_total. destruct a1 as [passed' msg'].
  do 4 step_total.
  cbv zeta.
  destruct (exploded phase3_df) as [| p rest] eqn:Hexp.
  { destruct a; discriminate Hex. }
  rewrite Hdup.
  rewrite bind_warn_ret.
  cbv zeta. unfold bind, errors_count, ret.
  rewrite all_with_false. cbn [andb].
  rewrite !app_logs_app.
  eexists. eexists.
  split; [reflexivity |].
  split; [rewrite !in_app_iff; simpl; tauto |].
  now apply Z.gtb_lt in Hdup.
Qed.

Lemma validate_phase3_flags_repeated_trial_witness :
  exists ws es,
    validate_phase3 phase3_shared_trial phase2_example no_logs
    = (Ok false, app_logs no_logs ws es)
    /\ In (DuplicateNctsWithinPmid
             (count_true (duplicated_first [] (exploded phase3_shared_trial))))
          ws
    /\ 0 < count_true (duplicated_first [] (exploded phase3_shared_trial)).
Proof.
  apply (validate_phase3_flags_repeated_trial phase3_shared_trial phase2_example
           [Int 1; Int 10; Str "NCT01234567"] [Int 2; Int 10; Str "nct01234567"]
           [] [] [] "NCT01234567" no_logs).
  - reflexivity.
  - reflexivity.
  - vm_compute. discriminate.
  - vm_compute. tauto.
  - vm_compute. tauto.
  - reflexivity.
  - reflexivity.
  - reflexivity.
Defined.

(** *** [validate_phase7b] *)

Lemma single_key_duplicates (df : DataFrame) (c : string) :
  (count_true (duplicated_all (key_tuples df [c])) >? 0) = false <-> NoDup (column df c).
Proof. now rewrite duplicated_all_none, key_tuples_single, NoDup_singletons. Qed.

Lemma len_nonneg (df : DataFrame) : 0 <= len df.
Proof. unfold len. lia. Qed.

Ltac bool_facts :=
  repeat match goal with
         | H : (_ <=? _) = true |- _ => apply Z.leb_le in H
         | H : (_ <=? _) = false |- _ => apply Z.leb_gt in H
         | H : (_ <? _) = true |- _ => apply Z.ltb_lt in H
         | H : (_ <? _) = false |- _ => apply Z.ltb_ge in H
         | H : (_ =? _) = true |- _ => apply Z.eqb_eq in H
         | H : (_ =? _) = false |- _ => apply Z.eqb_neq in H
         end.

(** X23: [validate_phase7b] always returns, and returns [True] exactly
    when the deduplicated table has more rows than that of phase 7, has
    the column [ref_pmid] without a repeated value, and has no more rows
    than the table with citations; it returns [True] exactly when it
    appends nothing. *)
Theorem validate_phase7b_verdict
  (phase7b_dedup_df phase7b_citations_df phase3_df phase7_dedup_df : DataFrame)
  (st : logs) :
  exists verdict ws es,
    validate_phase7b phase7b_dedup_df phase7b_citations_df phase3_df phase7_dedup_df st
    = (Ok verdict, app_logs st ws es)
    /\ (verdict = true <->
        len phase7_dedup_df < len phase7b_dedup_df
        /\ has_column phase7b_dedup_df "ref_pmid" = true
        /\ NoDup (column phase7b_dedup_df "ref_pmid")
        /\ len phase7b_dedup_df <= len phase7b_citations_df)
    /\ (verdict = true <-> ws = [] /\ es = []).
Proof.
  pose proof (single_key_duplicates phase7b_dedup_df "ref_pmid") as Hdup.
  pose proof (len_nonneg phase7_dedup_df) as H0.
  unfold validate_phase7b, check_no_duplicates. cbv zeta. cbn [filter].
  unfold bind, ret, warn, error.
  destruct (len phase7b_dedup_df <=? len phase7_dedup_df) eqn:E1;
    destruct (len phase7b_dedup_df =? 0) eqn:E2;
    destruct (has_column phase7b_dedup_df "ref_pmid") eqn:E3; cbn [negb];
    destruct (count_true (duplicated_all (key_tuples phase7b_dedup_df ["ref_pmid"])) >? 0)
      eqn:E4;
    destruct (len phase7b_citations_df <? len phase7b_dedup_df) eqn:E5;
    cbn [app all forallb andb WARNINGS ERRORS];
    bool_facts;
    match goal with
    | |- exists v ws es, (Ok _, {| WARNINGS := WARNINGS st ++ ?w; ERRORS := ERRORS st ++ ?e |})
                         = _ /\ _ =>
        eexists; exists w, e
    | |- exists v ws es, (Ok _, {| WARNINGS := WARNINGS st ++ ?w; ERRORS := ERRORS st |})
                         = _ /\ _ =>
        eexists; exists w, []
    | |- exists v ws es, (Ok _, {| WARNINGS := WARNINGS st; ERRORS := ERRORS st ++ ?e |})
                         = _ /\ _ =>
        eexists; exists [], e
    | |- exists v ws es, (Ok _, {| WARNINGS := (WARNINGS st ++ ?w) ++ ?w';
                                   ERRORS := ERRORS st |}) = _ /\ _ =>
        eexists; exists (w ++ w'), []
    | |- exists v ws es, (Ok _, {| WARNINGS := (WARNINGS st ++ ?w) ++ ?w';
                                   ERRORS := ERRORS st ++ ?e |}) = _ /\ _ =>
        eexists; exists (w ++ w'), e
    | |- exists v ws es, (Ok _, {| WARNINGS := WARNINGS st ++ ?w;
                                   ERRORS := (ERRORS st ++ ?e) ++ ?e' |}) = _ /\ _ =>
        eexists; exists w, (e ++ e')
    | |- exists v ws es, (Ok _, {| WARNINGS := WARNINGS st;
                                   ERRORS := (ERRORS st ++ ?e) ++ ?e' |}) = _ /\ _ =>
        eexists; exists [], (e ++ e')
    | |- exists v ws es, (Ok _, st) = _ /\ _ =>
        eexists; exists [], []
    end;
    (split; [unfold app_logs; rewrite ?app_nil_r, ?app_assoc; try reflexivity;
             destruct st; reflexivity |]);
    (split; [| split; [intros Hv; try discriminate Hv; split; reflexivity
                      | intros [Hw He]; try discriminate Hw; try discriminate He;
                        reflexivity]]);
    (split;
     [ intros Hv; try discriminate Hv;
       repeat split; try lia; try reflexivity; now apply Hdup
     | intros (Ha & Hb & Hc & Hd); try reflexivity; exfalso;
       first [ lia | discriminate Hb | apply Hdup in Hc; discriminate Hc ] ]).
Qed.

(** *** [run_all_validations] *)

Lemma all_true_iff (l : list (string * bool)) :
  all (map snd l) = true <-> Forall (fun p => snd p = true) l.
Proof.
  unfold all. rewrite forallb_forall, Forall_forall. split.
  - intros H p Hin. apply H. now apply in_map.
  - intros H b Hin. apply in_map_iff in Hin. destruct Hin as (p & <- & Hin). now apply H.
Qed.

Lemma no_errors_iff (st : logs) :
  (Z.of_nat (List.length (ERRORS st)) =? 0) = true <-> ERRORS st = [].
Proof.
  destruct (ERRORS st); simpl; split; intros H; try reflexivity; discriminate H.
Qed.

Lemma load_all_file_not_found (fs : output_folder) (path : string) :
  load_all fs = Raise (FileNotFoundError path) ->
  exists name, In name required_files /\ fs name = None.
Proof.
  unfold load_all, load_phase7b, read_csv, rbind, required_files. intros H.
  repeat lazymatch type of H with
         | context [fs ?n] =>
             let E := fresh "E" in
             destruct (fs n) eqn:E;
             [| try (exists n; split; [simpl; tauto | exact E])]
         end;
    discriminate H.
Qed.

Lemma load_all_ok (fs : output_folder) (d : phase_data)
  (phase7b : option (DataFrame * DataFrame)) :
  load_all fs = Ok (d, phase7b) ->
  (forall name, In name required_files -> fs name <> None)
  /\ phase7b = match fs "phase7b_all_trials_deduplicated.csv",
                     fs "phase7b_all_trials_with_citations.csv" with
               | Some a, Some b => Some (a, b)
               | _, _ => None
               end.
Proof.
  unfold load_all, load_phase7b, read_csv, rbind, required_files. intros H.
  repeat lazymatch type of H with
         | context [fs ?n] =>
             let E := fresh "E" in
             destruct (fs n) eqn:E; [| try discriminate H]
         end;
    inversion H; subst;
    (split; [| reflexivity]);
    intros name Hin; simpl in Hin;
    repeat (destruct Hin as [<- | Hin]; [congruence |]); destruct Hin.
Qed.

Ltac step_with H :=
  cbv zeta beta;
  lazymatch goal with
  | |- ex (fun _ => ex (fun _ => bind ?m ?k ?s = _)) =>
      let a := fresh "r" in
      let ws := fresh "ws" in
      let es := fresh "es" in
      let E := fresh "E" in
      destruct (H s) as (a & ws & es & E); rewrite (bind_ok _ _ _ _ _ E); clear E
  | |- ex (fun _ => ex (fun _ => bind ?m ?k ?s = _ /\ _)) =>
      let a := fresh "r" in
      let ws := fresh "ws" in
      let es := fresh "es" in
      let E := fresh "E" in
      destruct (H s) as (a & ws & es & E); rewrite (bind_ok _ _ _ _ _ E); clear E
  end.

(** X24: when all required files are present, [run_all_validations]
    returns exactly when the tables have the six columns that the
    validators index: [PMID] in phase 1, [guideline_pmid], [ref_doi],
    [ref_title] and [ref_pmid] in phase 2, [nct_number] in phase 4.
    Otherwise the [KeyError] of the first missing one leaves the call,
    which then gives no summary. *)
Theorem run_all_validations_needs_columns (fs : output_folder) (st : logs)
  (d : phase_data) (phase7b : option (DataFrame * DataFrame)) :
  load_all fs = Ok (d, phase7b) ->
  if has_column (phase1 d) "PMID" && has_column (phase2 d) "guideline_pmid"
     && has_column (phase2 d) "ref_doi" && has_column (phase2 d) "ref_title"
     && has_column (phase2 d) "ref_pmid" && has_column (phase4 d) "nct_number"
  then exists r st', run_all_validations fs st = (Ok r, st')
  else exists column st',
         run_all_validations fs st = (Raise (KeyError column), st')
         /\ In column ["PMID"; "guideline_pmid"; "ref_doi"; "ref_title"; "ref_pmid";
                       "nct_number"].
Proof.
  intros Hload.
  unfold run_all_validations.
  rewrite (bind_ok reset_logs _ st {| WARNINGS := []; ERRORS := [] |} tt eq_refl).
  rewrite Hload. cbv beta iota zeta.
  destruct (has_column (phase1 d) "PMID") eqn:H1; cbn [andb].
  2:{ destruct (validate_phase1_key_error (phase1 d) {| WARNINGS := []; ERRORS := [] |} H1)
        as (ws & E).
      exists "PMID". eexists. rewrite (bind_raise _ _ _ _ _ E).
      split; [reflexivity | simpl; tauto]. }
  destruct (has_column (phase2 d) "guideline_pmid" && has_column (phase2 d) "ref_doi"
            && has_column (phase2 d) "ref_title") eqn:H2.
  2:{ assert (H2' : has_column (phase1 d) "PMID" && has_column (phase2 d) "guideline_pmid"
                    && has_column (phase2 d) "ref_doi" && has_column (phase2 d) "ref_title"
                    = false).
      { rewrite H1. cbn [andb]. exact H2. }
      cbn [andb].
      destruct (total_validate_phase1 (phase1 d) H1 {| WARNINGS := []; ERRORS := [] |})
        as (r1 & ws1 & es1 & E1).
      rewrite (bind_ok _ _ _ _ _ E1). cbv zeta beta.
      destruct (validate_phase2_key_error (phase2 d) (phase1 d) (app_logs {| WARNINGS := []; ERRORS := [] |} ws1 es1) H2')
        as (c & ws & E & Hc).
      exists c. eexists. rewrite (bind_raise _ _ _ _ _ E).
      split; [reflexivity | simpl in *; tauto]. }
  assert (H2' : has_column (phase1 d) "PMID" && has_column (phase2 d) "guideline_pmid"
                && has_column (phase2 d) "ref_doi" && has_column (phase2 d) "ref_title"
                = true).
  { rewrite H1. cbn [andb]. exact H2. }
  cbn [andb].
  destruct (has_column (phase2 d) "ref_pmid") eqn:H3; cbn [andb].
  2:{ destruct (total_validate_phase1 (phase1 d) H1 {| WARNINGS := []; ERRORS := [] |})
        as (r1 & ws1 & es1 & E1).
      rewrite (bind_ok _ _ _ _ _ E1). cbv zeta beta.
      destruct (total_validate_phase2 (phase2 d) (phase1 d) H2' (app_logs {| WARNINGS := []; ERRORS := [] |} ws1 es1))
        as (r2 & ws2 & es2 & E2).
      rewrite (bind_ok _ _ _ _ _ E2). cbv zeta beta.
      exists "ref_pmid". eexists.
      rewrite (bind_raise _ _ _ _ _ (validate_phase3_key_error (phase3 d) (phase2 d) _ H3)).
      split; [reflexivity | simpl; tauto]. }
  destruct (has_column (phase4 d) "nct_number") eqn:H4.
  - step_with (total_validate_phase1 (phase1 d) H1).
    step_with (total_validate_phase2 (phase2 d) (phase1 d) H2').
    step_with (total_validate_phase3 (phase3 d) (phase2 d) H3).
    step_with (total_validate_phase4 (phase4 d) (phase3 d)).
    step_with (total_validate_phase5 (phase5 d) (phase1 d)).
    step_with (total_validate_phase6 (phase6 d) (phase3 d)).
    step_with (total_validate_phase7 (phase7_dedup d) (phase7_with_dups d) (phase4 d) H4).
    destruct phase7b as [[b1 b2] |].
    + cbv zeta beta.
      match goal with
      | |- ex (fun _ => ex (fun _ => bind (bind _ _) _ ?s = _)) =>
          destruct (total_validate_phase7b b1 b2 (phase3 d) (phase7_dedup d) s)
            as (r7 & ws7 & es7 & E7)
      end.
      unfold bind at 1. rewrite (bind_ok _ _ _ _ _ E7).
      unfold ret, bind, errors_count. eexists. eexists. reflexivity.
    + unfold ret, bind, errors_count. eexists. eexists. reflexivity.
  - step_with (total_validate_phase1 (phase1 d) H1).
    step_with (total_validate_phase2 (phase2 d) (phase1 d) H2').
    step_with (total_validate_phase3 (phase3 d) (phase2 d) H3).
    step_with (total_validate_phase4 (phase4 d) (phase3 d)).
    step_with (total_validate_phase5 (phase5 d) (phase1 d)).
    step_with (total_validate_phase6 (phase6 d) (phase3 d)).
    exists "nct_number". eexists.
    rewrite (bind_raise _ _ _ _ _ (validate_phase7_key_error _ _ (phase4 d) _ H4)).
    split; [reflexivity | simpl; tauto].
Qed.

Lemma run_all_validations_needs_columns_witness :
  exists column st',
    run_all_validations folder_of_empty_tables no_logs = (Raise (KeyError column), st')
    /\ In column ["PMID"; "guideline_pmid"; "ref_doi"; "ref_title"; "ref_pmid";
                  "nct_number"].
Proof.
  exact (run_all_validations_needs_columns folder_of_empty_tables no_logs _ _ eq_refl).
Defined.

Lemma bind_assoc {A B C : Type} (m : M A) (f : A -> M B) (k : B -> M C) (st : logs) :
  bind (bind m f) k st = bind m (fun a => bind (f a) k) st.
Proof. unfold bind. destruct (m st) as [[a | e] st']; reflexivity. Qed.

Ltac split_step H :=
  cbv beta iota zeta in H;
  lazymatch type of H with
  | bind ?m ?k ?s = _ =>
      let r := fresh "r" in
      let e := fresh "e" in
      let s' := fresh "s" in
      let E := fresh "E" in
      destruct (m s) as [[r | e] s'] eqn:E;
      [ rewrite (bind_ok _ _ _ _ _ E) in H
      | rewrite (bind_raise _ _ _ _ _ E) in H; discriminate H ]
  end.

(** X25: when [run_all_validations] returns, its first result is [True]
    exactly when the summary is not empty, every phase of the summary
    passed and [ERRORS] is empty at the end. The summary is empty exactly
    when a required file is missing; otherwise it lists phases 1 to 7 in
    order, followed by phase 7B exactly when both of its files exist. *)
Theorem run_all_validations_verdict (fs : output_folder) (st st' : logs)
  (all_passed : bool) (results : list (string * bool)) :
  run_all_validations fs st = (Ok (all_passed, results), st') ->
  (all_passed = true <->
   results <> [] /\ Forall (fun p => snd p = true) results /\ ERRORS st' = [])
  /\ (results = [] <-> exists name, In name required_files /\ fs name = None)
  /\ (results <> [] ->
      map fst results
      = ["Phase 1"; "Phase 2"; "Phase 3"; "Phase 4"; "Phase 5"; "Phase 6"; "Phase 7"]
        ++ match fs "phase7b_all_trials_deduplicated.csv",
                 fs "phase7b_all_trials_with_citations.csv" with
           | Some _, Some _ => ["Phase 7B"]
           | _, _ => []
           end).
Proof.
  intros H.
  unfold run_all_validations in H.
  rewrite (bind_ok reset_logs _ st {| WARNINGS := []; ERRORS := [] |} tt eq_refl) in H.
  destruct (load_all fs) as [[d phase7b] | e] eqn:Hload.
  - do 7 split_step H.
    assert (Hfs : forall name, In name required_files -> fs name <> None)
      by apply (load_all_ok fs d phase7b Hload).
    assert (H7b : phase7b = match fs "phase7b_all_trials_deduplicated.csv",
                                  fs "phase7b_all_trials_with_citations.csv" with
                            | Some a, Some b => Some (a, b)
                            | _, _ => None
                            end)
      by apply (load_all_ok fs d phase7b Hload).
    assert (Hresults :
              exists rest,
                results = [("Phase 1", r); ("Phase 2", r0); ("Phase 3", r1); ("Phase 4", r2);
                           ("Phase 5", r3); ("Phase 6", r4); ("Phase 7", r5)] ++ rest
                /\ map fst rest
                   = match fs "phase7b_all_trials_deduplicated.csv",
                           fs "phase7b_all_trials_with_citations.csv" with
                     | Some _, Some _ => ["Phase 7B"]
                     | _, _ => []
                     end
                /\ all_passed
                   = all (map snd results) && (Z.of_nat (List.length (ERRORS st')) =? 0)).
    { cbv beta iota zeta in H.
      destruct phase7b as [[b1 b2] |].
      - rewrite bind_assoc in H. split_step H.
        unfold bind, ret, errors_count in H. simpl in H.
        inversion H; subst.
        exists [("Phase 7B", r6)].
        split; [reflexivity |].
        split; [| reflexivity].
        destruct (fs "phase7b_all_trials_deduplicated.csv");
          destruct (fs "phase7b_all_trials_with_citations.csv"); try discriminate H7b.
        reflexivity.
      - unfold bind, ret, errors_count in H. simpl in H.
        inversion H; subst.
        exists [].
        split; [reflexivity |].
        split; [| reflexivity].
        destruct (fs "phase7b_all_trials_deduplicated.csv");
          destruct (fs "phase7b_all_trials_with_citations.csv"); try discriminate H7b;
          reflexivity. }
    destruct Hresults as (rest & Hres & Hrest & Hall).
    split; [| split].
    + rewrite Hall, andb_true_iff, all_true_iff, no_errors_iff.
      split; [intros [Ha Hb] | tauto].
      split; [| tauto]. rewrite Hres. discriminate.
    + split.
      * rewrite Hres. discriminate.
      * intros (name & Hin & Hnone). now destruct (Hfs name Hin).
    + intros _. rewrite Hres, map_app, Hrest. reflexivity.
  - destruct e; try (unfold raise in H; discriminate H).
    unfold ret in H. inversion H; subst.
    split; [| split].
    + split; [discriminate | intros [Hne _]; now destruct Hne].
    + split; [intros _ | reflexivity].
      now apply (load_all_file_not_found fs path).
    + intros Hne. now destruct Hne.
Qed.

Lemma run_all_validations_verdict_witness :
  let results :=
    [("Phase 1", true); ("Phase 2", true); ("Phase 3", true); ("Phase 4", true);
     ("Phase 5", true); ("Phase 6", true); ("Phase 7", true)] in
  let st' := {| WARNINGS := [MissingIsClinicalTrial]; ERRORS := [] |} in
  (true = true <->
   results <> [] /\ Forall (fun p => snd p = true) results /\ ERRORS st' = [])
  /\ (results = [] <-> exists name, In name required_files /\ passing_folder name = None)
  /\ (results <> [] ->
      map fst results
      = ["Phase 1"; "Phase 2"; "Phase 3"; "Phase 4"; "Phase 5"; "Phase 6"; "Phase 7"]
        ++ match passing_folder "phase7b_all_trials_deduplicated.csv",
                 passing_folder "phase7b_all_trials_with_citations.csv" with
           | Some _, Some _ => ["Phase 7B"]
           | _, _ => []
           end).
Proof.
  apply (run_all_validations_verdict passing_folder no_logs).
  vm_compute. reflexivity.
Defined.

End ValidationExtras.

(* ------------------------------------------------------------------ *)
(** ** Properties of the merge check *)

Module MergeExtras.

Import Py Pandas Validation Spec Props PyProofs ValidationProofs.
Import Merge.
Local Open Scope list_scope.








Lemma getitems_ok (df : DataFrame) (merge_keys : list string) :
  (forall k, In k merge_keys -> has_column df k = true) ->
  getitems df merge_keys = Ok (key_tuples df merge_keys).
Proof.
  intros H. unfold getitems.
  destruct (filter (fun c => negb (has_column df c)) merge_keys) as [| c l] eqn:E;
    [reflexivity |].
  assert (Hc : In c (filter (fun c => negb (has_column df c)) merge_keys))
    by (rewrite E; now left).
  apply filter_In in Hc. destruct Hc as [Hin Hc].
  rewrite (H c Hin) in Hc. discriminate Hc.
Qed.

Lemma getitems_raise (df : DataFrame) (merge_keys : list string) (e : exn) :
  getitems df merge_keys = Raise e ->
  (exists label, e = KeyError label)
  /\ exists k, In k merge_keys /\ has_column df k = false.
Proof.
  unfold getitems.
  destruct (filter (fun c => negb (has_column df c)) merge_keys) as [| c l] eqn:E;
    [discriminate |].
  intros H. inversion H. split; [eexists; reflexivity |].
  assert (Hc : In c (filter (fun c => negb (has_column df c)) merge_keys))
    by (rewrite E; now left).
  apply filter_In in Hc. destruct Hc as [Hin Hc].
  exists c. split; [exact Hin |]. now destruct (has_column df c).
Qed.

Lemma getitems_cases (df : DataFrame) (merge_keys : list string) :
  (getitems df merge_keys = Ok (key_tuples df merge_keys)
   /\ forall k, In k merge_keys -> has_column df k = true)
  \/ (exists label, getitems df merge_keys = Raise (KeyError label))
     /\ exists k, In k merge_keys /\ has_column df k = false.
Proof.
  destruct (getitems df merge_keys) as [t | e] eqn:E.
  - left.
    assert (H : forall k, In k merge_keys -> has_column df k = true).
    { intros k Hin. destruct (has_column df k) eqn:Hk; [reflexivity |].
      unfold getitems in E.
      destruct (filter (fun c => negb (has_column df c)) merge_keys) as [| c l] eqn:F;
        [| discriminate E].
      assert (Hc : In k (filter (fun c => negb (has_column df c)) merge_keys))
        by (apply filter_In; split; [exact Hin | now rewrite Hk]).
      rewrite F in Hc. destruct Hc. }
    split; [| exact H]. rewrite <- E. now apply getitems_ok.
  - right. destruct (getitems_raise df merge_keys e E) as [[label ->] Hk].
    split; [now exists label | exact Hk].
Qed.





(** X28: when [check_merge_integrity] returns, its messages hold the
    many-to-many warning exactly when a key tuple is repeated in the
    left table and one is repeated in the right table; the check passed
    exactly when the only message is the success line; without a
    positive expected count it passes exactly when the keys of at least
    one side are unique. [ERRORS] is left as it was, and [WARNINGS] gets
    the returned messages when the check failed and nothing when it
    passed. *)
Theorem merge_many_to_many (left_df right_df : DataFrame) (merge_keys : list string)
  (expected : Z) (phase_name : string) (st st' : logs) (passed : bool)
  (messages : list merge_message) (predicted_count : Z) :
  check_merge_integrity left_df right_df merge_keys expected phase_name st
  = (Ok (passed, messages, predicted_count), st') ->
  ((exists l r, In (ManyToManyJoin phase_name l r) messages)
   <-> ~ NoDup (key_tuples left_df merge_keys) /\ ~ NoDup (key_tuples right_df merge_keys))
  /\ (passed = true <-> messages = [MergeOk phase_name predicted_count])
  /\ (expected <= 0 ->
      (passed = true
       <-> NoDup (key_tuples left_df merge_keys) \/ NoDup (key_tuples right_df merge_keys)))
  /\ ERRORS st' = ERRORS st
  /\ WARNINGS st' = WARNINGS st ++ (if passed then [] else map Merged messages).
Proof.
  unfold check_merge_integrity.
  destruct (getitems_cases left_df merge_keys) as [[El Hl] | [[ll El] _]];
    rewrite El; [| discriminate].
  destruct (getitems_cases right_df merge_keys) as [[Er Hr] | [[lr Er] _]];
    rewrite Er; [| discriminate].
  cbv zeta.
  set (L := key_tuples left_df merge_keys).
  set (R := key_tuples right_df merge_keys).
  assert (HL : (count_true (duplicated_all L) >? 0) = false <-> NoDup L).
  { unfold duplicated_all. rewrite count_true_map, no_shared_keys.
    destruct (filter _ L); simpl; split; intros H; try reflexivity; discriminate H. }
  assert (HR : (count_true (duplicated_all R) >? 0) = false <-> NoDup R).
  { unfold duplicated_all. rewrite count_true_map, no_shared_keys.
    destruct (filter _ R); simpl; split; intros H; try reflexivity; discriminate H. }
  intros H.
  assert (Hres :
            passed = negb ((count_true (duplicated_all L) >? 0)
                           && (count_true (duplicated_all R) >? 0))
                     && negb (existsb (fun m => match m with
                                                | PredictedDiffers _ _ _ _ => true
                                                | _ => false
                                                end) messages)
            /\ ((exists l r, In (ManyToManyJoin phase_name l r) messages)
                <-> (count_true (duplicated_all L) >? 0)
                    && (count_true (duplicated_all R) >? 0) = true)
            /\ (passed = true <-> messages = [MergeOk phase_name predicted_count])
            /\ (expected <= 0 ->
                existsb (fun m => match m with
                                  | PredictedDiffers _ _ _ _ => true
                                  | _ => false
                                  end) messages = false)
            /\ ERRORS st' = ERRORS st
            /\ WARNINGS st' = WARNINGS st ++ (if passed then [] else map Merged messages)).
  { revert H.
    destruct ((count_true (duplicated_all L) >? 0) && (count_true (duplicated_all R) >? 0));
      destruct (expected >? 0) eqn:Ee; try destruct (_ <? _)%float;
      intros H; inversion H; subst; clear H; simpl;
      (split; [reflexivity |]);
      (split; [split; [intros (l & r & Hin); intuition discriminate
                      | intros Ht; try discriminate Ht; eexists; eexists; left; reflexivity] |]);
      (split; [split; intros Ht; first [reflexivity | discriminate Ht] |]);
      (split; [intros Hle; try reflexivity; apply Z.gtb_lt in Ee; lia |]);
      (split; [reflexivity |]);
      rewrite ?app_nil_r, <- ?app_assoc; reflexivity. }
  destruct Hres as (Hpassed & Hmm & Hok & Hexp & Herr & Hwarn).
  split; [| split; [| split; [| split]]].
  - rewrite Hmm, andb_true_iff.
    split.
    + intros [Hl' Hr']. split; intros Hn; [apply HL in Hn | apply HR in Hn]; congruence.
    + intros [Hl' Hr']. split.
      * destruct (count_true (duplicated_all L) >? 0); [reflexivity |].
        destruct Hl'. now apply HL.
      * destruct (count_true (duplicated_all R) >? 0); [reflexivity |].
        destruct Hr'. now apply HR.
  - exact Hok.
  - intros Hle. rewrite Hpassed, (Hexp Hle). cbn [negb]. rewrite andb_true_r.
    rewrite negb_true_iff, andb_false_iff. now rewrite HL, HR.
  - exact Herr.
  - exact Hwarn.
Qed.

Lemma merge_many_to_many_witness :
  let st' := {| WARNINGS := WARNINGS merge_logs_example
                            ++ [Merged (ManyToManyJoin "Phase 5" 3 3)];
                ERRORS := ERRORS merge_logs_example |} in
  ((exists l r, In (ManyToManyJoin "Phase 5" l r) [ManyToManyJoin "Phase 5" 3 3])
   <-> ~ NoDup (key_tuples phase1_triple ["PMID"])
       /\ ~ NoDup (key_tuples phase1_triple ["PMID"]))
  /\ (false = true <-> [ManyToManyJoin "Phase 5" 3 3] = [MergeOk "Phase 5" 3])
  /\ (0 <= 0 ->
      (false = true
       <-> NoDup (key_tuples phase1_triple ["PMID"])
           \/ NoDup (key_tuples phase1_triple ["PMID"])))
  /\ ERRORS st' = ERRORS merge_logs_example
  /\ WARNINGS st'
     = WARNINGS merge_logs_example
       ++ (if false then [] else map Merged [ManyToManyJoin "Phase 5" 3 3]).
Proof.
  apply (merge_many_to_many phase1_triple phase1_triple ["PMID"] 0 "Phase 5"
           merge_logs_example).
  vm_compute. reflexivity.
Defined.

End MergeExtras.

